(** * McpHub: a shallow embedding of the MCP connection hub

    The development follows [src/services/mcp/McpHub.ts] (the hub class) and
    [src/services/mcp/handlers/NotificationHandlers.ts] (the modular copy of
    the notification handlers).  The hub is a single mutable object; its
    methods are modelled as state transformers that also return the list of
    calls made to the outside world (transport, SDK client, console, webview,
    callbacks).  Answers of the outside world (the peer's replies, the clock,
    failures of the transport) are arguments of the operations. *)

From stdpp Require Import gmap strings list pretty.

Open Scope Z_scope.

(** ** Data model *)

(** Keys of type [string | number] (progress tokens, request ids).  A JS
    [Map] keeps the string ["1"] and the number [1] apart. *)
Inductive Key : Type :=
  | KStr (s : string)
  | KNum (n : Z).

#[global] Instance Key_eq_dec : EqDecision Key.
Proof. solve_decision. Defined.

Definition Key_to_sum (k : Key) : string + Z :=
  match k with KStr s => inl s | KNum n => inr n end.

Definition Key_of_sum (x : string + Z) : Key :=
  match x with inl s => KStr s | inr n => KNum n end.

#[global] Instance Key_countable : Countable Key.
Proof.
  apply (inj_countable' Key_to_sum Key_of_sum).
  intros []; reflexivity.
Defined.

(** ["global" | "project"] *)
Inductive Source : Type := Global | Project.

#[global] Instance Source_eq_dec : EqDecision Source.
Proof. solve_decision. Defined.

(** [McpServer.status] *)
Inductive ServerStatus : Type := StConnected | StConnecting | StDisconnected.

#[global] Instance ServerStatus_eq_dec : EqDecision ServerStatus.
Proof. solve_decision. Defined.

(** Task status of the MCP 2025-11-25 task state machine. *)
Inductive TaskStatus : Type :=
  | Working | InputRequired | Completed | Failed | Cancelled.

#[global] Instance TaskStatus_eq_dec : EqDecision TaskStatus.
Proof. solve_decision. Defined.

Definition isTerminal (s : TaskStatus) : bool :=
  match s with
  | Completed | Failed | Cancelled => true
  | Working | InputRequired => false
  end.

Inductive ErrorLevel : Type := LvlError | LvlWarn | LvlInfo.

Record McpErrorEntry : Type := mkErrorEntry {
  err_message : string;
  err_timestamp : Z;
  err_level : ErrorLevel;
}.

(** The three transports of [ServerConfigSchema]. *)
Inductive TransportType : Type := Stdio | Sse | StreamableHttp.

(** A validated server configuration, reduced to the fields the hub reads.
    [cfg_json] stands for [JSON.stringify(config)]. *)
Record ServerConfig : Type := mkServerConfig {
  cfg_type : TransportType;
  cfg_disabled : bool;
  cfg_watchPaths : list string;
  cfg_args : list string;
  cfg_json : string;
}.

(** [McpServer]; [timeout] and [projectPath], which the hub only stores, are
    left out, and the listed tools, resources and prompts are kept as names. *)
Record McpServer : Type := mkServer {
  name : string;
  config : string;
  status : ServerStatus;
  error : option string;
  errorHistory : list McpErrorEntry;
  tools : list string;
  resources : list string;
  resourceTemplates : list string;
  prompts : list string;
  disabled : bool;
  source : option Source;
  instructions : option string;
}.

(** What the SDK client knows of the peer after the handshake:
    [client.getServerCapabilities()]. *)
Record ServerCapabilities : Type := mkCaps {
  cap_tasks : bool;
  cap_resources_subscribe : bool;
}.

(** The SDK [Client] object: an identity and the capabilities the peer
    declared ([None] before the handshake has completed). *)
Record Client : Type := mkClient {
  client_id : nat;
  serverCapabilities : option ServerCapabilities;
}.

(** The discriminated union [McpConnection]. *)
Inductive McpConnection : Type :=
  | Connected (server : McpServer) (client : Client) (transport : nat)
  | Disconnected (server : McpServer).

Definition server (c : McpConnection) : McpServer :=
  match c with Connected s _ _ => s | Disconnected s => s end.

Definition client (c : McpConnection) : option Client :=
  match c with Connected _ cl _ => Some cl | Disconnected _ => None end.

Definition transport (c : McpConnection) : option nat :=
  match c with Connected _ _ t => Some t | Disconnected _ => None end.

Definition with_server (f : McpServer -> McpServer) (c : McpConnection) : McpConnection :=
  match c with
  | Connected s cl t => Connected (f s) cl t
  | Disconnected s => Disconnected (f s)
  end.

(** Entry of [activeProgressTokens]; the callback is a handle. *)
Record ProgressTokenData : Type := mkTokenData {
  tok_serverName : string;
  tok_callback : option nat;
  lastProgress : Z;
}.

(** Entry of [pendingRequests]; the [AbortController] is a handle. *)
Record PendingRequestData : Type := mkPending {
  req_serverName : string;
  controller : nat;
}.

(** Entry of [activeTasks]. *)
Record TaskData : Type := mkTaskData {
  task_serverName : string;
  task_source : option Source;
  task_status : TaskStatus;
  task_progressToken : option Key;
  task_pollInterval : option Z;
  task_message : option string;
  createdAt : Z;
  updatedAt : Z;
}.

(** A chokidar watcher, described by what it watches. *)
Inductive FSWatcher : Type :=
  | WatchPaths (paths : list string)
  | WatchFile (path : string).

(** The fields of the [McpHub] class. *)
Record McpHub : Type := mkHub {
  connections : list McpConnection;
  isDisposed : bool;
  isConnecting : bool;
  isProgrammaticUpdate : bool;
  flagResetTimer : option nat;
  configChangeDebounceTimers : gmap string nat;
  fileWatchers : gmap string (list FSWatcher);
  sanitizedNameRegistry : gmap string string;
  activeProgressTokens : gmap Key ProgressTokenData;
  pendingRequests : gmap Key PendingRequestData;
  activeTasks : gmap string TaskData;
  resourceSubscriptions : gmap string (list string);
  settingsWatcher : option nat;
  projectMcpWatcher : option nat;
  disposables : list nat;
}.

(** The hub right after construction, before any server is initialised. *)
Definition newHub : McpHub :=
  {| connections := [];
     isDisposed := false;
     isConnecting := false;
     isProgrammaticUpdate := false;
     flagResetTimer := None;
     configChangeDebounceTimers := ∅;
     fileWatchers := ∅;
     sanitizedNameRegistry := ∅;
     activeProgressTokens := ∅;
     pendingRequests := ∅;
     activeTasks := ∅;
     resourceSubscriptions := ∅;
     settingsWatcher := None;
     projectMcpWatcher := None;
     disposables := [] |}.

(** Field updates. *)
Definition set_connections (v : list McpConnection) (h : McpHub) : McpHub :=
  {| connections := v; isDisposed := isDisposed h; isConnecting := isConnecting h;
     isProgrammaticUpdate := isProgrammaticUpdate h; flagResetTimer := flagResetTimer h;
     configChangeDebounceTimers := configChangeDebounceTimers h;
     fileWatchers := fileWatchers h; sanitizedNameRegistry := sanitizedNameRegistry h;
     activeProgressTokens := activeProgressTokens h; pendingRequests := pendingRequests h;
     activeTasks := activeTasks h; resourceSubscriptions := resourceSubscriptions h;
     settingsWatcher := settingsWatcher h; projectMcpWatcher := projectMcpWatcher h;
     disposables := disposables h |}.

Definition set_isConnecting (v : bool) (h : McpHub) : McpHub :=
  {| connections := connections h; isDisposed := isDisposed h; isConnecting := v;
     isProgrammaticUpdate := isProgrammaticUpdate h; flagResetTimer := flagResetTimer h;
     configChangeDebounceTimers := configChangeDebounceTimers h;
     fileWatchers := fileWatchers h; sanitizedNameRegistry := sanitizedNameRegistry h;
     activeProgressTokens := activeProgressTokens h; pendingRequests := pendingRequests h;
     activeTasks := activeTasks h; resourceSubscriptions := resourceSubscriptions h;
     settingsWatcher := settingsWatcher h; projectMcpWatcher := projectMcpWatcher h;
     disposables := disposables h |}.

Definition set_fileWatchers (v : gmap string (list FSWatcher)) (h : McpHub) : McpHub :=
  {| connections := connections h; isDisposed := isDisposed h; isConnecting := isConnecting h;
     isProgrammaticUpdate := isProgrammaticUpdate h; flagResetTimer := flagResetTimer h;
     configChangeDebounceTimers := configChangeDebounceTimers h;
     fileWatchers := v; sanitizedNameRegistry := sanitizedNameRegistry h;
     activeProgressTokens := activeProgressTokens h; pendingRequests := pendingRequests h;
     activeTasks := activeTasks h; resourceSubscriptions := resourceSubscriptions h;
     settingsWatcher := settingsWatcher h; projectMcpWatcher := projectMcpWatcher h;
     disposables := disposables h |}.

Definition set_sanitizedNameRegistry (v : gmap string string) (h : McpHub) : McpHub :=
  {| connections := connections h; isDisposed := isDisposed h; isConnecting := isConnecting h;
     isProgrammaticUpdate := isProgrammaticUpdate h; flagResetTimer := flagResetTimer h;
     configChangeDebounceTimers := configChangeDebounceTimers h;
     fileWatchers := fileWatchers h; sanitizedNameRegistry := v;
     activeProgressTokens := activeProgressTokens h; pendingRequests := pendingRequests h;
     activeTasks := activeTasks h; resourceSubscriptions := resourceSubscriptions h;
     settingsWatcher := settingsWatcher h; projectMcpWatcher := projectMcpWatcher h;
     disposables := disposables h |}.

Definition set_activeProgressTokens (v : gmap Key ProgressTokenData) (h : McpHub) : McpHub :=
  {| connections := connections h; isDisposed := isDisposed h; isConnecting := isConnecting h;
     isProgrammaticUpdate := isProgrammaticUpdate h; flagResetTimer := flagResetTimer h;
     configChangeDebounceTimers := configChangeDebounceTimers h;
     fileWatchers := fileWatchers h; sanitizedNameRegistry := sanitizedNameRegistry h;
     activeProgressTokens := v; pendingRequests := pendingRequests h;
     activeTasks := activeTasks h; resourceSubscriptions := resourceSubscriptions h;
     settingsWatcher := settingsWatcher h; projectMcpWatcher := projectMcpWatcher h;
     disposables := disposables h |}.

Definition set_pendingRequests (v : gmap Key PendingRequestData) (h : McpHub) : McpHub :=
  {| connections := connections h; isDisposed := isDisposed h; isConnecting := isConnecting h;
     isProgrammaticUpdate := isProgrammaticUpdate h; flagResetTimer := flagResetTimer h;
     configChangeDebounceTimers := configChangeDebounceTimers h;
     fileWatchers := fileWatchers h; sanitizedNameRegistry := sanitizedNameRegistry h;
     activeProgressTokens := activeProgressTokens h; pendingRequests := v;
     activeTasks := activeTasks h; resourceSubscriptions := resourceSubscriptions h;
     settingsWatcher := settingsWatcher h; projectMcpWatcher := projectMcpWatcher h;
     disposables := disposables h |}.

Definition set_activeTasks (v : gmap string TaskData) (h : McpHub) : McpHub :=
  {| connections := connections h; isDisposed := isDisposed h; isConnecting := isConnecting h;
     isProgrammaticUpdate := isProgrammaticUpdate h; flagResetTimer := flagResetTimer h;
     configChangeDebounceTimers := configChangeDebounceTimers h;
     fileWatchers := fileWatchers h; sanitizedNameRegistry := sanitizedNameRegistry h;
     activeProgressTokens := activeProgressTokens h; pendingRequests := pendingRequests h;
     activeTasks := v; resourceSubscriptions := resourceSubscriptions h;
     settingsWatcher := settingsWatcher h; projectMcpWatcher := projectMcpWatcher h;
     disposables := disposables h |}.

Definition set_isDisposed (v : bool) (h : McpHub) : McpHub :=
  {| connections := connections h; isDisposed := v; isConnecting := isConnecting h;
     isProgrammaticUpdate := isProgrammaticUpdate h; flagResetTimer := flagResetTimer h;
     configChangeDebounceTimers := configChangeDebounceTimers h;
     fileWatchers := fileWatchers h; sanitizedNameRegistry := sanitizedNameRegistry h;
     activeProgressTokens := activeProgressTokens h; pendingRequests := pendingRequests h;
     activeTasks := activeTasks h; resourceSubscriptions := resourceSubscriptions h;
     settingsWatcher := settingsWatcher h; projectMcpWatcher := projectMcpWatcher h;
     disposables := disposables h |}.

(** ** Calls to the outside world *)

(** Requests the hub sends to the peer through the SDK client. *)
Inductive PeerRequest : Type :=
  | ReqList (method : string)
  | ReqToolsCall (toolName args : string)
  | ReqCallToolAsTask (toolName args : string) (progressToken : option Key) (ttl : option Z)
  | ReqTasksGet (taskId : string)
  | ReqTasksResult (taskId : string)
  | ReqTasksCancel (taskId : string)
  | ReqTasksList (cursor : option string).

(** Messages posted to the webview. *)
Inductive WebviewMessage : Type :=
  | MsgMcpProgress (serverName : string) (progressToken : Key) (progress : Z)
      (total : option Z) (message : option string)
  | MsgMcpTaskStatus (serverName taskId : string) (st : TaskStatus)
      (statusMessage : option string) (pollInterval : option Z).

(** Everything a hub method does besides updating the hub, in call order. *)
Inductive Event : Type :=
  | WarnNonMonotonicProgress (progressToken : Key) (progress last : Z)
  | WarnCancellationWithoutRequestId
  | LogCancellationReceived (requestId : Key) (reason : option string)
  | DebugIgnoringCancellation (requestId : Key)
  | DebugStatusForUnknownTask (taskId : string)
  | ErrorFailedToCloseTransport (serverName e : string)
  | ErrorFailedToCloseConnection (serverName e : string)
  | ShowErrorMessage (prefix e : string)
  | ShowInformationMessage (key serverName : string)
  | InvokeProgressCallback (cb : nat) (progress : Z) (total : option Z) (message : option string)
  | InvokeStatusChange (st : TaskStatus) (message : option string)
  | ControllerAbort (ctrl : nat) (reason : option string)
  | PostMessageToWebview (m : WebviewMessage)
  | NotifyWebviewOfServerChanges
  | TransportClose (t : nat)
  | ClientClose (c : nat)
  | ClientConnect (c t : nat)
  | SendRequest (c : nat) (r : PeerRequest)
  | WatcherClose (w : FSWatcher)
  | ClearTimeout (t : nat)
  | WatcherDispose (w : nat)
  | DisposableDispose (d : nat)
  | Delay (ms : Z).

(** ** The hub monad: state, exceptions, and the trace of outside calls

    A JavaScript exception keeps the mutations made before it was thrown, so
    a run always carries the final hub. *)

Inductive ErrorCode : Type := InternalError | InvalidRequest.

(** Thrown values: an SDK [McpError] or any other [Error]. *)
Inductive Exn : Type :=
  | McpError (code : ErrorCode) (message : string)
  | OtherError (message : string).

(** [error instanceof Error ? error.message : `${error}`]; the SDK builds the
    message of an [McpError] from its JSON-RPC code and text. *)
Definition exn_message (e : Exn) : string :=
  match e with
  | McpError InternalError m => "MCP error -32603: " +:+ m
  | McpError InvalidRequest m => "MCP error -32600: " +:+ m
  | OtherError m => m
  end.

Inductive Outcome (A : Type) : Type :=
  | Returned (a : A)
  | Thrown (e : Exn).
Arguments Returned {A} a.
Arguments Thrown {A} e.

Record Run (A : Type) : Type := mkRun {
  outcome : Outcome A;
  final : McpHub;
  effects : list Event;
}.
Arguments mkRun {A} _ _ _.
Arguments outcome {A} _.
Arguments final {A} _.
Arguments effects {A} _.

Definition Hub (A : Type) : Type := McpHub -> Run A.

Definition ret {A} (a : A) : Hub A := fun h => mkRun (Returned a) h [].

Definition throw {A} (e : Exn) : Hub A := fun h => mkRun (Thrown e) h [].

Definition bind {A B} (m : Hub A) (k : A -> Hub B) : Hub B :=
  fun h =>
    let r := m h in
    match outcome r with
    | Returned a =>
        let r' := k a (final r) in
        mkRun (outcome r') (final r') (effects r ++ effects r')
    | Thrown e => mkRun (Thrown e) (final r) (effects r)
    end.

(** [try { m } catch (e) { handler e }] *)
Definition tryCatch {A} (m : Hub A) (handler : Exn -> Hub A) : Hub A :=
  fun h =>
    let r := m h in
    match outcome r with
    | Returned a => r
    | Thrown e =>
        let r' := handler e (final r) in
        mkRun (outcome r') (final r') (effects r ++ effects r')
    end.

(** A run preceded by earlier outside calls. *)
Definition prepend {A} (evs : list Event) (r : Run A) : Run A :=
  mkRun (outcome r) (final r) (evs ++ effects r).

Definition emit (e : Event) : Hub unit := fun h => mkRun (Returned tt) h [e].

Definition getHub : Hub McpHub := fun h => mkRun (Returned h) h [].

Definition modifyHub (f : McpHub -> McpHub) : Hub unit :=
  fun h => mkRun (Returned tt) (f h) [].

(** An awaited outside call whose answer is given: it returns or throws. *)
Definition await {A} (answer : Outcome A) : Hub A :=
  fun h => mkRun answer h [].

Definition when (b : bool) (m : Hub unit) : Hub unit :=
  if b then m else ret tt.

Declare Scope hub_scope.
Delimit Scope hub_scope with hub.
Notation "x <- m ;; k" := (bind m (fun x => k))
  (at level 100, m at next level, right associativity) : hub_scope.
Notation "m ;; k" := (bind m (fun _ => k))
  (at level 100, right associativity) : hub_scope.
Open Scope hub_scope.

(** [for (const x of xs) body x] *)
Fixpoint forEach {A} (xs : list A) (body : A -> Hub unit) : Hub unit :=
  match xs with
  | [] => ret tt
  | x :: xs' => body x ;; forEach xs' body
  end.

(** ** Notification handlers

    Registered inline in [connectToServer] and, as the same code, in
    [registerProgressHandler], [registerCancellationHandler] and
    [registerTaskStatusHandler].  [provider] is [None] when
    [providerRef.deref()] no longer yields the host, and otherwise the
    outcome of the awaited [postMessageToWebview].  A JavaScript number
    (progress, total, poll interval, time stamp) is modelled as an integer. *)

Definition postMessageToWebview (provider : option (Outcome unit)) (m : WebviewMessage)
    : Hub unit :=
  match provider with
  | Some answer => emit (PostMessageToWebview m) ;; await answer
  | None => ret tt
  end.

Record ProgressParams : Type := mkProgressParams {
  p_progressToken : Key;
  p_progress : Z;
  p_total : option Z;
  p_message : option string;
}.

Definition onProgressNotification (provider : option (Outcome unit)) (n : ProgressParams)
    : Hub unit :=
  h <- getHub ;;
  match activeProgressTokens h !! p_progressToken n with
  | Some tokenData =>
      when (bool_decide (p_progress n < lastProgress tokenData))
        (emit (WarnNonMonotonicProgress (p_progressToken n) (p_progress n)
                 (lastProgress tokenData))) ;;
      modifyHub (fun h =>
        set_activeProgressTokens
          (<[p_progressToken n :=
               {| tok_serverName := tok_serverName tokenData;
                  tok_callback := tok_callback tokenData;
                  lastProgress := p_progress n |}]> (activeProgressTokens h)) h) ;;
      match tok_callback tokenData with
      | Some cb => emit (InvokeProgressCallback cb (p_progress n) (p_total n) (p_message n))
      | None => ret tt
      end ;;
      postMessageToWebview provider
        (MsgMcpProgress (tok_serverName tokenData) (p_progressToken n)
           (p_progress n) (p_total n) (p_message n))
  | None => ret tt
  end.

Record CancelledParams : Type := mkCancelledParams {
  c_requestId : option Key;
  c_reason : option string;
}.

Definition onCancelledNotification (n : CancelledParams) : Hub unit :=
  match c_requestId n with
  | None => emit WarnCancellationWithoutRequestId
  | Some requestId =>
      h <- getHub ;;
      match pendingRequests h !! requestId with
      | Some pendingRequest =>
          emit (LogCancellationReceived requestId (c_reason n)) ;;
          emit (ControllerAbort (controller pendingRequest) (c_reason n)) ;;
          modifyHub (fun h => set_pendingRequests (delete requestId (pendingRequests h)) h)
      | None => emit (DebugIgnoringCancellation requestId)
      end
  end.

Record TaskStatusParams : Type := mkTaskStatusParams {
  ts_taskId : string;
  ts_status : TaskStatus;
  ts_statusMessage : option string;
  ts_pollInterval : option Z;
}.

(** [now] is the reading of [Date.now()]. *)
Definition onTaskStatusNotification (provider : option (Outcome unit)) (now : Z)
    (n : TaskStatusParams) : Hub unit :=
  h <- getHub ;;
  match activeTasks h !! ts_taskId n with
  | Some taskData =>
      modifyHub (fun h =>
        set_activeTasks
          (<[ts_taskId n :=
               {| task_serverName := task_serverName taskData;
                  task_source := task_source taskData;
                  task_status := ts_status n;
                  task_progressToken := task_progressToken taskData;
                  task_pollInterval :=
                    match ts_pollInterval n with
                    | Some p => Some p
                    | None => task_pollInterval taskData
                    end;
                  task_message := ts_statusMessage n;
                  createdAt := createdAt taskData;
                  updatedAt := now |}]> (activeTasks h)) h) ;;
      postMessageToWebview provider
        (MsgMcpTaskStatus (task_serverName taskData) (ts_taskId n) (ts_status n)
           (ts_statusMessage n) (ts_pollInterval n))
  | None => emit (DebugStatusForUnknownTask (ts_taskId n))
  end.

(** ** Progress tokens and pending requests *)

(** [token] is the value [crypto.randomUUID()] returned. *)
Definition generateProgressToken (token : string) (serverName : string)
    (callback : option nat) : Hub string :=
  modifyHub (fun h =>
    set_activeProgressTokens
      (<[KStr token := {| tok_serverName := serverName; tok_callback := callback;
                          lastProgress := 0 |}]> (activeProgressTokens h)) h) ;;
  ret token.

Definition clearProgressToken (token : Key) : Hub unit :=
  modifyHub (fun h => set_activeProgressTokens (delete token (activeProgressTokens h)) h).

(** [ctrl] is the [AbortController] the constructor returned. *)
Definition registerCancellableRequest (ctrl : nat) (serverName : string)
    (requestId : Key) : Hub nat :=
  modifyHub (fun h =>
    set_pendingRequests
      (<[requestId := {| req_serverName := serverName; controller := ctrl |}]>
         (pendingRequests h)) h) ;;
  ret ctrl.

Definition unregisterRequest (requestId : Key) : Hub unit :=
  modifyHub (fun h => set_pendingRequests (delete requestId (pendingRequests h)) h).

(** ** The host: code the hub calls but does not own

    [sanitizeMcpName], JSON parsing, [fast-deep-equal], the zod validation
    behind [validateServerConfig], and the [close()] methods of the SDK
    transport and client. *)
Class Host : Type := {
  RawConfig : Type;
  jsonParse : string -> Outcome RawConfig;
  validateServerConfig : RawConfig -> string -> Outcome ServerConfig;
  deepEqual : RawConfig -> RawConfig -> bool;
  sanitizeMcpName : string -> string;
  transportClose : nat -> Outcome unit;
  clientClose : nat -> Outcome unit;
}.

(** ** Connections *)

(** [conn.server.name === serverName && conn.server.source === source] *)
Definition matches (serverName : string) (src : Source) (c : McpConnection) : bool :=
  bool_decide (name (server c) = serverName) && bool_decide (source (server c) = Some src).

Definition matchesName (serverName : string) (c : McpConnection) : bool :=
  bool_decide (name (server c) = serverName).

(** [conn.server.source === "global" || !conn.server.source] *)
Definition isGlobal (c : McpConnection) : bool :=
  bool_decide (source (server c) = Some Global) || bool_decide (source (server c) = None).

Definition findConnection (serverName : string) (src : option Source)
    (conns : list McpConnection) : option McpConnection :=
  match src with
  | Some s => find (matches serverName s) conns
  | None =>
      match find (matches serverName Project) conns with
      | Some projectConn => Some projectConn
      | None => find (fun c => matchesName serverName c && isGlobal c) conns
      end
  end.

(** A mutation through the reference [find] returned: the first element
    satisfying [p] is replaced, the others are untouched. *)
Fixpoint updateFirst (p : McpConnection -> bool) (f : McpConnection -> McpConnection)
    (conns : list McpConnection) : list McpConnection :=
  match conns with
  | [] => []
  | c :: rest => if p c then f c :: rest else c :: updateFirst p f rest
  end.

(** The predicate [findConnection] searches with, when it finds something. *)
Definition finder (serverName : string) (src : option Source)
    (conns : list McpConnection) : McpConnection -> bool :=
  match src with
  | Some s => matches serverName s
  | None =>
      match find (matches serverName Project) conns with
      | Some _ => matches serverName Project
      | None => fun c => matchesName serverName c && isGlobal c
      end
  end.

(** A mutation of the object most recently pushed onto the array. *)
Definition updateLast (f : McpConnection -> McpConnection)
    (conns : list McpConnection) : list McpConnection :=
  match reverse conns with
  | [] => []
  | c :: rest => reverse rest ++ [f c]
  end.

Definition MAX_ERROR_LENGTH : nat := 1000.

(** [appendErrorMessage], as a function on the server record: the message is
    cut at [MAX_ERROR_LENGTH], pushed onto the history, and the history keeps
    its last 100 entries.  Lengths are counted in the characters of the
    model's strings. *)
Definition truncateError (err : string) : string :=
  if bool_decide (MAX_ERROR_LENGTH < String.length err)%nat
  then String.substring 0 MAX_ERROR_LENGTH err +:+ "...(error message truncated)"
  else err.

Definition appendErrorMessage (now : Z) (err : string) (level : ErrorLevel)
    (s : McpServer) : McpServer :=
  let truncatedError := truncateError err in
  let pushed :=
    errorHistory s ++ [{| err_message := truncatedError; err_timestamp := now;
                          err_level := level |}] in
  let kept :=
    if bool_decide (100 < length pushed)%nat
    then drop (length pushed - 100) pushed
    else pushed in
  {| name := name s; config := config s; status := status s;
     error := Some truncatedError; errorHistory := kept;
     tools := tools s; resources := resources s;
     resourceTemplates := resourceTemplates s; prompts := prompts s;
     disabled := disabled s; source := source s; instructions := instructions s |}.

Definition set_status (st : ServerStatus) (s : McpServer) : McpServer :=
  {| name := name s; config := config s; status := st;
     error := error s; errorHistory := errorHistory s;
     tools := tools s; resources := resources s;
     resourceTemplates := resourceTemplates s; prompts := prompts s;
     disabled := disabled s; source := source s; instructions := instructions s |}.

Definition set_error (e : option string) (s : McpServer) : McpServer :=
  {| name := name s; config := config s; status := status s;
     error := e; errorHistory := errorHistory s;
     tools := tools s; resources := resources s;
     resourceTemplates := resourceTemplates s; prompts := prompts s;
     disabled := disabled s; source := source s; instructions := instructions s |}.

Inductive DisableReason : Type := MCP_DISABLED | SERVER_DISABLED.

Definition createPlaceholderConnection (serverName : string) (cfg : ServerConfig)
    (src : Source) (reason : DisableReason) : McpConnection :=
  Disconnected
    {| name := serverName; config := cfg_json cfg; status := StDisconnected;
       error := None; errorHistory := [];
       tools := []; resources := []; resourceTemplates := []; prompts := [];
       disabled := match reason with SERVER_DISABLED => true | MCP_DISABLED => cfg_disabled cfg end;
       source := Some src; instructions := None |}.

(** *** File watchers *)

(** [arg.includes(needle)] *)
Definition includes (needle hay : string) : bool :=
  bool_decide (is_Some (String.index 0 needle hay)).

Definition removeFileWatchersForServer (serverName : string) : Hub unit :=
  h <- getHub ;;
  match fileWatchers h !! serverName with
  | Some watchers =>
      forEach watchers (fun w => emit (WatcherClose w)) ;;
      modifyHub (fun h => set_fileWatchers (delete serverName (fileWatchers h)) h)
  | None => ret tt
  end.

Definition removeAllFileWatchers : Hub unit :=
  h <- getHub ;;
  forEach (map_to_list (fileWatchers h))
    (fun kv => forEach kv.2 (fun w => emit (WatcherClose w))) ;;
  modifyHub (set_fileWatchers ∅).

Definition setupFileWatcher (serverName : string) (cfg : ServerConfig) : Hub unit :=
  modifyHub (fun h =>
    let existing := default [] (fileWatchers h !! serverName) in
    let added :=
      match cfg_type cfg with
      | Stdio =>
          (match cfg_watchPaths cfg with
           | [] => []
           | paths => [WatchPaths paths]
           end) ++
          (match find (includes "build/index.js") (cfg_args cfg) with
           | Some filePath => [WatchFile filePath]
           | None => []
           end)
      | Sse | StreamableHttp => []
      end in
    set_fileWatchers (<[serverName := existing ++ added]> (fileWatchers h)) h).

(** *** deleteConnection *)

(** The connections [deleteConnection] closes and removes. *)
Definition selected (serverName : string) (src : option Source) (c : McpConnection) : bool :=
  match src with
  | Some s => matches serverName s c
  | None => matchesName serverName c
  end.

(** The callback of the second [filter]: [true] keeps the connection. *)
Definition kept (serverName : string) (src : option Source) (c : McpConnection) : bool :=
  if negb (matchesName serverName c) then true
  else match src with
       | Some s => if negb (bool_decide (source (server c) = Some s)) then true else false
       | None => false
       end.

Definition closeConnection `{Host} (serverName : string) (c : McpConnection) : Hub unit :=
  tryCatch
    (match c with
     | Connected _ cl t =>
         emit (TransportClose t) ;;
         await (transportClose t) ;;
         emit (ClientClose (client_id cl)) ;;
         await (clientClose (client_id cl))
     | Disconnected _ => ret tt
     end)
    (fun e => emit (ErrorFailedToCloseTransport serverName (exn_message e))).

Definition deleteConnection `{Host} (serverName : string) (src : option Source) : Hub unit :=
  removeFileWatchersForServer serverName ;;
  h <- getHub ;;
  forEach (List.filter (selected serverName src) (connections h))
    (closeConnection serverName) ;;
  modifyHub (fun h =>
    set_connections (List.filter (kept serverName src) (connections h)) h) ;;
  h <- getHub ;;
  match List.filter (matchesName serverName) (connections h) with
  | [] => modifyHub (fun h =>
            set_sanitizedNameRegistry
              (delete (sanitizeMcpName serverName) (sanitizedNameRegistry h)) h)
  | _ :: _ => ret tt
  end.

(** *** connectToServer *)

(** What [client.connect] leaves in the client when it succeeds. *)
Record HandshakeResult : Type := mkHandshake {
  hs_capabilities : option ServerCapabilities;
  hs_instructions : option string;
}.

(** The outside world as one call of [connectToServer] meets it.
    [ce_transport] is the construction of the transport, including
    [transport.start()] for stdio; the four list answers are what the work
    inside the [try] of each [fetch...List] helper comes to. *)
Record ConnectEnv : Type := mkConnectEnv {
  ce_mcpEnabled : bool;
  ce_injected : Outcome ServerConfig;
  ce_transport : Outcome nat;
  ce_client : nat;
  ce_handshake : Outcome HandshakeResult;
  ce_tools : Outcome (list string);
  ce_resources : Outcome (list string);
  ce_resourceTemplates : Outcome (list string);
  ce_prompts : Outcome (list string);
  ce_now : Z;
}.

(** The shape shared by [fetchToolsList], [fetchResourcesList],
    [fetchResourceTemplatesList] and [fetchPromptsList]: without a connected
    connection the list is empty; otherwise the list request is sent, and any
    error is caught and turned into the empty list. *)
Definition fetchList (method : string) (answer : Outcome (list string))
    (serverName : string) (src : option Source) : Hub (list string) :=
  tryCatch
    (h <- getHub ;;
     match findConnection serverName src (connections h) with
     | Some (Connected _ cl _) =>
         emit (SendRequest (client_id cl) (ReqList method)) ;;
         await answer
     | Some (Disconnected _) | None => ret []
     end)
    (fun _ => ret []).

Definition fetchToolsList := fetchList "tools/list".
Definition fetchResourcesList := fetchList "resources/list".
Definition fetchResourceTemplatesList := fetchList "resources/templates/list".
Definition fetchPromptsList := fetchList "prompts/list".

Definition pushConnection (c : McpConnection) : Hub unit :=
  modifyHub (fun h => set_connections (connections h ++ [c]) h).

Definition mutateLast (f : McpConnection -> McpConnection) : Hub unit :=
  modifyHub (fun h => set_connections (updateLast f (connections h)) h).

Definition mutateFound (p : McpConnection -> bool) (f : McpConnection -> McpConnection) : Hub unit :=
  modifyHub (fun h => set_connections (updateFirst p f (connections h)) h).

Definition handshaken (hs : HandshakeResult) (c : McpConnection) : McpConnection :=
  match c with
  | Connected s cl t =>
      Connected
        {| name := name s; config := config s; status := StConnected;
           error := Some ""%string; errorHistory := errorHistory s;
           tools := tools s; resources := resources s;
           resourceTemplates := resourceTemplates s; prompts := prompts s;
           disabled := disabled s; source := source s;
           instructions := hs_instructions hs |}
        {| client_id := client_id cl; serverCapabilities := hs_capabilities hs |} t
  | Disconnected s => Disconnected s
  end.

Definition set_tools (v : list string) (s : McpServer) : McpServer :=
  {| name := name s; config := config s; status := status s;
     error := error s; errorHistory := errorHistory s;
     tools := v; resources := resources s;
     resourceTemplates := resourceTemplates s; prompts := prompts s;
     disabled := disabled s; source := source s; instructions := instructions s |}.

Definition set_resources (v : list string) (s : McpServer) : McpServer :=
  {| name := name s; config := config s; status := status s;
     error := error s; errorHistory := errorHistory s;
     tools := tools s; resources := v;
     resourceTemplates := resourceTemplates s; prompts := prompts s;
     disabled := disabled s; source := source s; instructions := instructions s |}.

Definition set_resourceTemplates (v : list string) (s : McpServer) : McpServer :=
  {| name := name s; config := config s; status := status s;
     error := error s; errorHistory := errorHistory s;
     tools := tools s; resources := resources s;
     resourceTemplates := v; prompts := prompts s;
     disabled := disabled s; source := source s; instructions := instructions s |}.

Definition set_prompts (v : list string) (s : McpServer) : McpServer :=
  {| name := name s; config := config s; status := status s;
     error := error s; errorHistory := errorHistory s;
     tools := tools s; resources := resources s;
     resourceTemplates := resourceTemplates s; prompts := v;
     disabled := disabled s; source := source s; instructions := instructions s |}.

Definition connectToServer `{Host} (env : ConnectEnv) (serverName : string)
    (cfg : ServerConfig) (src : Source) : Hub unit :=
  deleteConnection serverName (Some src) ;;
  modifyHub (fun h =>
    set_sanitizedNameRegistry
      (<[sanitizeMcpName serverName := serverName]> (sanitizedNameRegistry h)) h) ;;
  if negb (ce_mcpEnabled env) then
    pushConnection (createPlaceholderConnection serverName cfg src MCP_DISABLED)
  else if cfg_disabled cfg then
    pushConnection (createPlaceholderConnection serverName cfg src SERVER_DISABLED)
  else
    setupFileWatcher serverName cfg ;;
    tryCatch
      (configInjected <- await (ce_injected env) ;;
       t <- await (ce_transport env) ;;
       pushConnection
         (Connected
            {| name := serverName; config := cfg_json configInjected;
               status := StConnecting; error := None; errorHistory := [];
               tools := []; resources := []; resourceTemplates := []; prompts := [];
               disabled := cfg_disabled configInjected; source := Some src;
               instructions := None |}
            {| client_id := ce_client env; serverCapabilities := None |} t) ;;
       emit (ClientConnect (ce_client env) t) ;;
       hs <- await (ce_handshake env) ;;
       mutateLast (handshaken hs) ;;
       fetchedTools <- fetchToolsList (ce_tools env) serverName (Some src) ;;
       mutateLast (with_server (set_tools fetchedTools)) ;;
       fetchedResources <- fetchResourcesList (ce_resources env) serverName (Some src) ;;
       mutateLast (with_server (set_resources fetchedResources)) ;;
       fetchedTemplates <-
         fetchResourceTemplatesList (ce_resourceTemplates env) serverName (Some src) ;;
       mutateLast (with_server (set_resourceTemplates fetchedTemplates)) ;;
       fetchedPrompts <- fetchPromptsList (ce_prompts env) serverName (Some src) ;;
       mutateLast (with_server (set_prompts fetchedPrompts)))
      (fun e =>
         mutateFound (matches serverName src)
           (with_server (fun s =>
              appendErrorMessage (ce_now env) (exn_message e) LvlError
                (set_status StDisconnected s))) ;;
         throw e).

(** *** Transport callbacks *)

Definition notifyWebviewOfServerChanges (answer : Outcome unit) : Hub unit :=
  await answer ;; emit NotifyWebviewOfServerChanges.

Definition onTransportError (serverName : string) (src : Source) (e : Exn) (now : Z)
    (notify : Outcome unit) : Hub unit :=
  mutateFound (matches serverName src)
    (with_server (fun s =>
       appendErrorMessage now (exn_message e) LvlError (set_status StDisconnected s))) ;;
  notifyWebviewOfServerChanges notify.

Definition onTransportClose (serverName : string) (src : Source)
    (notify : Outcome unit) : Hub unit :=
  mutateFound (matches serverName src) (with_server (set_status StDisconnected)) ;;
  notifyWebviewOfServerChanges notify.

(** *** updateServerConnections *)

(** [s] between double quotes, as a template literal that quotes a name
    prints it. *)
Definition quoted (s : string) : string :=
  String (Ascii.ascii_of_nat 34) (s +:+ String (Ascii.ascii_of_nat 34) EmptyString).

(** The elements of [new Set(xs)] in iteration order. *)
Definition setOf (xs : list string) : list string :=
  reverse (remove_dups (reverse xs)).

Definition reconcileOne `{Host} (envs : string -> ConnectEnv) (src : Source)
    (entry : string * RawConfig) : Hub unit :=
  let '(serverName, rawConfig) := entry in
  h <- getHub ;;
  let currentConnection := findConnection serverName (Some src) (connections h) in
  match validateServerConfig rawConfig serverName with
  | Thrown e =>
      emit (ShowErrorMessage
              ("Invalid configuration for MCP server " +:+ quoted serverName) (exn_message e))
  | Returned validatedConfig =>
      match currentConnection with
      | None =>
          tryCatch
            (when (negb (cfg_disabled validatedConfig))
               (setupFileWatcher serverName validatedConfig) ;;
             connectToServer (envs serverName) serverName validatedConfig src)
            (fun e =>
               emit (ShowErrorMessage
                       ("Failed to connect to new MCP server " +:+ serverName)
                       (exn_message e)))
      | Some cc =>
          stored <- await (jsonParse (config (server cc))) ;;
          if negb (deepEqual stored rawConfig) then
            tryCatch
              (when (negb (cfg_disabled validatedConfig))
                 (setupFileWatcher serverName validatedConfig) ;;
               deleteConnection serverName (Some src) ;;
               connectToServer (envs serverName) serverName validatedConfig src)
              (fun e =>
                 emit (ShowErrorMessage
                         ("Failed to reconnect MCP server " +:+ serverName)
                         (exn_message e)))
          else ret tt
      end
  end.

Definition updateServerConnections `{Host} (envs : string -> ConnectEnv)
    (notify : Outcome unit) (newServers : list (string * RawConfig)) (src : Source)
    (manageConnectingState : bool) : Hub unit :=
  when manageConnectingState (modifyHub (set_isConnecting true)) ;;
  removeAllFileWatchers ;;
  h <- getHub ;;
  let currentConnections :=
    List.filter
      (fun c => bool_decide (source (server c) = Some src)
                || (bool_decide (source (server c) = None) && bool_decide (src = Global)))
      (connections h) in
  let currentNames := setOf (map (fun c => name (server c)) currentConnections) in
  let newNames := map fst newServers in
  forEach currentNames (fun nm =>
    if bool_decide (nm ∈ newNames) then ret tt else deleteConnection nm (Some src)) ;;
  forEach newServers (reconcileOne envs src) ;;
  notifyWebviewOfServerChanges notify ;;
  when manageConnectingState (modifyHub (set_isConnecting false)).

(** *** restartConnection *)

Record RestartEnv : Type := mkRestartEnv {
  re_mcpEnabled : bool;
  re_notifyBefore : Outcome unit;
  re_notifyAfter : Outcome unit;
  re_connect : ConnectEnv;
}.

Definition restartConnection `{Host} (env : RestartEnv) (serverName : string)
    (src : option Source) : Hub unit :=
  modifyHub (set_isConnecting true) ;;
  if negb (re_mcpEnabled env) then modifyHub (set_isConnecting false)
  else
    h <- getHub ;;
    (match findConnection serverName src (connections h) with
     | Some connection =>
         let cfgText := config (server connection) in
         if bool_decide (cfgText = ""%string) then ret tt
         else
           emit (ShowInformationMessage "mcp:info.server_restarting" serverName) ;;
           mutateFound (finder serverName src (connections h))
             (with_server (fun s => set_error (Some ""%string) (set_status StConnecting s))) ;;
           notifyWebviewOfServerChanges (re_notifyBefore env) ;;
           emit (Delay 500) ;;
           tryCatch
             (deleteConnection serverName (source (server connection)) ;;
              parsedConfig <- await (jsonParse cfgText) ;;
              tryCatch
                (validatedConfig <- await (validateServerConfig parsedConfig serverName) ;;
                 connectToServer (re_connect env) serverName validatedConfig
                   (default Global (source (server connection))) ;;
                 emit (ShowInformationMessage "mcp:info.server_connected" serverName))
                (fun e =>
                   emit (ShowErrorMessage
                           ("Invalid configuration for MCP server " +:+ quoted serverName)
                           (exn_message e))))
             (fun e =>
                emit (ShowErrorMessage
                        ("Failed to restart " +:+ serverName +:+ " MCP server connection")
                        (exn_message e)))
     | None => ret tt
     end) ;;
    notifyWebviewOfServerChanges (re_notifyAfter env) ;;
    modifyHub (set_isConnecting false).

(** ** Tasks (initiator role) *)

(** The task object of a [CreateTaskResult], [tasks/get] or [tasks/cancel]
    reply. *)
Record TaskDescriptor : Type := mkTaskDescriptor {
  td_taskId : string;
  td_status : TaskStatus;
  td_statusMessage : option string;
  td_pollInterval : option Z;
}.

(** What [client.callTool] answered: a [CreateTaskResult] carrying a task,
    or anything else (an ordinary tool result). *)
Inductive CallToolReply : Type :=
  | ReplyTask (task : TaskDescriptor)
  | ReplyResult (result : string).

(** Return type of [callToolAsTask]. *)
Inductive CallToolAsTaskResult : Type :=
  | ResTask (taskId : string) (pollInterval : option Z)
  | ResResult (result : string).

Record CallOptions : Type := mkCallOptions {
  opt_source : option Source;
  opt_ttl : option Z;
  opt_progressCallback : option nat;
}.

(** The outside world of one [callToolAsTask]: the UUID drawn, the peer's
    answer to a plain [tools/call], its answer to the task-augmented call,
    and the two readings of [Date.now()]. *)
Record CallEnv : Type := mkCallEnv {
  call_token : string;
  call_plain : Outcome string;
  call_augmented : Outcome CallToolReply;
  call_createdAt : Z;
  call_updatedAt : Z;
}.

(** JavaScript truthiness of a [string | number]. *)
Definition truthy (k : Key) : bool :=
  match k with
  | KStr s => negb (bool_decide (s = ""%string))
  | KNum n => negb (bool_decide (n = 0))
  end.

(** [connection?.client] *)
Definition clientOf (serverName : string) (src : option Source) (h : McpHub) : option Client :=
  match findConnection serverName src (connections h) with
  | Some c => client c
  | None => None
  end.

(** [serverCapabilities?.tasks] is truthy *)
Definition supportsTasks (cl : Client) : bool :=
  match serverCapabilities cl with
  | Some caps => cap_tasks caps
  | None => false
  end.

Definition notConnected {A} (serverName : string) : Hub A :=
  throw (McpError InternalError ("Server " +:+ serverName +:+ " not connected")).

Definition callToolAsTask (env : CallEnv) (serverName toolName args : string)
    (options : CallOptions) : Hub CallToolAsTaskResult :=
  h <- getHub ;;
  match clientOf serverName (opt_source options) h with
  | None => notConnected serverName
  | Some cl =>
      if negb (supportsTasks cl) then
        emit (SendRequest (client_id cl) (ReqToolsCall toolName args)) ;;
        result <- await (call_plain env) ;;
        ret (ResResult result)
      else
        progressToken <-
          match opt_progressCallback options with
          | Some cb =>
              tok <- generateProgressToken (call_token env) serverName (Some cb) ;;
              ret (Some (KStr tok))
          | None => ret None
          end ;;
        let releaseToken :=
          match progressToken with
          | Some tok => when (truthy tok) (clearProgressToken tok)
          | None => ret tt
          end in
        tryCatch
          (emit (SendRequest (client_id cl)
                   (ReqCallToolAsTask toolName args
                      (match progressToken with
                       | Some tok => if truthy tok then Some tok else None
                       | None => None
                       end)
                      (opt_ttl options))) ;;
           result <- await (call_augmented env) ;;
           match result with
           | ReplyTask task =>
               modifyHub (fun h =>
                 set_activeTasks
                   (<[td_taskId task :=
                        {| task_serverName := serverName;
                           task_source := opt_source options;
                           task_status := td_status task;
                           task_progressToken := progressToken;
                           task_pollInterval := td_pollInterval task;
                           task_message := td_statusMessage task;
                           createdAt := call_createdAt env;
                           updatedAt := call_updatedAt env |}]> (activeTasks h)) h) ;;
               ret (ResTask (td_taskId task) (td_pollInterval task))
           | ReplyResult r =>
               releaseToken ;;
               ret (ResResult r)
           end)
          (fun e => releaseToken ;; throw e)
  end.

(** The peer's answer to [tasks/get] or [tasks/cancel] ([result.task] may be
    missing) and the reading of [Date.now()]. *)
Record TaskEnv : Type := mkTaskEnv {
  te_reply : Outcome (option TaskDescriptor);
  te_now : Z;
}.

Definition getTask (env : TaskEnv) (serverName taskId : string)
    (src : option Source) : Hub (option TaskDescriptor) :=
  h <- getHub ;;
  match clientOf serverName src h with
  | None => notConnected serverName
  | Some cl =>
      emit (SendRequest (client_id cl) (ReqTasksGet taskId)) ;;
      result <- await (te_reply env) ;;
      h <- getHub ;;
      match activeTasks h !! taskId, result with
      | Some taskData, Some task =>
          modifyHub (fun h =>
            set_activeTasks
              (<[taskId :=
                   {| task_serverName := task_serverName taskData;
                      task_source := task_source taskData;
                      task_status := td_status task;
                      task_progressToken := task_progressToken taskData;
                      task_pollInterval := td_pollInterval task;
                      task_message := td_statusMessage task;
                      createdAt := createdAt taskData;
                      updatedAt := te_now env |}]> (activeTasks h)) h)
      | _, _ => ret tt
      end ;;
      ret result
  end.

Definition getTaskResult (reply : Outcome string) (serverName taskId : string)
    (src : option Source) : Hub string :=
  h <- getHub ;;
  match clientOf serverName src h with
  | None => notConnected serverName
  | Some cl =>
      emit (SendRequest (client_id cl) (ReqTasksResult taskId)) ;;
      result <- await reply ;;
      h <- getHub ;;
      match activeTasks h !! taskId with
      | Some taskData =>
          match task_progressToken taskData with
          | Some tok => when (truthy tok) (clearProgressToken tok)
          | None => ret tt
          end
      | None => ret tt
      end ;;
      modifyHub (fun h => set_activeTasks (delete taskId (activeTasks h)) h) ;;
      ret result
  end.

Definition cancelTask (env : TaskEnv) (serverName taskId : string)
    (src : option Source) : Hub (option TaskDescriptor) :=
  h <- getHub ;;
  match clientOf serverName src h with
  | None => notConnected serverName
  | Some cl =>
      emit (SendRequest (client_id cl) (ReqTasksCancel taskId)) ;;
      result <- await (te_reply env) ;;
      h <- getHub ;;
      match activeTasks h !! taskId with
      | Some taskData =>
          modifyHub (fun h =>
            set_activeTasks
              (<[taskId :=
                   {| task_serverName := task_serverName taskData;
                      task_source := task_source taskData;
                      task_status := Cancelled;
                      task_progressToken := task_progressToken taskData;
                      task_pollInterval := task_pollInterval taskData;
                      task_message := task_message taskData;
                      createdAt := createdAt taskData;
                      updatedAt := te_now env |}]> (activeTasks h)) h)
      | None => ret tt
      end ;;
      ret result
  end.

(** One turn of the polling loop as the outside world shapes it: the clock
    at the timeout check and the [tasks/get] exchange. *)
Record PollStep : Type := mkPollStep {
  ps_clock : Z;
  ps_get : TaskEnv;
}.

Record PollOptions : Type := mkPollOptions {
  po_source : option Source;
  po_timeoutMs : option Z;
  po_onStatusChange : bool;
}.

(** The [while (true)] loop of [pollTaskUntilComplete], run against a finite
    script of turns.  [None] means the script ended while the loop was still
    waiting; a JavaScript outcome is [Some] payload or a thrown error. *)
Fixpoint pollLoop (serverName taskId : string) (options : PollOptions)
    (startTime : Z) (resultReply : Outcome string)
    (script : list PollStep) : Hub (option string) :=
  match script with
  | [] => ret None
  | step :: rest =>
      let timeoutMs := default 300000 (po_timeoutMs options) in
      if bool_decide (ps_clock step - startTime > timeoutMs) then
        throw (McpError InternalError
                 ("Task " +:+ taskId +:+ " timed out after " +:+ pretty timeoutMs +:+ "ms"))
      else
        taskResult <- getTask (ps_get step) serverName taskId (po_source options) ;;
        match taskResult with
        | None => throw (McpError InternalError ("Task " +:+ taskId +:+ " not found"))
        | Some task =>
            when (po_onStatusChange options)
              (emit (InvokeStatusChange (td_status task) (td_statusMessage task))) ;;
            match td_status task with
            | Completed =>
                r <- getTaskResult resultReply serverName taskId (po_source options) ;;
                ret (Some r)
            | Failed =>
                throw (McpError InternalError
                         ("Task " +:+ taskId +:+ " failed: "
                            +:+ default "unknown error"%string (td_statusMessage task)))
            | Cancelled =>
                throw (McpError InternalError ("Task " +:+ taskId +:+ " was cancelled"))
            | Working | InputRequired =>
                emit (Delay (default 1000 (td_pollInterval task))) ;;
                pollLoop serverName taskId options startTime resultReply rest
            end
        end
  end.

Definition pollTaskUntilComplete (startTime : Z) (resultReply : Outcome string)
    (script : list PollStep) (serverName taskId : string)
    (options : PollOptions) : Hub (option string) :=
  pollLoop serverName taskId options startTime resultReply script.

(** ** dispose *)

Definition clearTrackers (h : McpHub) : McpHub :=
  {| connections := connections h; isDisposed := isDisposed h; isConnecting := isConnecting h;
     isProgrammaticUpdate := isProgrammaticUpdate h; flagResetTimer := flagResetTimer h;
     configChangeDebounceTimers := configChangeDebounceTimers h;
     fileWatchers := fileWatchers h; sanitizedNameRegistry := sanitizedNameRegistry h;
     activeProgressTokens := ∅; pendingRequests := ∅;
     activeTasks := ∅; resourceSubscriptions := ∅;
     settingsWatcher := settingsWatcher h; projectMcpWatcher := projectMcpWatcher h;
     disposables := disposables h |}.

Definition clearTimers (h : McpHub) : McpHub :=
  {| connections := connections h; isDisposed := isDisposed h; isConnecting := isConnecting h;
     isProgrammaticUpdate := false; flagResetTimer := None;
     configChangeDebounceTimers := ∅;
     fileWatchers := fileWatchers h; sanitizedNameRegistry := sanitizedNameRegistry h;
     activeProgressTokens := activeProgressTokens h; pendingRequests := pendingRequests h;
     activeTasks := activeTasks h; resourceSubscriptions := resourceSubscriptions h;
     settingsWatcher := settingsWatcher h; projectMcpWatcher := projectMcpWatcher h;
     disposables := disposables h |}.

Definition clearWatchers (h : McpHub) : McpHub :=
  {| connections := connections h; isDisposed := isDisposed h; isConnecting := isConnecting h;
     isProgrammaticUpdate := isProgrammaticUpdate h; flagResetTimer := flagResetTimer h;
     configChangeDebounceTimers := configChangeDebounceTimers h;
     fileWatchers := fileWatchers h; sanitizedNameRegistry := sanitizedNameRegistry h;
     activeProgressTokens := activeProgressTokens h; pendingRequests := pendingRequests h;
     activeTasks := activeTasks h; resourceSubscriptions := resourceSubscriptions h;
     settingsWatcher := None; projectMcpWatcher := None;
     disposables := disposables h |}.

Definition disposeOption (w : option nat) : Hub unit :=
  match w with
  | Some x => emit (WatcherDispose x)
  | None => ret tt
  end.

Definition dispose `{Host} : Hub unit :=
  h <- getHub ;;
  if isDisposed h then ret tt
  else
    modifyHub (set_isDisposed true) ;;
    modifyHub clearTrackers ;;
    forEach (map_to_list (configChangeDebounceTimers h)) (fun kv => emit (ClearTimeout kv.2)) ;;
    match flagResetTimer h with
    | Some t => emit (ClearTimeout t)
    | None => ret tt
    end ;;
    modifyHub clearTimers ;;
    removeAllFileWatchers ;;
    forEach (connections h) (fun connection =>
      tryCatch
        (deleteConnection (name (server connection)) (source (server connection)))
        (fun e =>
           emit (ErrorFailedToCloseConnection (name (server connection)) (exn_message e)))) ;;
    modifyHub (set_connections []) ;;
    disposeOption (settingsWatcher h) ;;
    disposeOption (projectMcpWatcher h) ;;
    modifyHub clearWatchers ;;
    forEach (disposables h) (fun d => emit (DisposableDispose d)).

(** ** Sequences of operations *)


Definition void {A} (m : Hub A) : Hub unit := tryCatch (m ;; ret tt) (fun _ => ret tt).


(** The public operations of the connection registry and the transport
    callbacks. *)
Inductive RegistryOp `{Host} : Type :=
  | OpConnect (env : ConnectEnv) (serverName : string) (cfg : ServerConfig) (src : Source)
  | OpDelete (serverName : string) (src : option Source)
  | OpUpdate (envs : string -> ConnectEnv) (notify : Outcome unit)
      (newServers : list (string * RawConfig)) (src : Source) (manageConnectingState : bool)
  | OpRestart (env : RestartEnv) (serverName : string) (src : option Source)
  | OpTransportError (serverName : string) (src : Source) (e : Exn) (now : Z)
      (notify : Outcome unit)
  | OpTransportClose (serverName : string) (src : Source) (notify : Outcome unit).

(** One operation run from its call to its end with no other operation
    running between its awaits; a thrown error ends that operation only.
    Calls that overlap are the subject of [interleave]. *)
Definition runRegistryOp `{Host} (op : RegistryOp) : Hub unit :=
  match op with
  | OpConnect env serverName cfg src => void (connectToServer env serverName cfg src)
  | OpDelete serverName src => deleteConnection serverName src
  | OpUpdate envs notify newServers src manage =>
      void (updateServerConnections envs notify newServers src manage)
  | OpRestart env serverName src => void (restartConnection env serverName src)
  | OpTransportError serverName src e now notify =>
      void (onTransportError serverName src e now notify)
  | OpTransportClose serverName src notify =>
      void (onTransportClose serverName src notify)
  end.

(** ** Predicates of the claims *)

(** The identity of a connection: its (name, source) pair. *)
Definition key (c : McpConnection) : string * option Source :=
  (name (server c), source (server c)).


(** No tracker entry names the server.  The three maps record the owner of
    an entry by its server name only. *)
Definition noTrackerOwnedBy (serverName : string) (h : McpHub) : Prop :=
  (forall k p, pendingRequests h !! k = Some p -> req_serverName p <> serverName) /\
  (forall k t, activeTasks h !! k = Some t -> task_serverName t <> serverName) /\
  (forall k d, activeProgressTokens h !! k = Some d -> tok_serverName d <> serverName).

(** The stored status of a task, if the task is tracked. *)
Definition storedStatus (taskId : string) (h : McpHub) : option TaskStatus :=
  task_status <$> activeTasks h !! taskId.


(** A turn of the polling loop that lets it go on: no timeout, and the peer
    reports a task that is not in a terminal status. *)
Definition quietStep (startTime : Z) (options : PollOptions) (step : PollStep) : Prop :=
  ps_clock step - startTime <= default 300000 (po_timeoutMs options) /\
  exists t, te_reply (ps_get step) = Returned (Some t) /\ isTerminal (td_status t) = false.

(** Number of [tasks/result] requests among the outside calls. *)
Definition resultRequests (taskId : string) (evs : list Event) : nat :=
  length (List.filter
            (fun ev => match ev with
                       | SendRequest _ (ReqTasksResult t) => bool_decide (t = taskId)
                       | _ => false
                       end) evs).

Definition isWarning (ev : Event) : bool :=
  match ev with
  | WarnNonMonotonicProgress _ _ _ => true
  | _ => false
  end.

(** The values the observer [cb] was called with, in call order. *)
Definition observed (cb : nat) (evs : list Event) : list (Z * option Z * option string) :=
  omap (fun ev => match ev with
                  | InvokeProgressCallback cb' p t m =>
                      if bool_decide (cb' = cb) then Some (p, t, m) else None
                  | _ => None
                  end) evs.

Definition isTransportClose (ev : Event) : bool :=
  match ev with
  | TransportClose _ => true
  | _ => false
  end.

(** [m], started in a hub satisfying [P], ends (by returning or by throwing)
    in a hub satisfying [Q]. *)
Definition hoare {A} (P : McpHub -> Prop) (m : Hub A) (Q : McpHub -> Prop) : Prop :=
  forall h, P h -> Q (final (m h)).

(** ** Sample data *)

(** A host whose collaborators always succeed. *)
Definition sampleHost : Host :=
  {| RawConfig := string;
     jsonParse := fun text => Returned text;
     validateServerConfig := fun raw _ =>
       Returned {| cfg_type := Stdio; cfg_disabled := false; cfg_watchPaths := [];
                   cfg_args := []; cfg_json := raw |};
     deepEqual := String.eqb;
     sanitizeMcpName := fun s => s;
     transportClose := fun _ => Returned tt;
     clientClose := fun _ => Returned tt |}.

Definition sampleConfig : ServerConfig :=
  {| cfg_type := Stdio; cfg_disabled := false; cfg_watchPaths := [];
     cfg_args := []; cfg_json := "{}" |}.

Definition sampleServer : McpServer :=
  {| name := "srv"; config := "{}"; status := StConnected; error := None;
     errorHistory := []; tools := []; resources := []; resourceTemplates := [];
     prompts := []; disabled := false; source := Some Global; instructions := None |}.

(** A connected server [srv] whose peer declared (or not) task support. *)
Definition sampleConnection (tasks : bool) : McpConnection :=
  Connected sampleServer
    {| client_id := 1;
       serverCapabilities := Some {| cap_tasks := tasks; cap_resources_subscribe := false |} |}
    7.

Definition sampleTask (st : TaskStatus) : TaskData :=
  {| task_serverName := "srv"; task_source := Some Global; task_status := st;
     task_progressToken := Some (KStr "tok"); task_pollInterval := None;
     task_message := None; createdAt := 0; updatedAt := 0 |}.

(** A hub with one connected server that owns a pending request, a task in
    status [st] and a progress token. *)
Definition busyHub (tasks : bool) (st : TaskStatus) : McpHub :=
  set_connections [sampleConnection tasks]
    (set_pendingRequests {[ KNum 1 := {| req_serverName := "srv"; controller := 3 |} ]}
       (set_activeTasks {[ "t1"%string := sampleTask st ]}
          (set_activeProgressTokens
             {[ KStr "tok" := {| tok_serverName := "srv"; tok_callback := Some 9%nat;
                                 lastProgress := 5 |} ]}
             newHub))).

Definition reportedTask (st : TaskStatus) : TaskDescriptor :=
  {| td_taskId := "t9"; td_status := st; td_statusMessage := None;
     td_pollInterval := Some 10 |}.

(** A connect attempt: MCP enabled, variables injected, and the given
    outcomes of acquiring the transport and of the handshake. *)
Definition connectAttempt (acquired : Outcome nat) (handshake : Outcome HandshakeResult)
    : ConnectEnv :=
  {| ce_mcpEnabled := true; ce_injected := Returned sampleConfig;
     ce_transport := acquired; ce_client := 1; ce_handshake := handshake;
     ce_tools := Returned ["echo"%string];
     ce_resources := Thrown (OtherError "Method not found");
     ce_resourceTemplates := Thrown (OtherError "Method not found");
     ce_prompts := Returned [];
     ce_now := 100 |}.


(** ** The answer to [tasks/get] on the wire

    [GetTaskResultSchema] gives the fields of the task at the top level of
    the result, and so does the repository's specification of the
    client-side task support: its protocol flow answers [tasks/get] with a
    [Task], and its [getTask] returns what the request yields as a [Task].
    Only the answer to a task-augmented [tools/call] wraps the task in a
    member [task].  [getTask] casts what the request yields to an object
    with an optional member [task] and reads that member alone. *)
Inductive GetTaskResult : Type :=
  | TopLevel (t : TaskDescriptor)
  | InMemberTask (t : TaskDescriptor).

(** [result.task] *)
Definition memberTask (result : GetTaskResult) : option TaskDescriptor :=
  match result with
  | TopLevel _ => None
  | InMemberTask t => Some t
  end.

(** One turn of the polling loop in which the peer answers [tasks/get] with
    [result]. *)
Definition answered (clock : Z) (result : GetTaskResult) : PollStep :=
  {| ps_clock := clock;
     ps_get := {| te_reply := Returned (memberTask result); te_now := clock |} |}.

(** ** Overlapping calls

    An [async] method runs without interruption up to an [await] and goes
    on later, after whatever other callers did in the meantime.  The hub
    makes no caller wait for another: [isConnecting] is set by
    [updateServerConnections], [restartConnection] and
    [refreshAllConnections] and read by the last alone.  A call is cut here
    into the stretches between its awaits. *)

(** What [connectToServer] does once [isMcpEnabled()] has answered. *)
Definition connectToServer_resumed `{Host} (env : ConnectEnv) (serverName : string)
    (cfg : ServerConfig) (src : Source) : Hub unit :=
  if negb (ce_mcpEnabled env) then
    pushConnection (createPlaceholderConnection serverName cfg src MCP_DISABLED)
  else if cfg_disabled cfg then
    pushConnection (createPlaceholderConnection serverName cfg src SERVER_DISABLED)
  else
    setupFileWatcher serverName cfg ;;
    tryCatch
      (configInjected <- await (ce_injected env) ;;
       t <- await (ce_transport env) ;;
       pushConnection
         (Connected
            {| name := serverName; config := cfg_json configInjected;
               status := StConnecting; error := None; errorHistory := [];
               tools := []; resources := []; resourceTemplates := []; prompts := [];
               disabled := cfg_disabled configInjected; source := Some src;
               instructions := None |}
            {| client_id := ce_client env; serverCapabilities := None |} t) ;;
       emit (ClientConnect (ce_client env) t) ;;
       hs <- await (ce_handshake env) ;;
       mutateLast (handshaken hs) ;;
       fetchedTools <- fetchToolsList (ce_tools env) serverName (Some src) ;;
       mutateLast (with_server (set_tools fetchedTools)) ;;
       fetchedResources <- fetchResourcesList (ce_resources env) serverName (Some src) ;;
       mutateLast (with_server (set_resources fetchedResources)) ;;
       fetchedTemplates <-
         fetchResourceTemplatesList (ce_resourceTemplates env) serverName (Some src) ;;
       mutateLast (with_server (set_resourceTemplates fetchedTemplates)) ;;
       fetchedPrompts <- fetchPromptsList (ce_prompts env) serverName (Some src) ;;
       mutateLast (with_server (set_prompts fetchedPrompts)))
      (fun e =>
         mutateFound (matches serverName src)
           (with_server (fun s =>
              appendErrorMessage (ce_now env) (exn_message e) LvlError
                (set_status StDisconnected s))) ;;
         throw e).

(** [connectToServer] cut at its first two awaits: the awaited removal of
    the old connection, the registration of the sanitized name up to the
    awaited [isMcpEnabled()], and the rest.  The rest of a call that goes
    on to acquire a transport has awaits of its own and is cut no further,
    so that the call has more interleavings than these stretches give. *)
Definition connectToServer_stretches `{Host} (env : ConnectEnv) (serverName : string)
    (cfg : ServerConfig) (src : Source) : list (Hub unit) :=
  [ deleteConnection serverName (Some src);
    modifyHub (fun h =>
      set_sanitizedNameRegistry
        (<[sanitizeMcpName serverName := serverName]> (sanitizedNameRegistry h)) h);
    connectToServer_resumed env serverName cfg src ].

(** A call run from its first stretch to its last with nothing in between;
    a stretch that throws ends the call. *)
Definition uninterrupted (stretches : list (Hub unit)) : Hub unit :=
  forEach stretches (fun stretch => stretch).

(** Two calls in progress at once.  [schedule] says whose stretch runs next
    ([true] for the first call); a turn given to a call that is over is
    skipped, and a call whose stretch throws is over, as a rejected promise
    of one caller does not stop the other. *)
Fixpoint interleave (schedule : list bool) (first second : list (Hub unit)) : Hub unit :=
  match schedule with
  | [] => ret tt
  | turn :: later =>
      match (if turn then first else second) with
      | [] => interleave later first second
      | stretch :: more =>
          went <- tryCatch (stretch ;; ret true) (fun _ => ret false) ;;
          let remaining := if went then more else [] in
          if turn then interleave later remaining second
          else interleave later first remaining
      end
  end.

(** The schedule that lets the first call finish before the second starts. *)
Definition inTurn (first second : list (Hub unit)) : list bool :=
  replicate (length first) true ++ replicate (length second) false.

(** ** Listing the servers *)

(** A JavaScript [Map] with string keys: the entries in insertion order.
    [set] on a key already present replaces the value and keeps the key's
    place. *)
Definition NameMap (V : Type) : Type := list (string * V).

Fixpoint mapGet {V} (k : string) (m : NameMap V) : option V :=
  match m with
  | [] => None
  | (k', v) :: rest => if bool_decide (k' = k) then Some v else mapGet k rest
  end.

Fixpoint mapSet {V} (k : string) (v : V) (m : NameMap V) : NameMap V :=
  match m with
  | [] => [(k, v)]
  | (k', v') :: rest =>
      if bool_decide (k' = k) then (k, v) :: rest else (k', v') :: mapSet k v rest
  end.

Definition mapValues {V} (m : NameMap V) : list V := map snd m.

(** One turn of the loop of [getServers] over the enabled connections. *)
Definition addServer (serversByName : NameMap McpServer) (conn : McpConnection)
    : NameMap McpServer :=
  match mapGet (name (server conn)) serversByName with
  | None => mapSet (name (server conn)) (server conn) serversByName
  | Some existing =>
      if bool_decide (source (server conn) = Some Project)
         && negb (bool_decide (source existing = Some Project))
      then mapSet (name (server conn)) (server conn) serversByName
      else serversByName
  end.

Definition getServers (h : McpHub) : list McpServer :=
  let enabledConnections :=
    List.filter (fun conn => negb (disabled (server conn))) (connections h) in
  mapValues (fold_left addServer enabledConnections []).

Definition getAllServers (h : McpHub) : list McpServer :=
  map server (connections h).

(** ** Project servers *)

Definition cleanupProjectMcpServers `{Host} (envs : string -> ConnectEnv)
    (notify : Outcome unit) : Hub unit :=
  h <- getHub ;;
  let projectConnections :=
    List.filter (fun conn => bool_decide (source (server conn) = Some Project))
      (connections h) in
  forEach projectConnections (fun conn =>
    deleteConnection (name (server conn)) (Some Project)) ;;
  updateServerConnections envs notify [] Project false.

(** ** Listing the peer's tasks *)

Record TaskList : Type := mkTaskList {
  tl_tasks : list TaskDescriptor;
  tl_nextCursor : option string;
}.

Definition listTasks (reply : Outcome TaskList) (serverName : string)
    (src : option Source) (cursor : option string) : Hub TaskList :=
  h <- getHub ;;
  match clientOf serverName src h with
  | None => notConnected serverName
  | Some cl =>
      emit (SendRequest (client_id cl) (ReqTasksList cursor)) ;;
      await reply
  end.

(** What the loop of [getServers] has built once it has gone through the
    connections [seen]: one entry per name, filed under the server's own
    name, a project server wherever [seen] has one of that name. *)
Definition listed (seen : list McpConnection) (m : NameMap McpServer) : Prop :=
  NoDup (map fst m) /\
  (forall k v, (k, v) ∈ m -> name v = k /\ exists c, c ∈ seen /\ server c = v) /\
  (forall c, c ∈ seen -> exists v, mapGet (name (server c)) m = Some v) /\
  (forall c v, c ∈ seen -> source (server c) = Some Project ->
     mapGet (name (server c)) m = Some v -> source v = Some Project).

(** ** Vocabulary of the further properties *)

(** Outside calls that only release something: closing a watcher, a
    transport or a client, clearing a timer, disposing of a watcher or a
    disposable, and the log line of a failed close. *)
Definition isRelease (ev : Event) : bool :=
  match ev with
  | WatcherClose _ | TransportClose _ | ClientClose _ | ClearTimeout _
  | WatcherDispose _ | DisposableDispose _
  | ErrorFailedToCloseTransport _ _ | ErrorFailedToCloseConnection _ _ => true
  | _ => false
  end.

Definition isProject (c : McpConnection) : bool :=
  bool_decide (source (server c) = Some Project).

(** The (name, source) pairs of the listed connections, in list order. *)
Definition keys (h : McpHub) : list (string * option Source) :=
  map key (connections h).

(** The keys of the connections that do not belong to source [src]. *)
Definition otherKeys (src : Source) (l : list (string * option Source))
    : list (string * option Source) :=
  List.filter (fun k => negb (bool_decide (k.2 = Some src))) l.

(** ** Checks before the schema *)

(** The tests [validateServerConfig] makes before it hands the configuration
    to the schema, on what they look at: whether [command] and [url] are
    present, and the [type] field ([None] when absent; a [type] that is
    present is a string, falsy when empty).  The result is the [type] the
    schema sees. *)
Definition mixedFieldsErrorMessage : string :=
  "Cannot mix 'stdio' and ('sse' or 'streamable-http') fields. For 'stdio' use 'command', 'args', and 'env'. For 'sse'/'streamable-http' use 'url' and 'headers'".

Definition typeErrorMessage : string :=
  "Server type must be 'stdio', 'sse', or 'streamable-http'".

Definition stdioFieldsErrorMessage : string :=
  "For 'stdio' type servers, you must provide a 'command' field and can optionally include 'args' and 'env'".

Definition sseFieldsErrorMessage : string :=
  "For 'sse' type servers, you must provide a 'url' field and can optionally include 'headers'".

Definition streamableHttpFieldsErrorMessage : string :=
  "For 'streamable-http' type servers, you must provide a 'url' field and can optionally include 'headers'".

Definition missingFieldsErrorMessage : string :=
  "Server configuration must include either 'command' (for stdio) or 'url' (for sse/streamable-http) and a corresponding 'type' if 'url' is used.".

(** [!config.type] *)
Definition noType (ty : option string) : bool :=
  match ty with
  | None => true
  | Some t => bool_decide (t = EmptyString)
  end.

Definition checkFields (hasStdioFields hasUrlFields : bool) (ty : option string)
    : Outcome (option string) :=
  if hasStdioFields && hasUrlFields then Thrown (OtherError mixedFieldsErrorMessage)
  else
    let ty := if noType ty && hasStdioFields then Some "stdio"%string else ty in
    if hasUrlFields && noType ty then
      Thrown (OtherError
        "Configuration with 'url' must explicitly specify 'type' as 'sse' or 'streamable-http'.")
    else if negb (noType ty)
            && negb (bool_decide (ty ∈ [Some "stdio"; Some "sse"; Some "streamable-http"]%string))
    then Thrown (OtherError typeErrorMessage)
    else if bool_decide (ty = Some "stdio"%string) && negb hasStdioFields
    then Thrown (OtherError stdioFieldsErrorMessage)
    else if bool_decide (ty = Some "sse"%string) && negb hasUrlFields
    then Thrown (OtherError sseFieldsErrorMessage)
    else if bool_decide (ty = Some "streamable-http"%string) && negb hasUrlFields
    then Thrown (OtherError streamableHttpFieldsErrorMessage)
    else if negb hasStdioFields && negb hasUrlFields
    then Thrown (OtherError missingFieldsErrorMessage)
    else Returned ty.

(** ** Further calls to the outside world

    The methods modelled from here on reach the outside in ways the ones
    above do not.  Their trace is a list of [Action]s: an [Event] of the
    methods above, or one of the further calls. *)

Inductive LoggingLevel : Type :=
  | LDebug | LInfo | LNotice | LWarning | LError | LCritical | LAlert | LEmergency.

Inductive Console : Type := ConsoleDebug | ConsoleLog | ConsoleWarn | ConsoleError.

(** Requests sent with [client.request]. *)
Inductive Method : Type :=
  | ResourcesRead (uri : string)
  | PromptsGet (promptName : string) (promptArguments : option string)
  | LoggingSetLevel (level : LoggingLevel)
  | CompletionComplete (ref argument : string) (context : option string)
  | ToolsCall (toolName : string) (toolArguments : option string) (timeout : Z)
  | Ping
  | ResourcesSubscribe (uri : string)
  | ResourcesUnsubscribe (uri : string).

(** Notifications sent with [client.notification]. *)
Inductive Notification : Type :=
  | NotifCancelled (requestId : Key) (reason : option string)
  | NotifRootsListChanged.

Inductive Action : Type :=
  | Did (ev : Event)
  | Request (c : nat) (m : Method)
  | Notify (c : nat) (n : Notification)
  | Print (level : Console) (text : string) (err : option Exn)
  | PostLogMessage (serverName : string) (level : LoggingLevel) (logger : option string)
      (data : string) (timestamp : Z)
  | PostResourceUpdated (serverName uri : string) (timestamp : Z)
  | SetTimeout (t : nat) (ms : Z)
  | WindowShowErrorMessage (text : string)
  | WriteJson (path : string).

Record RunW (A : Type) : Type := mkRunW {
  outcomeW : Outcome A;
  finalW : McpHub;
  actions : list Action;
}.
Arguments mkRunW {A} _ _ _.
Arguments outcomeW {A} _.
Arguments finalW {A} _.
Arguments actions {A} _.

Definition HubW (A : Type) : Type := McpHub -> RunW A.

Definition retW {A} (a : A) : HubW A := fun h => mkRunW (Returned a) h [].

Definition throwW {A} (e : Exn) : HubW A := fun h => mkRunW (Thrown e) h [].

Definition bindW {A B} (m : HubW A) (k : A -> HubW B) : HubW B :=
  fun h =>
    let r := m h in
    match outcomeW r with
    | Returned a =>
        let r' := k a (finalW r) in
        mkRunW (outcomeW r') (finalW r') (actions r ++ actions r')
    | Thrown e => mkRunW (Thrown e) (finalW r) (actions r)
    end.

Definition tryCatchW {A} (m : HubW A) (handler : Exn -> HubW A) : HubW A :=
  fun h =>
    let r := m h in
    match outcomeW r with
    | Returned a => r
    | Thrown e =>
        let r' := handler e (finalW r) in
        mkRunW (outcomeW r') (finalW r') (actions r ++ actions r')
    end.

Definition act (a : Action) : HubW unit := fun h => mkRunW (Returned tt) h [a].

Definition getHubW : HubW McpHub := fun h => mkRunW (Returned h) h [].

Definition modifyHubW (f : McpHub -> McpHub) : HubW unit :=
  fun h => mkRunW (Returned tt) (f h) [].

Definition awaitW {A} (answer : Outcome A) : HubW A :=
  fun h => mkRunW answer h [].

(** A method of the earlier sections, run inside one of these. *)
Definition liftW {A} (m : Hub A) : HubW A :=
  fun h => let r := m h in mkRunW (outcome r) (final r) (map Did (effects r)).

(** A run preceded by earlier actions. *)
Definition prependW {A} (acts : list Action) (r : RunW A) : RunW A :=
  mkRunW (outcomeW r) (finalW r) (acts ++ actions r).

Declare Scope wide_scope.
Delimit Scope wide_scope with wide.
Notation "x <- m ;; k" := (bindW m (fun x => k))
  (at level 100, m at next level, right associativity) : wide_scope.
Notation "m ;; k" := (bindW m (fun _ => k))
  (at level 100, right associativity) : wide_scope.

Fixpoint forEachW {A} (xs : list A) (body : A -> HubW unit) : HubW unit :=
  match xs with
  | [] => retW tt
  | x :: xs' => (body x ;; forEachW xs' body)%wide
  end.

(** ** Requests to a connected server *)

Definition sourceText (s : Source) : string :=
  match s with Global => "global" | Project => "project" end.

(** The message of the first test: the server name, followed by the source
    when one was given. *)
Definition noConnectionFound (serverName : string) (src : option Source) : string :=
  "No connection found for server: " +:+ serverName +:+
  match src with
  | Some s => " with source " +:+ sourceText s
  | None => EmptyString
  end.

(** The two tests every request method starts with; [hint] and
    [disabledText] are the endings of the two messages, which [callTool]
    words differently. *)
Definition connectedClient (serverName : string) (src : option Source)
    (hint disabledText : string) : HubW Client :=
  (h <- getHubW ;;
   match findConnection serverName src (connections h) with
   | Some (Connected s cl _) =>
       if disabled s
       then throwW (OtherError ("Server " +:+ quoted serverName +:+ disabledText))
       else retW cl
   | Some (Disconnected _) | None =>
       throwW (OtherError (noConnectionFound serverName src +:+ hint))
   end)%wide.

Definition request {A} (reply : Outcome A) (serverName : string) (src : option Source)
    (m : Method) : HubW A :=
  (cl <- connectedClient serverName src EmptyString " is disabled" ;;
   act (Request (client_id cl) m) ;;
   awaitW reply)%wide.

Definition readResource (reply : Outcome string) (serverName uri : string)
    (src : option Source) : HubW string :=
  request reply serverName src (ResourcesRead uri).

Definition getPrompt (reply : Outcome string) (serverName promptName : string)
    (promptArguments : option string) (src : option Source) : HubW string :=
  request reply serverName src (PromptsGet promptName promptArguments).

Definition setLoggingLevel (reply : Outcome unit) (serverName : string)
    (level : LoggingLevel) (src : option Source) : HubW unit :=
  request reply serverName src (LoggingSetLevel level).

Definition complete (reply : Outcome string) (serverName ref argument : string)
    (context : option string) (src : option Source) : HubW string :=
  request reply serverName src (CompletionComplete ref argument context).

Definition ping (reply : Outcome unit) (serverName : string) (src : option Source)
    : HubW unit :=
  request reply serverName src Ping.

(** [parsed] is what parsing the stored configuration against the schema
    comes to: its [timeout] field, in seconds, or the error thrown. *)
Definition callTool (parsed : Outcome (option Z)) (reply : Outcome string)
    (serverName toolName : string) (toolArguments : option string)
    (src : option Source) : HubW string :=
  (cl <- connectedClient serverName src
           ". Please make sure to use MCP servers available under 'Connected MCP Servers'."
           " is disabled and cannot be used" ;;
   timeout <-
     tryCatchW
       (parsedTimeout <- awaitW parsed ;;
        retW (default 60 parsedTimeout * 1000))
       (fun e =>
          act (Print ConsoleError "Failed to parse server config for timeout:" (Some e)) ;;
          retW (60 * 1000)) ;;
   act (Request (client_id cl) (ToolsCall toolName toolArguments timeout)) ;;
   awaitW reply)%wide.

(** ** Resource subscriptions *)

(** The key of a server in [resourceSubscriptions]: name, colon, and the
    source given, [global] when none was. *)
Definition serverKey (serverName : string) (src : option Source) : string :=
  serverName +:+ ":" +:+ sourceText (default Global src).

(** [Set.prototype.add] and [Set.prototype.delete] on a set kept in
    insertion order. *)
Definition setAdd (x : string) (xs : list string) : list string :=
  if bool_decide (x ∈ xs) then xs else xs ++ [x].

Definition setDelete (x : string) (xs : list string) : list string :=
  List.filter (fun y => negb (bool_decide (y = x))) xs.

Definition set_resourceSubscriptions (v : gmap string (list string)) (h : McpHub) : McpHub :=
  {| connections := connections h; isDisposed := isDisposed h; isConnecting := isConnecting h;
     isProgrammaticUpdate := isProgrammaticUpdate h; flagResetTimer := flagResetTimer h;
     configChangeDebounceTimers := configChangeDebounceTimers h;
     fileWatchers := fileWatchers h; sanitizedNameRegistry := sanitizedNameRegistry h;
     activeProgressTokens := activeProgressTokens h; pendingRequests := pendingRequests h;
     activeTasks := activeTasks h; resourceSubscriptions := v;
     settingsWatcher := settingsWatcher h; projectMcpWatcher := projectMcpWatcher h;
     disposables := disposables h |}.

(** [serverCapabilities?.resources?.subscribe] is truthy *)
Definition supportsSubscribe (cl : Client) : bool :=
  match serverCapabilities cl with
  | Some caps => cap_resources_subscribe caps
  | None => false
  end.

Definition subscribeToResource (reply : Outcome unit) (serverName uri : string)
    (src : option Source) : HubW unit :=
  (cl <- connectedClient serverName src EmptyString " is disabled" ;;
   if negb (supportsSubscribe cl) then
     throwW (OtherError ("Server " +:+ quoted serverName
                           +:+ " does not support resource subscriptions"))
   else
     act (Request (client_id cl) (ResourcesSubscribe uri)) ;;
     awaitW reply ;;
     modifyHubW (fun h =>
       let k := serverKey serverName src in
       let subscriptions := default [] (resourceSubscriptions h !! k) in
       set_resourceSubscriptions (<[k := setAdd uri subscriptions]> (resourceSubscriptions h)) h) ;;
     act (Print ConsoleLog
            ("[McpHub] Subscribed to resource " +:+ uri +:+ " on server " +:+ serverName)
            None))%wide.

Definition unsubscribeFromResource (reply : Outcome unit) (serverName uri : string)
    (src : option Source) : HubW unit :=
  (cl <- connectedClient serverName src EmptyString " is disabled" ;;
   act (Request (client_id cl) (ResourcesUnsubscribe uri)) ;;
   awaitW reply ;;
   modifyHubW (fun h =>
     let k := serverKey serverName src in
     match resourceSubscriptions h !! k with
     | Some subscriptions =>
         match setDelete uri subscriptions with
         | [] => set_resourceSubscriptions (delete k (resourceSubscriptions h)) h
         | remaining =>
             set_resourceSubscriptions (<[k := remaining]> (resourceSubscriptions h)) h
         end
     | None => h
     end) ;;
   act (Print ConsoleLog
          ("[McpHub] Unsubscribed from resource " +:+ uri +:+ " on server " +:+ serverName)
          None))%wide.

Definition getSubscribedResources (serverName : string) (src : option Source)
    (h : McpHub) : list string :=
  default [] (resourceSubscriptions h !! serverKey serverName src).

(** ** Notifications to the servers *)

(** [`${requestId}`] *)
Definition keyText (k : Key) : string :=
  match k with
  | KStr s => s
  | KNum n => pretty n
  end.

(** [answer] is what the awaited [client.notification] comes to. *)
Definition sendCancellation (answer : Outcome unit) (serverName : string)
    (requestId : Key) (reason : option string) (src : option Source) : HubW unit :=
  (h <- getHubW ;;
   match clientOf serverName src h with
   | None =>
       act (Print ConsoleWarn
              ("[McpHub] Cannot cancel request " +:+ keyText requestId +:+ ": server "
                 +:+ serverName +:+ " not connected") None)
   | Some cl =>
       tryCatchW
         (act (Notify (client_id cl) (NotifCancelled requestId reason)) ;;
          awaitW answer)
         (fun e =>
            act (Print ConsoleDebug
                   ("[McpHub] Failed to send cancellation for " +:+ keyText requestId +:+ ":")
                   (Some e)))
   end)%wide.

(** The connections [notifyRootsListChanged] writes to. *)
Definition reachable (c : McpConnection) : bool :=
  match c with
  | Connected s _ _ => negb (disabled s)
  | Disconnected _ => false
  end.

(** [answers] gives, for each client, what its notification promise settles
    to.  The notifications are started in list order; the rejections are
    logged once all are started, here in list order as well. *)
Definition notifyRootsListChanged (answers : nat -> Outcome unit) : HubW unit :=
  (h <- getHubW ;;
   let targets := List.filter reachable (connections h) in
   forEachW targets (fun c =>
     match client c with
     | Some cl => act (Notify (client_id cl) NotifRootsListChanged)
     | None => retW tt
     end) ;;
   forEachW targets (fun c =>
     match client c with
     | Some cl =>
         match answers (client_id cl) with
         | Thrown e =>
             act (Print ConsoleDebug
                    ("[McpHub] Failed to send roots/list_changed to "
                       +:+ name (server c) +:+ ":") (Some e))
         | Returned _ => retW tt
         end
     | None => retW tt
     end))%wide.

(** ** Vocabulary of the requests *)

(** The client a request method may write to: that of the connection found,
    when it is connected and its server is not disabled. *)
Definition usableClient (serverName : string) (src : option Source) (h : McpHub)
    : option Client :=
  match findConnection serverName src (connections h) with
  | Some (Connected s cl _) => if disabled s then None else Some cl
  | Some (Disconnected _) | None => None
  end.

(** The clients written to, request or notification, in order. *)
Definition contacted (acts : list Action) : list nat :=
  omap (fun a => match a with
                 | Request c _ => Some c
                 | Notify c _ => Some c
                 | _ => None
                 end) acts.

(** Sequences of subscription calls, each run to its end. *)
Inductive SubscriptionOp : Type :=
  | OpSubscribe (reply : Outcome unit) (serverName uri : string) (src : option Source)
  | OpUnsubscribe (reply : Outcome unit) (serverName uri : string) (src : option Source).

Definition runSubscriptionOp (op : SubscriptionOp) : HubW unit :=
  match op with
  | OpSubscribe reply serverName uri src =>
      tryCatchW (subscribeToResource reply serverName uri src) (fun _ => retW tt)
  | OpUnsubscribe reply serverName uri src =>
      tryCatchW (unsubscribeFromResource reply serverName uri src) (fun _ => retW tt)
  end.

(** Every stored subscription set is non-empty and free of duplicates. *)
Definition subscriptionsTidy (h : McpHub) : Prop :=
  forall k uris, resourceSubscriptions h !! k = Some uris -> uris <> [] /\ NoDup uris.

Definition clientIds (cs : list McpConnection) : list nat :=
  omap (fun c => client_id <$> client c) cs.

Definition isPrint (a : Action) : bool :=
  match a with
  | Print _ _ _ => true
  | _ => false
  end.


(** ** Notifications from a server: log messages and changed lists *)

Record LogParams : Type := mkLogParams {
  log_level : LoggingLevel;
  log_logger : option string;
  log_data : string;
}.

(** The part of the console line that names the logger, when the
    notification carries a non-empty one. *)
Definition loggerText (logger : option string) : string :=
  match logger with
  | Some l => if bool_decide (l = EmptyString) then EmptyString else " - " +:+ l
  | None => EmptyString
  end.

Definition consoleOf (level : LoggingLevel) : Console :=
  match level with
  | LDebug => ConsoleDebug
  | LInfo | LNotice => ConsoleLog
  | LWarning => ConsoleWarn
  | LError | LCritical | LAlert | LEmergency => ConsoleError
  end.

(** The levels that also go to the error history. *)
Definition isProblem (level : LoggingLevel) : bool :=
  match level with
  | LWarning | LError | LCritical | LAlert | LEmergency => true
  | LDebug | LInfo | LNotice => false
  end.

(** [data] is the text of the message, a string as sent or the JSON of what
    was sent; [posted] and [appended] are the two readings of [Date.now()]. *)
Definition onLoggingMessage (provider : option (Outcome unit)) (posted appended : Z)
    (serverName : string) (src : Source) (n : LogParams) : HubW unit :=
  (act (Print (consoleOf (log_level n))
          ("[MCP " +:+ serverName +:+ loggerText (log_logger n) +:+ "] " +:+ log_data n)
          None) ;;
   match provider with
   | Some answer =>
       act (PostLogMessage serverName (log_level n) (log_logger n) (log_data n) posted) ;;
       awaitW answer
   | None => retW tt
   end ;;
   h <- getHubW ;;
   match findConnection serverName (Some src) (connections h) with
   | Some _ =>
       if isProblem (log_level n) then
         liftW (mutateFound (matches serverName src)
                  (with_server
                     (appendErrorMessage appended (log_data n)
                        (match log_level n with LWarning => LvlWarn | _ => LvlError end))))
       else retW tt
   | None => retW tt
   end)%wide.

Inductive ListKind : Type := Resources | Tools | Prompts.

Definition listMethod (k : ListKind) : string :=
  match k with
  | Resources => "resources/list"
  | Tools => "tools/list"
  | Prompts => "prompts/list"
  end.

Definition set_list (k : ListKind) (v : list string) : McpServer -> McpServer :=
  match k with
  | Resources => set_resources v
  | Tools => set_tools v
  | Prompts => set_prompts v
  end.

(** What the three list-changed handlers and the resource-updated handler
    do inside their [try] once they have logged: when the server's
    connection is connected, the list is fetched again, stored, and the
    webview is told. *)
Definition refreshList (k : ListKind) (answer : Outcome (list string))
    (notify : Outcome unit) (serverName : string) (src : Source) : HubW unit :=
  (h <- getHubW ;;
   match findConnection serverName (Some src) (connections h) with
   | Some (Connected _ _ _) =>
       fetched <- liftW (fetchList (listMethod k) answer serverName (Some src)) ;;
       liftW (mutateFound (matches serverName src) (with_server (set_list k fetched))) ;;
       liftW (notifyWebviewOfServerChanges notify)
   | Some (Disconnected _) | None => retW tt
   end)%wide.

Definition onListChanged (k : ListKind) (answer : Outcome (list string))
    (notify : Outcome unit) (serverName : string) (src : Source) : HubW unit :=
  (act (Print ConsoleLog
          ("[McpHub] " +:+ match k with
                           | Resources => "Resource"
                           | Tools => "Tool"
                           | Prompts => "Prompt"
                           end +:+ " list changed for server " +:+ serverName) None) ;;
   tryCatchW (refreshList k answer notify serverName src)
     (fun e =>
        act (Print ConsoleError
               ("[McpHub] Error refreshing " +:+ match k with
                                                 | Resources => "resources"
                                                 | Tools => "tools"
                                                 | Prompts => "prompts"
                                                 end +:+ " for " +:+ serverName +:+ ":")
               (Some e))))%wide.

Definition onResourceUpdated (provider : option (Outcome unit)) (now : Z)
    (answer : Outcome (list string)) (notify : Outcome unit)
    (serverName : string) (src : Source) (uri : string) : HubW unit :=
  (act (Print ConsoleLog
          ("[McpHub] Resource updated for server " +:+ serverName +:+ ": " +:+ uri) None) ;;
   tryCatchW
     (match provider with
      | Some posted => act (PostResourceUpdated serverName uri now) ;; awaitW posted
      | None => retW tt
      end ;;
      refreshList Resources answer notify serverName src)
     (fun e =>
        act (Print ConsoleError
               ("[McpHub] Error handling resource update for " +:+ serverName +:+ ":")
               (Some e))))%wide.

(** ** Settings files: programmatic writes and the watcher's debounce *)

Definition set_isProgrammaticUpdate (v : bool) (h : McpHub) : McpHub :=
  {| connections := connections h; isDisposed := isDisposed h; isConnecting := isConnecting h;
     isProgrammaticUpdate := v; flagResetTimer := flagResetTimer h;
     configChangeDebounceTimers := configChangeDebounceTimers h;
     fileWatchers := fileWatchers h; sanitizedNameRegistry := sanitizedNameRegistry h;
     activeProgressTokens := activeProgressTokens h; pendingRequests := pendingRequests h;
     activeTasks := activeTasks h; resourceSubscriptions := resourceSubscriptions h;
     settingsWatcher := settingsWatcher h; projectMcpWatcher := projectMcpWatcher h;
     disposables := disposables h |}.

Definition set_flagResetTimer (v : option nat) (h : McpHub) : McpHub :=
  {| connections := connections h; isDisposed := isDisposed h; isConnecting := isConnecting h;
     isProgrammaticUpdate := isProgrammaticUpdate h; flagResetTimer := v;
     configChangeDebounceTimers := configChangeDebounceTimers h;
     fileWatchers := fileWatchers h; sanitizedNameRegistry := sanitizedNameRegistry h;
     activeProgressTokens := activeProgressTokens h; pendingRequests := pendingRequests h;
     activeTasks := activeTasks h; resourceSubscriptions := resourceSubscriptions h;
     settingsWatcher := settingsWatcher h; projectMcpWatcher := projectMcpWatcher h;
     disposables := disposables h |}.

Definition set_configChangeDebounceTimers (v : gmap string nat) (h : McpHub) : McpHub :=
  {| connections := connections h; isDisposed := isDisposed h; isConnecting := isConnecting h;
     isProgrammaticUpdate := isProgrammaticUpdate h; flagResetTimer := flagResetTimer h;
     configChangeDebounceTimers := v;
     fileWatchers := fileWatchers h; sanitizedNameRegistry := sanitizedNameRegistry h;
     activeProgressTokens := activeProgressTokens h; pendingRequests := pendingRequests h;
     activeTasks := activeTasks h; resourceSubscriptions := resourceSubscriptions h;
     settingsWatcher := settingsWatcher h; projectMcpWatcher := projectMcpWatcher h;
     disposables := disposables h |}.

(** [try { m } finally { fin }] *)
Definition finallyW {A} (m : HubW A) (fin : HubW unit) : HubW A :=
  fun h =>
    let r := m h in
    let rf := fin (finalW r) in
    mkRunW (match outcomeW rf with
            | Thrown e => Thrown e
            | Returned _ => outcomeW r
            end) (finalW rf) (actions r ++ actions rf).

(** The write of a settings file as [updateServerConfig] and
    [updateServerToolList] make it: the pending reset timer is cleared, the
    flag raised, the file written, and, however the write ends, a new reset
    timer started.  [timer] is the handle [setTimeout] returns. *)
Definition writeSettings (write : Outcome unit) (timer : nat) (configPath : string)
    : HubW unit :=
  (h <- getHubW ;;
   match flagResetTimer h with
   | Some t => act (Did (ClearTimeout t))
   | None => retW tt
   end ;;
   modifyHubW (set_isProgrammaticUpdate true) ;;
   finallyW
     (act (WriteJson configPath) ;; awaitW write)
     (act (SetTimeout timer 600) ;;
      modifyHubW (set_flagResetTimer (Some timer))))%wide.

(** The callback of the reset timer. *)
Definition onFlagResetTimer : HubW unit :=
  (modifyHubW (set_isProgrammaticUpdate false) ;;
   modifyHubW (set_flagResetTimer None))%wide.

(** What [updateServerConfig] meets outside: the path of the project's
    settings file ([None]: the project has none) and that of the global
    one, whether the file can be accessed, whether its content parses to an
    object, the write, and the handle of the new timer. *)
Record SettingsEnv : Type := mkSettingsEnv {
  se_projectPath : Outcome (option string);
  se_globalPath : Outcome string;
  se_access : Outcome unit;
  se_config : Outcome bool;
  se_write : Outcome unit;
  se_timer : nat;
}.

Definition updateServerConfig (env : SettingsEnv) (serverName : string) (src : Source)
    : HubW unit :=
  (configPath <-
     match src with
     | Project =>
         projectMcpPath <- awaitW (se_projectPath env) ;;
         match projectMcpPath with
         | Some p => retW p
         | None => throwW (OtherError "Project MCP configuration file not found")
         end
     | Global => awaitW (se_globalPath env)
     end ;;
   tryCatchW (awaitW (se_access env))
     (fun e =>
        act (Print ConsoleError "Settings file not accessible:" (Some e)) ;;
        throwW (OtherError "Settings file not accessible")) ;;
   isObject <- awaitW (se_config env) ;;
   if negb isObject then throwW (OtherError "Invalid config structure")
   else writeSettings (se_write env) (se_timer env) configPath)%wide.

(** The key of a settings file in [configChangeDebounceTimers]. *)
Definition timerKey (src : Source) (filePath : string) : string :=
  sourceText src +:+ "-" +:+ filePath.

Definition debounceConfigChange (timer : nat) (filePath : string) (src : Source)
    : HubW unit :=
  (h <- getHubW ;;
   if isProgrammaticUpdate h then retW tt
   else
     match configChangeDebounceTimers h !! timerKey src filePath with
     | Some existingTimer => act (Did (ClearTimeout existingTimer))
     | None => retW tt
     end ;;
     act (SetTimeout timer 500) ;;
     modifyHubW (fun h =>
       set_configChangeDebounceTimers
         (<[timerKey src filePath := timer]> (configChangeDebounceTimers h)) h))%wide.

(** What [handleConfigFileChange] meets outside: the content of the file,
    whether a thrown error carries the code [ENOENT], what the settings
    schema makes of the parsed content ([None]: rejected, with the messages
    to show), and the two notifications of the webview. *)
Record ChangeEnv `{Host} : Type := mkChangeEnv {
  ch_content : Outcome string;
  ch_enoent : Exn -> bool;
  ch_settings : RawConfig -> list (string * RawConfig) + string;
  ch_connect : string -> ConnectEnv;
  ch_notify : Outcome unit;
  ch_notifyDeleted : Outcome unit;
}.

Definition handleConfigFileChange `{Host} (env : ChangeEnv) (filePath : string)
    (src : Source) : HubW unit :=
  tryCatchW
    (content <- awaitW (ch_content env) ;;
     match jsonParse content with
     | Thrown parseError =>
         act (Print ConsoleError "mcp:errors.invalid_settings_syntax" (Some parseError)) ;;
         act (WindowShowErrorMessage "mcp:errors.invalid_settings_syntax")
     | Returned config =>
         match ch_settings env config with
         | inr errorMessages =>
             act (WindowShowErrorMessage
                    ("mcp:errors.invalid_settings_validation " +:+ errorMessages))
         | inl mcpServers =>
             liftW (updateServerConnections (ch_connect env) (ch_notify env)
                      mcpServers src true)
         end
     end)%wide
    (fun error =>
       if ch_enoent env error && bool_decide (src = Project) then
         (liftW (cleanupProjectMcpServers (ch_connect env) (ch_notify env)) ;;
          liftW (notifyWebviewOfServerChanges (ch_notifyDeleted env)) ;;
          act (Did (ShowInformationMessage "mcp:info.project_config_deleted" EmptyString)))%wide
       else
         act (Did (ShowErrorMessage "mcp:errors.failed_update_project" (exn_message error)))).

(** The callback of a debounce timer. *)
Definition onDebounceTimer `{Host} (env : ChangeEnv) (filePath : string) (src : Source)
    : HubW unit :=
  (modifyHubW (fun h =>
     set_configChangeDebounceTimers
       (delete (timerKey src filePath) (configChangeDebounceTimers h)) h) ;;
   handleConfigFileChange env filePath src)%wide.

(** Sequences of settings operations, each run to its end. *)
Inductive SettingsOp `{Host} : Type :=
  | OpUpdateConfig (env : SettingsEnv) (serverName : string) (src : Source)
  | OpFileChanged (timer : nat) (filePath : string) (src : Source)
  | OpFlagTimerFires
  | OpDebounceTimerFires (env : ChangeEnv) (filePath : string) (src : Source)
  | OpDispose.

Definition runSettingsOp `{Host} (op : SettingsOp) : HubW unit :=
  match op with
  | OpUpdateConfig env serverName src =>
      tryCatchW (updateServerConfig env serverName src) (fun _ => retW tt)
  | OpFileChanged timer filePath src => debounceConfigChange timer filePath src
  | OpFlagTimerFires => onFlagResetTimer
  | OpDebounceTimerFires env filePath src =>
      tryCatchW (onDebounceTimer env filePath src) (fun _ => retW tt)
  | OpDispose => liftW dispose
  end.

(** The flag that silences the file watcher is raised only while a timer
    that will lower it is pending. *)
Definition flagGuarded (h : McpHub) : Prop :=
  isProgrammaticUpdate h = true -> is_Some (flagResetTimer h).

(** Whatever [m] does from a hub in [P], it leaves a hub in [Q]. *)
Definition hoareW {A} (P : McpHub -> Prop) (m : HubW A) (Q : McpHub -> Prop) : Prop :=
  forall h, P h -> Q (finalW (m h)).

(** ** Further sample data *)

(** The busy hub with a file watcher on the sample server's build output. *)
Definition watchedHub : McpHub :=
  set_fileWatchers {[ "srv"%string := [WatchFile "build/index.js"] ]} (busyHub false Working).

(** A hub whose one server is connected to a peer that lets resources be
    subscribed to. *)
Definition subscribableHub : McpHub :=
  set_connections
    [Connected sampleServer
       {| client_id := 1;
          serverCapabilities :=
            Some {| cap_tasks := false; cap_resources_subscribe := true |} |}
       7%nat]
    newHub.

(** * Properties *)

(** ** Reasoning about runs *)

Lemma bind_returned {A B} (m : Hub A) (k : A -> Hub B) (h : McpHub) (a : A) :
  outcome (m h) = Returned a ->
  bind m k h = prepend (effects (m h)) (k a (final (m h))).
Proof. intros Ha. unfold bind, prepend. rewrite Ha. reflexivity. Qed.

Lemma bind_thrown {A B} (m : Hub A) (k : A -> Hub B) (h : McpHub) (e : Exn) :
  outcome (m h) = Thrown e ->
  bind m k h = mkRun (Thrown e) (final (m h)) (effects (m h)).
Proof. intros He. unfold bind. rewrite He. reflexivity. Qed.

Lemma prepend_prepend {A} (xs ys : list Event) (r : Run A) :
  prepend xs (prepend ys r) = prepend (xs ++ ys) r.
Proof. unfold prepend. simpl. rewrite app_assoc. reflexivity. Qed.

Lemma prepend_nil {A} (r : Run A) : prepend [] r = r.
Proof. destruct r. reflexivity. Qed.

Lemma prepend_cons {A} (x : Event) (xs : list Event) (r : Run A) :
  prepend (x :: xs) r = prepend [x] (prepend xs r).
Proof. reflexivity. Qed.

Lemma run_eta {A} (r : Run A) : mkRun (outcome r) (final r) (effects r) = r.
Proof. destruct r. reflexivity. Qed.

Lemma bind_ret {A B} (a : A) (k : A -> Hub B) (h : McpHub) : bind (ret a) k h = k a h.
Proof. unfold bind, ret. simpl. apply run_eta. Qed.

Lemma bind_getHub {B} (k : McpHub -> Hub B) (h : McpHub) : bind getHub k h = k h h.
Proof. unfold bind, getHub. simpl. apply run_eta. Qed.

Lemma bind_modifyHub {B} (f : McpHub -> McpHub) (k : unit -> Hub B) (h : McpHub) :
  bind (modifyHub f) k h = k tt (f h).
Proof. unfold bind, modifyHub. simpl. apply run_eta. Qed.

Lemma bind_emit {B} (ev : Event) (k : unit -> Hub B) (h : McpHub) :
  bind (emit ev) k h = prepend [ev] (k tt h).
Proof. reflexivity. Qed.

Lemma bind_await_returned {A B} (a : A) (k : A -> Hub B) (h : McpHub) :
  bind (await (Returned a)) k h = k a h.
Proof. unfold bind, await. simpl. apply run_eta. Qed.

Lemma bind_await_thrown {A B} (e : Exn) (k : A -> Hub B) (h : McpHub) :
  bind (await (Thrown e)) k h = mkRun (Thrown e) h [].
Proof. reflexivity. Qed.

Lemma tryCatch_returned {A} (m : Hub A) (handler : Exn -> Hub A) (h : McpHub) (a : A) :
  outcome (m h) = Returned a -> tryCatch m handler h = m h.
Proof. intros Ha. unfold tryCatch. rewrite Ha. reflexivity. Qed.

Lemma tryCatch_thrown {A} (m : Hub A) (handler : Exn -> Hub A) (h : McpHub) (e : Exn) :
  outcome (m h) = Thrown e ->
  tryCatch m handler h = prepend (effects (m h)) (handler e (final (m h))).
Proof. intros He. unfold tryCatch, prepend. rewrite He. reflexivity. Qed.

Section HoareRules.
Context {A B : Type}.
Implicit Types (P Q R : McpHub -> Prop).


Lemma hoare_ret P (a : A) : hoare P (ret a) P.
Proof. intros h Hh. exact Hh. Qed.

Lemma hoare_throw P (e : Exn) : hoare P (@throw A e) P.
Proof. intros h Hh. exact Hh. Qed.

Lemma hoare_await P (o : Outcome A) : hoare P (await o) P.
Proof. intros h Hh. exact Hh. Qed.

Lemma hoare_bind P Q R (m : Hub A) (k : A -> Hub B) :
  hoare P m R -> (forall h, R h -> Q h) -> (forall a, hoare R (k a) Q) ->
  hoare P (bind m k) Q.
Proof.
  intros Hm HRQ Hk h Hh. unfold bind. specialize (Hm h Hh).
  destruct (outcome (m h)) as [a|e]; simpl.
  - apply Hk. exact Hm.
  - apply HRQ. exact Hm.
Qed.

Lemma hoare_tryCatch P Q R (m : Hub A) (handler : Exn -> Hub A) :
  hoare P m R -> (forall h, R h -> Q h) -> (forall e, hoare R (handler e) Q) ->
  hoare P (tryCatch m handler) Q.
Proof.
  intros Hm HRQ Hk h Hh. unfold tryCatch. specialize (Hm h Hh).
  destruct (outcome (m h)) as [a|e]; simpl.
  - apply HRQ. exact Hm.
  - apply Hk. exact Hm.
Qed.

Lemma hoare_getHub_bind P Q (k : McpHub -> Hub B) :
  (forall h0, hoare (fun h => P h /\ h = h0) (k h0) Q) -> hoare P (bind getHub k) Q.
Proof. intros Hk h Hh. unfold bind, getHub. simpl. apply (Hk h). split; [exact Hh | reflexivity]. Qed.
End HoareRules.

Lemma hoare_emit P (e : Event) : hoare P (emit e) P.
Proof. intros h Hh. exact Hh. Qed.

Lemma hoare_modifyHub (P Q : McpHub -> Prop) (f : McpHub -> McpHub) :
  (forall h, P h -> Q (f h)) -> hoare P (modifyHub f) Q.
Proof. intros Hf h Hh. apply Hf, Hh. Qed.

Lemma hoare_when (I : McpHub -> Prop) (b : bool) (m : Hub unit) :
  hoare I m I -> hoare I (when b m) I.
Proof. intros Hm. destruct b; [exact Hm | apply hoare_ret]. Qed.

Lemma hoare_forEach {A} (I : McpHub -> Prop) (xs : list A) (body : A -> Hub unit) :
  (forall x, hoare I (body x) I) -> hoare I (forEach xs body) I.
Proof.
  intros Hbody. induction xs as [|x xs IH]; simpl.
  - apply hoare_ret.
  - eapply hoare_bind; [apply Hbody | auto | intros _; exact IH].
Qed.

(** An invariant-style bind: the continuation may start anywhere in [I]. *)
Lemma inv_bind {A B} (I : McpHub -> Prop) (m : Hub A) (k : A -> Hub B) :
  hoare I m I -> (forall a, hoare I (k a) I) -> hoare I (bind m k) I.
Proof. intros Hm Hk. eapply hoare_bind; [exact Hm | auto | exact Hk]. Qed.

Lemma inv_tryCatch {A} (I : McpHub -> Prop) (m : Hub A) (handler : Exn -> Hub A) :
  hoare I m I -> (forall e, hoare I (handler e) I) -> hoare I (tryCatch m handler) I.
Proof. intros Hm Hk. eapply hoare_tryCatch; [exact Hm | auto | exact Hk]. Qed.

Lemma inv_void {A} (I : McpHub -> Prop) (m : Hub A) : hoare I m I -> hoare I (void m) I.
Proof.
  intros Hm. unfold void. apply inv_tryCatch.
  - apply inv_bind; [exact Hm | intros a; apply hoare_ret].
  - intros e. apply hoare_ret.
Qed.

(** ** Progress events *)

(** C5. For every known progress token, with or without an observer, an
    event whose progress value is strictly below the last recorded one logs
    the regression warning exactly once and still overwrites the stored
    [lastProgress] with the new value, the rest of the entry being kept; the
    observer registered with the token, if there is one, is called once with
    the raw reported values, and no other observer is called.  The handler
    returns normally unless forwarding the event to the webview fails. *)
Theorem progress_regression_still_recorded
    (provider : option (Outcome unit)) (n : ProgressParams) (h : McpHub)
    (d : ProgressTokenData) :
  activeProgressTokens h !! p_progressToken n = Some d ->
  p_progress n < lastProgress d ->
  let r := onProgressNotification provider n h in
  outcome r = match provider with Some (Thrown e) => Thrown e | _ => Returned tt end /\
  List.filter isWarning (effects r) =
    [WarnNonMonotonicProgress (p_progressToken n) (p_progress n) (lastProgress d)] /\
  activeProgressTokens (final r) !! p_progressToken n =
    Some {| tok_serverName := tok_serverName d; tok_callback := tok_callback d;
            lastProgress := p_progress n |} /\
  (forall cb, observed cb (effects r) =
     if bool_decide (tok_callback d = Some cb)
     then [(p_progress n, p_total n, p_message n)] else []) /\
  (forall k, k <> p_progressToken n ->
     activeProgressTokens (final r) !! k = activeProgressTokens h !! k).
Proof.
  intros Hd Hlt r. subst r.
  unfold onProgressNotification, bind, getHub. simpl. rewrite Hd. simpl.
  rewrite bool_decide_eq_true_2 by exact Hlt. simpl.
  destruct (tok_callback d) as [cb'|] eqn:Hcb; destruct provider as [[[]|e]|]; simpl;
    rewrite lookup_insert_eq; (repeat split; try reflexivity);
    try (intros k Hk; apply lookup_insert_ne; congruence).
  all: intros cb; unfold observed; simpl.
  all: try (destruct (decide (cb' = cb)) as [->|Hne];
            [rewrite !bool_decide_eq_true_2 by reflexivity
            |rewrite !bool_decide_eq_false_2 by congruence]; reflexivity).
  all: rewrite bool_decide_eq_false_2 by discriminate; reflexivity.
Qed.

(** ** Inbound cancellation *)

(** C6. A cancellation notification whose request id has no entry in the
    pending-request map (or that carries no request id at all) returns
    normally and leaves the whole hub, hence the pending-request, progress
    and task maps, as it found it; no controller is aborted. *)
Theorem cancellation_of_unknown_request_is_noop (n : CancelledParams) (h : McpHub) :
  (forall requestId, c_requestId n = Some requestId -> pendingRequests h !! requestId = None) ->
  let r := onCancelledNotification n h in
  outcome r = Returned tt /\
  final r = h /\
  pendingRequests (final r) = pendingRequests h /\
  activeProgressTokens (final r) = activeProgressTokens h /\
  activeTasks (final r) = activeTasks h /\
  (forall ctrl reason, ControllerAbort ctrl reason ∉ effects r).
Proof.
  intros Hunknown r. subst r. unfold onCancelledNotification.
  destruct (c_requestId n) as [requestId|] eqn:Hid.
  - unfold bind, getHub. simpl. rewrite (Hunknown requestId eq_refl). simpl.
    repeat split; try reflexivity.
    intros ctrl reason Hin. apply list_elem_of_singleton in Hin. discriminate.
  - simpl. repeat split; try reflexivity.
    intros ctrl reason Hin. apply list_elem_of_singleton in Hin. discriminate.
Qed.

(** ** Task-augmented calls *)

(** C7. Against a connected peer whose negotiated capabilities do not
    declare task support, [callToolAsTask] sends one ordinary [tools/call]
    request and returns the peer's plain result (or rethrows the peer's
    error); the hub is left untouched, so no task record is created and no
    progress token is issued. *)
Theorem call_without_task_support_is_plain
    (env : CallEnv) (serverName toolName args : string) (options : CallOptions)
    (h : McpHub) (cl : Client) :
  clientOf serverName (opt_source options) h = Some cl ->
  supportsTasks cl = false ->
  let r := callToolAsTask env serverName toolName args options h in
  outcome r =
    match call_plain env with
    | Returned result => Returned (ResResult result)
    | Thrown e => Thrown e
    end /\
  effects r = [SendRequest (client_id cl) (ReqToolsCall toolName args)] /\
  final r = h /\
  activeTasks (final r) = activeTasks h /\
  activeProgressTokens (final r) = activeProgressTokens h.
Proof.
  intros Hcl Hcaps r. subst r.
  unfold callToolAsTask, bind, getHub. simpl. rewrite Hcl, Hcaps. simpl.
  destruct (call_plain env) as [result|e]; simpl; repeat split; reflexivity.
Qed.

(** ** Polling and result retrieval *)

Lemma getTask_run (env : TaskEnv) (serverName taskId : string) (src : option Source)
    (h : McpHub) (cl : Client) :
  clientOf serverName src h = Some cl ->
  let r := getTask env serverName taskId src h in
  outcome r = te_reply env /\
  effects r = [SendRequest (client_id cl) (ReqTasksGet taskId)] /\
  connections (final r) = connections h /\
  activeProgressTokens (final r) = activeProgressTokens h /\
  (forall k, k <> taskId -> activeTasks (final r) !! k = activeTasks h !! k) /\
  task_progressToken <$> activeTasks (final r) !! taskId =
    task_progressToken <$> activeTasks h !! taskId /\
  storedStatus taskId (final r) =
    match te_reply env, activeTasks h !! taskId with
    | Returned (Some t), Some _ => Some (td_status t)
    | _, _ => storedStatus taskId h
    end.
Proof.
  intros Hcl r. subst r. unfold getTask, storedStatus, bind, getHub. simpl. rewrite Hcl. simpl.
  destruct (te_reply env) as [[t|]|e]; simpl;
    destruct (activeTasks h !! taskId) as [td|] eqn:Htd; simpl;
    rewrite ?lookup_insert_eq, ?Htd; simpl; (repeat split; try reflexivity).
  intros k Hk. apply lookup_insert_ne. congruence.
Qed.

Lemma getTask_not_connected (env : TaskEnv) (serverName taskId : string)
    (src : option Source) (h : McpHub) :
  clientOf serverName src h = None ->
  getTask env serverName taskId src h =
    mkRun (Thrown (McpError InternalError ("Server " +:+ serverName +:+ " not connected"))) h [].
Proof. intros Hcl. unfold getTask, bind, getHub. simpl. rewrite Hcl. reflexivity. Qed.

Lemma getTaskResult_run (reply : Outcome string) (serverName taskId : string)
    (src : option Source) (h : McpHub) (cl : Client) (result : string) :
  clientOf serverName src h = Some cl ->
  reply = Returned result ->
  let r := getTaskResult reply serverName taskId src h in
  outcome r = Returned result /\
  effects r = [SendRequest (client_id cl) (ReqTasksResult taskId)] /\
  activeTasks (final r) !! taskId = None /\
  (forall td tok, activeTasks h !! taskId = Some td -> task_progressToken td = Some tok ->
     truthy tok = true -> activeProgressTokens (final r) !! tok = None).
Proof.
  intros Hcl -> r. subst r. unfold getTaskResult, bind, getHub. simpl. rewrite Hcl. simpl.
  destruct (activeTasks h !! taskId) as [td|] eqn:Htd; simpl.
  - destruct (task_progressToken td) as [tok|] eqn:Htok; simpl.
    + destruct (truthy tok) eqn:Htruthy; simpl.
      * rewrite lookup_delete_eq. repeat split; try reflexivity.
        intros td' tok' [= <-] Htok' _.
        assert (tok' = tok) as -> by congruence. apply lookup_delete_eq.
      * rewrite lookup_delete_eq. repeat split; try reflexivity.
        intros td' tok' [= <-] Htok' Ht. congruence.
    + rewrite lookup_delete_eq. repeat split; try reflexivity.
      intros td' tok' [= <-] Htok'. congruence.
  - rewrite lookup_delete_eq. repeat split; try reflexivity.
    intros td' tok' Hd. discriminate.
Qed.

Lemma getTaskResult_failed (reply : Outcome string) (serverName taskId : string)
    (src : option Source) (h : McpHub) (cl : Client) (e : Exn) :
  clientOf serverName src h = Some cl ->
  reply = Thrown e ->
  getTaskResult reply serverName taskId src h =
    mkRun (Thrown e) h [SendRequest (client_id cl) (ReqTasksResult taskId)].
Proof.
  intros Hcl ->. unfold getTaskResult, bind, getHub. simpl. rewrite Hcl. reflexivity.
Qed.
Lemma clientOf_connections (serverName : string) (src : option Source) (h h' : McpHub) :
  connections h' = connections h -> clientOf serverName src h' = clientOf serverName src h.
Proof. intros Heq. unfold clientOf. rewrite Heq. reflexivity. Qed.

Lemma resultRequests_app (taskId : string) (xs ys : list Event) :
  resultRequests taskId (xs ++ ys) = (resultRequests taskId xs + resultRequests taskId ys)%nat.
Proof. unfold resultRequests. rewrite List.filter_app, length_app. reflexivity. Qed.

Lemma pollLoop_quiet_prefix (serverName taskId : string) (options : PollOptions)
    (startTime : Z) (resultReply : Outcome string) (pre rest : list PollStep)
    (h : McpHub) (cl : Client) :
  clientOf serverName (po_source options) h = Some cl ->
  Forall (quietStep startTime options) pre ->
  exists h' evs,
    connections h' = connections h /\
    activeProgressTokens h' = activeProgressTokens h /\
    task_progressToken <$> activeTasks h' !! taskId =
      task_progressToken <$> activeTasks h !! taskId /\
    resultRequests taskId evs = 0%nat /\
    pollLoop serverName taskId options startTime resultReply (pre ++ rest) h =
      prepend evs (pollLoop serverName taskId options startTime resultReply rest h').
Proof.
  intros Hcl Hquiet. revert h Hcl.
  induction Hquiet as [|step pre [Hclock (t & Hreply & Hterm)] Hpre IH]; intros h Hcl.
  - exists h, []. rewrite prepend_nil. repeat split; reflexivity.
  - destruct (getTask_run (ps_get step) serverName taskId (po_source options) h cl Hcl)
      as (Hout & Heff & Hconn & Htok & _ & Hptok & _).
    destruct (IH (final (getTask (ps_get step) serverName taskId (po_source options) h)))
      as (h' & evs & Hconn' & Htok' & Hptok' & Hcount & Hrun).
    { rewrite (clientOf_connections _ _ _ _ Hconn). exact Hcl. }
    exists h'.
    exists (SendRequest (client_id cl) (ReqTasksGet taskId) ::
            ((if po_onStatusChange options
              then [InvokeStatusChange (td_status t) (td_statusMessage t)] else []) ++
             [Delay (default 1000 (td_pollInterval t))] ++ evs)).
    split; [congruence|]. split; [congruence|]. split; [congruence|].
    split.
    { change (resultRequests taskId
                ((if po_onStatusChange options
                  then [InvokeStatusChange (td_status t) (td_statusMessage t)] else []) ++
                 [Delay (default 1000 (td_pollInterval t))] ++ evs) = 0%nat).
      rewrite !resultRequests_app, Hcount.
      destruct (po_onStatusChange options); reflexivity. }
    rewrite prepend_cons.
    cbn [app pollLoop].
    rewrite bool_decide_eq_false_2 by lia.
    rewrite Hreply in Hout.
    rewrite (bind_returned _ _ _ _ Hout), Heff.
    apply (f_equal (prepend [SendRequest (client_id cl) (ReqTasksGet taskId)])).
    destruct (td_status t) eqn:Hst; try discriminate Hterm;
      destruct (po_onStatusChange options);
      cbn [when bind emit ret outcome final effects app].
    all: rewrite Hrun; reflexivity.
Qed.
Lemma bind_when_emit {B} (b : bool) (ev : Event) (m : Hub B) (h : McpHub) :
  (when b (emit ev) ;; m) h = prepend (if b then [ev] else []) (m h).
Proof. destruct b; reflexivity. Qed.

(** What the polling loop is written to do, against an answer to
    [tasks/get] that carries the task in a member [task]: once the peer
    reports [completed] (after any number of quiet turns), the deferred
    payload is requested exactly once and returned, the local task record is
    removed from the active-task map and its progress token, if any, is
    released; when the peer reports [failed] or [cancelled], the caller gets
    an error instead of a payload and no result request is sent.  A direct
    successful [getTaskResult] has the same clean-up effect, whatever the
    shape of the [tasks/get] answers. *)
Lemma completed_payload_fetched_once_failure_surfaced
    (serverName taskId : string) (options : PollOptions) (startTime : Z)
    (resultReply : Outcome string) (pre post : list PollStep) (step : PollStep)
    (t : TaskDescriptor) (h : McpHub) (cl : Client) :
  clientOf serverName (po_source options) h = Some cl ->
  Forall (quietStep startTime options) pre ->
  ps_clock step - startTime <= default 300000 (po_timeoutMs options) ->
  te_reply (ps_get step) = Returned (Some t) ->
  let r := pollTaskUntilComplete startTime resultReply (pre ++ step :: post)
             serverName taskId options h in
  let released (h' : McpHub) :=
    activeTasks h' !! taskId = None /\
    forall td tok, activeTasks h !! taskId = Some td -> task_progressToken td = Some tok ->
      truthy tok = true -> activeProgressTokens h' !! tok = None in
  match td_status t with
  | Completed =>
      resultRequests taskId (effects r) = 1%nat /\
      match resultReply with
      | Returned payload => outcome r = Returned (Some payload) /\ released (final r)
      | Thrown e => outcome r = Thrown e
      end
  | Failed =>
      outcome r = Thrown (McpError InternalError
                            ("Task " +:+ taskId +:+ " failed: "
                               +:+ default "unknown error"%string (td_statusMessage t))) /\
      resultRequests taskId (effects r) = 0%nat
  | Cancelled =>
      outcome r = Thrown (McpError InternalError ("Task " +:+ taskId +:+ " was cancelled")) /\
      resultRequests taskId (effects r) = 0%nat
  | Working | InputRequired => True
  end /\
  forall payload,
    let g := getTaskResult (Returned payload) serverName taskId (po_source options) h in
    outcome g = Returned payload /\ released (final g).
Proof.
  intros Hcl Hquiet Hclock Hreply r released. split.
  - subst r. unfold pollTaskUntilComplete.
    destruct (pollLoop_quiet_prefix serverName taskId options startTime resultReply
                pre (step :: post) h cl Hcl Hquiet)
      as (h1 & evs & Hconn1 & Htok1 & Hptok1 & Hcount & ->).
    assert (Hcl1 : clientOf serverName (po_source options) h1 = Some cl).
    { rewrite (clientOf_connections _ _ _ _ Hconn1). exact Hcl. }
    destruct (getTask_run (ps_get step) serverName taskId (po_source options) h1 cl Hcl1)
      as (Hout & Heff & Hconn2 & Htok2 & _ & Hptok2 & _).
    set (h2 := final (getTask (ps_get step) serverName taskId (po_source options) h1)) in *.
    assert (Hcl2 : clientOf serverName (po_source options) h2 = Some cl).
    { rewrite (clientOf_connections _ _ _ _ Hconn2). exact Hcl1. }
    cbn [pollLoop]. rewrite bool_decide_eq_false_2 by lia.
    rewrite Hreply in Hout. rewrite (bind_returned _ _ _ _ Hout), Heff. fold h2.
    destruct (td_status t) eqn:Hst; try exact I.
    + (* completed *)
      destruct resultReply as [payload|e].
      * destruct (getTaskResult_run (Returned payload) serverName taskId (po_source options)
                    h2 cl payload Hcl2 eq_refl) as (Hgo & Hge & Hgone & Hrel).
        assert (Hrun :
          (when (po_onStatusChange options)
             (emit (InvokeStatusChange Completed (td_statusMessage t))) ;;
           (x <- getTaskResult (Returned payload) serverName taskId (po_source options) ;;
            ret (Some x))) h2 =
          prepend (if po_onStatusChange options
                   then [InvokeStatusChange Completed (td_statusMessage t)] else [])
            (mkRun (Returned (Some payload))
               (final (getTaskResult (Returned payload) serverName taskId
                         (po_source options) h2))
               [SendRequest (client_id cl) (ReqTasksResult taskId)])).
        { rewrite bind_when_emit, (bind_returned _ _ _ _ Hgo), Hge. reflexivity. }
        rewrite Hrun. cbn [prepend outcome final effects].
        split.
        { rewrite !resultRequests_app, Hcount.
          destruct (po_onStatusChange options); cbn;
            rewrite bool_decide_eq_true_2 by reflexivity; reflexivity. }
        split; [reflexivity|]. split; [exact Hgone|].
        intros td tok Htd Htk Htruthy.
        rewrite Hptok1, Htd in Hptok2.
        destruct (activeTasks h2 !! taskId) as [td2|] eqn:Htd2; [|discriminate].
        simpl in Hptok2.
        apply (Hrel td2 tok eq_refl); [congruence | exact Htruthy].
      * assert (Hrun :
          (when (po_onStatusChange options)
             (emit (InvokeStatusChange Completed (td_statusMessage t))) ;;
           (x <- getTaskResult (Thrown e) serverName taskId (po_source options) ;;
            ret (Some x))) h2 =
          prepend (if po_onStatusChange options
                   then [InvokeStatusChange Completed (td_statusMessage t)] else [])
            (mkRun (Thrown e) h2 [SendRequest (client_id cl) (ReqTasksResult taskId)])).
        { rewrite bind_when_emit. f_equal.
          unfold bind at 1.
          rewrite (getTaskResult_failed (Thrown e) serverName taskId (po_source options)
                     h2 cl e Hcl2 eq_refl). reflexivity. }
        rewrite Hrun. cbn [prepend outcome final effects].
        split; [|reflexivity].
        rewrite !resultRequests_app, Hcount.
        destruct (po_onStatusChange options); cbn;
          rewrite bool_decide_eq_true_2 by reflexivity; reflexivity.
    + (* failed *)
      rewrite bind_when_emit. cbn [prepend throw outcome final effects].
      split; [reflexivity|].
      rewrite !resultRequests_app, Hcount.
      destruct (po_onStatusChange options); reflexivity.
    + (* cancelled *)
      rewrite bind_when_emit. cbn [prepend throw outcome final effects].
      split; [reflexivity|].
      rewrite !resultRequests_app, Hcount.
      destruct (po_onStatusChange options); reflexivity.
  - intros payload g. subst g.
    destruct (getTaskResult_run (Returned payload) serverName taskId (po_source options)
                h cl payload Hcl eq_refl) as (Hgo & _ & Hgone & Hrel).
    split; [exact Hgo|]. split; [exact Hgone | exact Hrel].
Qed.
(** C8.  The code falls short of the claim.  The answer to [tasks/get] has
    the task at its top level, and [getTask] looks for it in a member
    [task]: whatever status the peer reports for the task, [completed],
    [failed] and [cancelled] included, the first turn of
    [pollTaskUntilComplete] that reaches the peer sends one [tasks/get]
    request and ends with the error that the task was not found.  No result
    is requested, no failure or cancellation is reported as such, and the
    hub, with the task record and its progress token, is left as it was. *)
Theorem poll_finds_no_task_in_a_top_level_answer
    (serverName taskId : string) (options : PollOptions) (startTime clock : Z)
    (resultReply : Outcome string) (later : list PollStep)
    (t : TaskDescriptor) (h : McpHub) (cl : Client) :
  clientOf serverName (po_source options) h = Some cl ->
  clock - startTime <= default 300000 (po_timeoutMs options) ->
  let r := pollTaskUntilComplete startTime resultReply
             (answered clock (TopLevel t) :: later) serverName taskId options h in
  outcome r = Thrown (McpError InternalError ("Task " +:+ taskId +:+ " not found")) /\
  effects r = [SendRequest (client_id cl) (ReqTasksGet taskId)] /\
  resultRequests taskId (effects r) = 0%nat /\
  final r = h.
Proof.
  intros Hcl Hclock r.
  assert (Hget : getTask (ps_get (answered clock (TopLevel t))) serverName taskId
                   (po_source options) h =
                 mkRun (Returned None) h [SendRequest (client_id cl) (ReqTasksGet taskId)]).
  { unfold getTask, bind, getHub. simpl. rewrite Hcl. simpl.
    destruct (activeTasks h !! taskId); reflexivity. }
  assert (Hrun : r = mkRun (Thrown (McpError InternalError ("Task " +:+ taskId +:+ " not found")))
                       h [SendRequest (client_id cl) (ReqTasksGet taskId)]).
  { subst r. unfold pollTaskUntilComplete. cbn [pollLoop].
    change (ps_clock (answered clock (TopLevel t))) with clock.
    rewrite bool_decide_eq_false_2 by lia.
    unfold bind at 1. rewrite Hget. reflexivity. }
  rewrite Hrun. repeat split; reflexivity.
Qed.


(** ** The stored status of a task *)


Lemma outcome_void {A} (m : Hub A) (h : McpHub) : outcome (void m h) = Returned tt.
Proof. unfold void, tryCatch, bind. destruct (outcome (m h)); reflexivity. Qed.






(** ** Deleting a connection *)

Section Registry.
Context `{Host}.

Lemma closeConnection_run (serverName : string) (c : McpConnection) (h : McpHub) :
  let r := closeConnection serverName c h in
  outcome r = Returned tt /\ final r = h /\
  (forall t, transport c = Some t -> TransportClose t ∈ effects r).
Proof.
  unfold closeConnection, tryCatch, bind, emit, await.
  destruct c as [s cl t|s]; simpl.
  - destruct (transportClose t) as [[]|e]; simpl.
    + destruct (clientClose (client_id cl)) as [[]|e]; simpl;
        (repeat split; try reflexivity); intros t' [= <-]; apply list_elem_of_here.
    + (repeat split; try reflexivity); intros t' [= <-]; apply list_elem_of_here.
  - repeat split; try reflexivity. intros t [=].
Qed.

Lemma forEach_close_run (serverName : string) (cs : list McpConnection) (h : McpHub) :
  let r := forEach cs (closeConnection serverName) h in
  outcome r = Returned tt /\ final r = h /\
  (forall c t, c ∈ cs -> transport c = Some t -> TransportClose t ∈ effects r).
Proof.
  induction cs as [|c cs IH]; cbn [forEach].
  - repeat split; try reflexivity. intros c t Hin. inversion Hin.
  - destruct (closeConnection_run serverName c h) as (Ho & Hf & He).
    destruct IH as (Ho' & Hf' & He').
    rewrite (bind_returned _ _ _ _ Ho), Hf. cbn [prepend outcome final effects].
    split; [exact Ho'|]. split; [exact Hf'|].
    intros c' t Hin Ht. apply elem_of_app.
    apply elem_of_cons in Hin as [->|Hin]; [left; eauto | right; eauto].
Qed.

Lemma removeFileWatchersForServer_run (serverName : string) (h : McpHub) :
  let r := removeFileWatchersForServer serverName h in
  outcome r = Returned tt /\
  final r = set_fileWatchers (delete serverName (fileWatchers h)) h /\
  (forall ev, ev ∈ effects r -> exists w, ev = WatcherClose w).
Proof.
  unfold removeFileWatchersForServer, bind, getHub. simpl.
  destruct (fileWatchers h !! serverName) as [ws|] eqn:Hws; simpl.
  - assert (Hloop : forall ws' : list FSWatcher,
              outcome (forEach ws' (fun w => emit (WatcherClose w)) h) = Returned tt /\
              final (forEach ws' (fun w => emit (WatcherClose w)) h) = h /\
              forall ev, ev ∈ effects (forEach ws' (fun w => emit (WatcherClose w)) h) ->
                         exists w, ev = WatcherClose w).
    { induction ws' as [|w ws' IH]; simpl.
      - repeat split; try reflexivity. intros ev Hin. inversion Hin.
      - destruct IH as (Ho & Hf & He). rewrite Ho, Hf. repeat split; try reflexivity.
        intros ev Hin. apply elem_of_cons in Hin as [->|Hin]; eauto. }
    destruct (Hloop ws) as (Ho & Hf & He). rewrite Ho. simpl. rewrite Hf.
    repeat split; try reflexivity.
    intros ev Hin. rewrite app_nil_r in Hin. eauto.
  - rewrite delete_id by exact Hws. destruct h. repeat split; try reflexivity.
    intros ev Hin. inversion Hin.
Qed.

(** What [deleteConnection] does: it never throws, calls [close()] on the
    transport of every selected connected connection, removes exactly the
    selected connections, and leaves the three tracker maps alone. *)
Lemma deleteConnection_run (serverName : string) (src : option Source) (h : McpHub) :
  let r := deleteConnection serverName src h in
  outcome r = Returned tt /\
  connections (final r) = List.filter (kept serverName src) (connections h) /\
  pendingRequests (final r) = pendingRequests h /\
  activeTasks (final r) = activeTasks h /\
  activeProgressTokens (final r) = activeProgressTokens h /\
  isDisposed (final r) = isDisposed h /\
  (forall c t, c ∈ connections h -> selected serverName src c = true ->
     transport c = Some t -> TransportClose t ∈ effects r) /\
  (forall ctrl reason, ControllerAbort ctrl reason ∉ effects r).
Proof.
  intros r.
  assert (Hrun : exists h3 evs,
            r = mkRun (Returned tt) h3 evs /\
            connections h3 = List.filter (kept serverName src) (connections h) /\
            pendingRequests h3 = pendingRequests h /\
            activeTasks h3 = activeTasks h /\
            activeProgressTokens h3 = activeProgressTokens h /\
            isDisposed h3 = isDisposed h /\
            (forall c t, c ∈ connections h -> selected serverName src c = true ->
               transport c = Some t -> TransportClose t ∈ evs) /\
            (forall ctrl reason, ControllerAbort ctrl reason ∉ evs)).
  { subst r. unfold deleteConnection.
    destruct (removeFileWatchersForServer_run serverName h) as (Ho1 & Hf1 & He1).
    rewrite (bind_returned _ _ _ _ Ho1), Hf1.
    set (h1 := set_fileWatchers (delete serverName (fileWatchers h)) h).
    unfold bind at 1, getHub at 1. cbn [outcome final effects].
    destruct (forEach_close_run serverName
                (List.filter (selected serverName src) (connections h1)) h1)
      as (Ho2 & Hf2 & He2).
    rewrite (bind_returned _ _ _ _ Ho2), Hf2.
    set (closing := effects (forEach (List.filter (selected serverName src) (connections h1))
                               (closeConnection serverName) h1)) in *.
    assert (Hclosing : forall ctrl reason, ControllerAbort ctrl reason ∉ closing).
    { intros ctrl reason. subst closing. clear.
      induction (List.filter (selected serverName src) (connections h1)) as [|c cs IH];
        cbn [forEach].
      - intros Hin. inversion Hin.
      - destruct (closeConnection_run serverName c h1) as (Ho & Hf & _).
        rewrite (bind_returned _ _ _ _ Ho), Hf. cbn [prepend effects].
        intros Hin. apply elem_of_app in Hin as [Hin|Hin]; [|exact (IH Hin)].
        revert Hin. unfold closeConnection, tryCatch, bind, emit, await.
        destruct c as [s cl t|s]; simpl.
        + destruct (transportClose t) as [[]|e]; simpl;
            [destruct (clientClose (client_id cl)) as [[]|e]; simpl|];
            intros Hin; repeat (apply elem_of_cons in Hin as [Hin|Hin]; [discriminate|]);
            inversion Hin.
        + intros Hin. inversion Hin. }
    exists (final
              ((modifyHub (fun h => set_connections
                                      (List.filter (kept serverName src) (connections h)) h) ;;
                h <- getHub ;;
                match List.filter (matchesName serverName) (connections h) with
                | [] => modifyHub (fun h =>
                          set_sanitizedNameRegistry
                            (delete (sanitizeMcpName serverName) (sanitizedNameRegistry h)) h)
                | _ :: _ => ret tt
                end) h1)).
    exists (effects (removeFileWatchersForServer serverName h) ++ closing).
    split.
    { unfold bind, modifyHub, getHub, prepend. cbn [outcome final effects app].
      match goal with
      | |- context [match ?l with [] => _ | _ :: _ => _ end] => destruct l
      end; cbn [outcome final effects ret app]; rewrite !app_nil_r; reflexivity. }
    unfold bind, modifyHub, getHub. cbn [outcome final effects].
    split.
    { match goal with
      | |- context [match ?l with [] => _ | _ :: _ => _ end] => destruct l
      end; reflexivity. }
    split.
    { match goal with
      | |- context [match ?l with [] => _ | _ :: _ => _ end] => destruct l
      end; reflexivity. }
    split.
    { match goal with
      | |- context [match ?l with [] => _ | _ :: _ => _ end] => destruct l
      end; reflexivity. }
    split.
    { match goal with
      | |- context [match ?l with [] => _ | _ :: _ => _ end] => destruct l
      end; reflexivity. }
    split.
    { match goal with
      | |- context [match ?l with [] => _ | _ :: _ => _ end] => destruct l
      end; reflexivity. }
    split.
    - intros c t Hin Hsel Ht. apply elem_of_app. right. apply (He2 c t); [|exact Ht].
      apply list_elem_of_In, filter_In. split; [apply list_elem_of_In; exact Hin | exact Hsel].
    - intros ctrl reason Hin. apply elem_of_app in Hin as [Hin|Hin].
      + destruct (He1 _ Hin) as [w Hw]. discriminate.
      + exact (Hclosing _ _ Hin). }
  destruct Hrun as (h3 & evs & -> & Hrest). cbn [outcome final effects].
  split; [reflexivity | exact Hrest].
Qed.

Lemma kept_selected (serverName : string) (src : option Source) (c : McpConnection) :
  kept serverName src c = negb (selected serverName src c).
Proof.
  unfold kept, selected, matches, matchesName.
  destruct src as [s|]; destruct (bool_decide (name (server c) = serverName)); simpl;
    try reflexivity.
  destruct (bool_decide (source (server c) = Some s)); reflexivity.
Qed.

(** C1 (amended). [deleteConnection] never throws; it calls [close()] on
    the transport of every connected connection it selects (all with the
    name, or those with the name and the given source) and removes exactly
    the selected connections from the list.  It does not touch the
    per-connection trackers: the pending-request, active-task and
    progress-token maps are the same before and after, and no pending
    request is aborted. *)
Theorem delete_closes_transport_and_keeps_trackers
    (serverName : string) (src : option Source) (h : McpHub) :
  let r := deleteConnection serverName src h in
  outcome r = Returned tt /\
  (forall c t, c ∈ connections h -> selected serverName src c = true ->
     transport c = Some t -> TransportClose t ∈ effects r) /\
  connections (final r) = List.filter (kept serverName src) (connections h) /\
  (forall c, c ∈ connections (final r) -> selected serverName src c = false) /\
  pendingRequests (final r) = pendingRequests h /\
  activeTasks (final r) = activeTasks h /\
  activeProgressTokens (final r) = activeProgressTokens h /\
  (forall ctrl reason, ControllerAbort ctrl reason ∉ effects r).
Proof.
  intros r.
  destruct (deleteConnection_run serverName src h)
    as (Hout & Hconn & Hpend & Htasks & Htoks & _ & Hclose & Habort).
  fold r in Hout, Hconn, Hpend, Htasks, Htoks, Hclose, Habort.
  repeat split; try assumption.
  intros c Hin. rewrite Hconn in Hin.
  apply list_elem_of_In, filter_In in Hin as [_ Hkept].
  rewrite kept_selected in Hkept. destruct (selected serverName src c); [discriminate|reflexivity].
Qed.
End Registry.
(** ** Connecting *)

Lemma find_app_none {A} (p : A -> bool) (l l' : list A) :
  find p l = None -> find p (l ++ l') = find p l'.
Proof.
  induction l as [|x l IH]; simpl; [reflexivity|].
  destruct (p x); [discriminate | exact IH].
Qed.

Lemma updateFirst_app_none (p : McpConnection -> bool) (f : McpConnection -> McpConnection)
    (l l' : list McpConnection) :
  find p l = None -> updateFirst p f (l ++ l') = l ++ updateFirst p f l'.
Proof.
  induction l as [|x l IH]; simpl; [reflexivity|].
  destruct (p x); [discriminate|]. intros Hnone. rewrite (IH Hnone). reflexivity.
Qed.

Lemma updateFirst_none (p : McpConnection -> bool) (f : McpConnection -> McpConnection)
    (l : list McpConnection) :
  find p l = None -> updateFirst p f l = l.
Proof.
  induction l as [|c l IH]; simpl; [reflexivity|].
  destruct (p c); [discriminate|]. intros Hn. rewrite (IH Hn). reflexivity.
Qed.

Lemma updateLast_snoc (f : McpConnection -> McpConnection) (l : list McpConnection)
    (c : McpConnection) :
  updateLast f (l ++ [c]) = l ++ [f c].
Proof.
  unfold updateLast. rewrite reverse_app. simpl. rewrite reverse_involutive. reflexivity.
Qed.

Lemma find_kept_none (serverName : string) (s : Source) (l : list McpConnection) :
  find (matches serverName s) (List.filter (kept serverName (Some s)) l) = None.
Proof.
  induction l as [|c l IH]; simpl; [reflexivity|].
  destruct (kept serverName (Some s) c) eqn:Hkept; [|exact IH].
  simpl. rewrite kept_selected in Hkept. simpl in Hkept.
  destruct (matches serverName s c); [discriminate | exact IH].
Qed.

Lemma matches_true (serverName : string) (s : Source) (c : McpConnection) :
  name (server c) = serverName -> source (server c) = Some s ->
  matches serverName s c = true.
Proof. intros Hn Hs. unfold matches. rewrite !bool_decide_eq_true_2 by assumption. reflexivity. Qed.

Lemma fetchList_run (method : string) (answer : Outcome (list string))
    (serverName : string) (src : option Source) (h : McpHub) :
  exists l evs, fetchList method answer serverName src h = mkRun (Returned l) h evs.
Proof.
  unfold fetchList, tryCatch. rewrite bind_getHub.
  destruct (findConnection serverName src (connections h)) as [[s cl t|s]|];
    [destruct answer as [l|e]|..]; cbn; eauto.
Qed.

Lemma bind_fetchList {B} (method : string) (answer : Outcome (list string))
    (serverName : string) (src : option Source) (k : list string -> Hub B) (h : McpHub) :
  exists l evs, bind (fetchList method answer serverName src) k h = prepend evs (k l h).
Proof.
  destruct (fetchList_run method answer serverName src h) as (l & evs & Hrun).
  exists l, evs. unfold bind. rewrite Hrun. reflexivity.
Qed.

Section Connecting.
Context `{Host}.

(** C3 (amended). With MCP enabled and the server not disabled: when
    [client.connect] fails after the transport was acquired, the error is
    rethrown and the connection stays listed under its key with status
    disconnected and the (truncated) error message as the entry of its error
    history; the only outside call after the initial [deleteConnection] is
    [client.connect] itself, so the catch block makes no [close()] call and
    the entry keeps its transport handle.  When the failure comes earlier
    (variable injection or construction/start of the transport) the error is
    rethrown and no entry is recorded for the key.  When the handshake
    succeeds, failing list fetches do not fail the connect: it returns and
    the connection is listed as connected. *)
Theorem connect_failure_recorded_once_listed
    (env : ConnectEnv) (serverName : string) (cfg : ServerConfig) (src : Source)
    (h : McpHub) :
  ce_mcpEnabled env = true ->
  cfg_disabled cfg = false ->
  let deleted := deleteConnection serverName (Some src) h in
  let r := connectToServer env serverName cfg src h in
  (forall ci t e,
     ce_injected env = Returned ci -> ce_transport env = Returned t ->
     ce_handshake env = Thrown e ->
     outcome r = Thrown e /\
     effects r = effects deleted ++ [ClientConnect (ce_client env) t] /\
     exists s,
       findConnection serverName (Some src) (connections (final r)) =
         Some (Connected s {| client_id := ce_client env; serverCapabilities := None |} t) /\
       status s = StDisconnected /\
       errorHistory s = [{| err_message := truncateError (exn_message e);
                            err_timestamp := ce_now env; err_level := LvlError |}] /\
       error s = Some (truncateError (exn_message e))) /\
  (forall e,
     ce_injected env = Thrown e \/
     (exists ci, ce_injected env = Returned ci /\ ce_transport env = Thrown e) ->
     outcome r = Thrown e /\
     effects r = effects deleted /\
     connections (final r) = connections (final deleted) /\
     findConnection serverName (Some src) (connections (final r)) = None) /\
  (forall ci t hs,
     ce_injected env = Returned ci -> ce_transport env = Returned t ->
     ce_handshake env = Returned hs ->
     outcome r = Returned tt /\
     exists s cl,
       findConnection serverName (Some src) (connections (final r)) =
         Some (Connected s cl t) /\
       status s = StConnected /\ errorHistory s = []).
Proof.
  intros Henabled Hdisabled deleted r.
  destruct (deleteConnection_run serverName (Some src) h) as (Hout & Hconn & _).
  assert (Hnone : find (matches serverName src)
                    (connections (final (deleteConnection serverName (Some src) h))) = None).
  { rewrite Hconn. apply find_kept_none. }
  subst r deleted. unfold connectToServer.
  rewrite (bind_returned _ _ _ _ Hout), bind_modifyHub, Henabled, Hdisabled. cbn [negb].
  unfold setupFileWatcher. rewrite bind_modifyHub.
  match goal with
  | |- context [tryCatch _ _ ?hh] =>
      assert (Hconn2 : connections hh =
                         connections (final (deleteConnection serverName (Some src) h)))
        by reflexivity;
      generalize dependent hh
  end.
  intros h2 Hconn2.
  split; [|split].
  - intros ci t e Hinj Htr Hhs.
    rewrite (tryCatch_thrown _ _ _ e);
      rewrite Hinj, bind_await_returned, Htr, bind_await_returned;
      unfold pushConnection; rewrite bind_modifyHub, bind_emit, Hhs, bind_await_thrown;
      [|reflexivity].
    cbn [prepend outcome final effects app].
    unfold mutateFound. rewrite bind_modifyHub. cbn [throw outcome final effects].
    split; [reflexivity|]. split; [rewrite ?app_nil_r; reflexivity|].
    cbn [connections set_connections]. rewrite Hconn2.
    rewrite (updateFirst_app_none _ _ _ _ Hnone).
    cbn [updateFirst]. rewrite matches_true by reflexivity.
    unfold findConnection. rewrite (find_app_none _ _ _ Hnone).
    cbn [find]. rewrite matches_true by reflexivity.
    eexists. split; [reflexivity|]. cbn. repeat split; reflexivity.
  - intros e Hfail.
    assert (Hbody : forall A (k' : nat -> ServerConfig -> Hub A),
              (configInjected <- await (ce_injected env) ;;
               t <- await (ce_transport env) ;; k' t configInjected) h2 =
              mkRun (Thrown e) h2 []).
    { intros A k'. destruct Hfail as [Hinj | (ci & Hinj & Htr)].
      - rewrite Hinj. apply bind_await_thrown.
      - rewrite Hinj, bind_await_returned, Htr. apply bind_await_thrown. }
    rewrite (tryCatch_thrown _ _ _ e); rewrite Hbody; [|reflexivity].
    cbn [prepend outcome final effects app].
    unfold mutateFound. rewrite bind_modifyHub. cbn [throw outcome final effects].
    split; [reflexivity|]. split; [rewrite ?app_nil_r; reflexivity|].
    cbn [connections set_connections]. rewrite Hconn2.
    rewrite (updateFirst_none _ _ _ Hnone). split; [reflexivity | exact Hnone].
  - intros ci t hs Hinj Htr Hhs.
    assert (Hbody : exists l1 l2 l3 l4 evs,
              (configInjected <- await (ce_injected env) ;;
               t <- await (ce_transport env) ;;
               pushConnection
                 (Connected
                    {| name := serverName; config := cfg_json configInjected;
                       status := StConnecting; error := None; errorHistory := [];
                       tools := []; resources := []; resourceTemplates := []; prompts := [];
                       disabled := cfg_disabled configInjected; source := Some src;
                       instructions := None |}
                    {| client_id := ce_client env; serverCapabilities := None |} t) ;;
               emit (ClientConnect (ce_client env) t) ;;
               hs <- await (ce_handshake env) ;;
               mutateLast (handshaken hs) ;;
               fetchedTools <- fetchToolsList (ce_tools env) serverName (Some src) ;;
               mutateLast (with_server (set_tools fetchedTools)) ;;
               fetchedResources <- fetchResourcesList (ce_resources env) serverName (Some src) ;;
               mutateLast (with_server (set_resources fetchedResources)) ;;
               fetchedTemplates <-
                 fetchResourceTemplatesList (ce_resourceTemplates env) serverName (Some src) ;;
               mutateLast (with_server (set_resourceTemplates fetchedTemplates)) ;;
               fetchedPrompts <- fetchPromptsList (ce_prompts env) serverName (Some src) ;;
               mutateLast (with_server (set_prompts fetchedPrompts))) h2 =
              mkRun (Returned tt)
                (set_connections
                   (connections h2 ++
                    [Connected
                       {| name := serverName; config := cfg_json ci;
                          status := StConnected; error := Some ""%string; errorHistory := [];
                          tools := l1; resources := l2; resourceTemplates := l3;
                          prompts := l4;
                          disabled := cfg_disabled ci; source := Some src;
                          instructions := hs_instructions hs |}
                       {| client_id := ce_client env;
                          serverCapabilities := hs_capabilities hs |} t]) h2)
                evs).
    { rewrite Hinj, bind_await_returned, Htr, bind_await_returned.
      unfold pushConnection, mutateLast, fetchToolsList, fetchResourcesList,
        fetchResourceTemplatesList, fetchPromptsList.
      rewrite bind_modifyHub, bind_emit, Hhs, bind_await_returned, bind_modifyHub.
      cbn [connections set_connections]. rewrite updateLast_snoc.
      repeat match goal with
      | |- context [bind (fetchList ?m ?a ?n ?s) ?k ?hh] =>
          let l := fresh "l" in
          let evs := fresh "evs" in
          let Heq := fresh "Heq" in
          destruct (bind_fetchList m a n s k hh) as (l & evs & Heq);
          rewrite Heq; clear Heq; rewrite ?bind_modifyHub;
          cbn [connections set_connections]; rewrite ?updateLast_snoc
      end.
      do 5 eexists. unfold modifyHub, prepend.
      cbn [outcome final effects connections set_connections handshaken with_server
           set_tools set_resources set_resourceTemplates set_prompts
           name config status error errorHistory tools resources resourceTemplates
           prompts disabled source instructions client_id].
      rewrite updateLast_snoc. cbn [with_server set_prompts name config status error
           errorHistory tools resources resourceTemplates prompts disabled source
           instructions].
      reflexivity. }
    destruct Hbody as (l1 & l2 & l3 & l4 & evs & Hbody).
    rewrite (tryCatch_returned _ _ _ tt); rewrite Hbody; [|reflexivity].
    cbn [prepend outcome final effects connections set_connections].
    split; [reflexivity|].
    rewrite Hconn2. unfold findConnection. rewrite (find_app_none _ _ _ Hnone).
    cbn [find]. rewrite matches_true by reflexivity.
    do 2 eexists. split; [reflexivity|]. split; reflexivity.
Qed.
End Connecting.
(** ** At most one connection per key *)

Lemma hoare_getHub (I : McpHub -> Prop) : hoare I getHub I.
Proof. intros h Hh. exact Hh. Qed.

(** One step of a proof that a hub computation keeps an invariant which the
    computation only meets through [modifyHub]. *)
Ltac inv_step :=
  match goal with
  | |- hoare _ (bind _ _) _ => apply inv_bind; [|intros ?]
  | |- hoare _ (tryCatch _ _) _ => apply inv_tryCatch; [|intros ?]
  | |- hoare _ (void _) _ => apply inv_void
  | |- hoare _ (forEach _ _) _ => apply hoare_forEach; intros ?
  | |- hoare _ (when _ _) _ => apply hoare_when
  | |- hoare _ getHub _ => apply hoare_getHub
  | |- hoare _ (emit _) _ => apply hoare_emit
  | |- hoare _ (ret _) _ => apply hoare_ret
  | |- hoare _ (throw _) _ => apply hoare_throw
  | |- hoare _ (await _) _ => apply hoare_await
  | |- hoare _ (notifyWebviewOfServerChanges _) _ => unfold notifyWebviewOfServerChanges
  | |- hoare _ (match ?x with _ => _ end) _ => destruct x
  end.



Lemma keys_updateFirst (p : McpConnection -> bool) (g : McpConnection -> McpConnection)
    (l : list McpConnection) :
  (forall c, key (g c) = key c) -> map key (updateFirst p g l) = map key l.
Proof.
  intros Hg. induction l as [|c l IH]; simpl; [reflexivity|].
  destruct (p c); simpl; [rewrite Hg | rewrite IH]; reflexivity.
Qed.

Lemma keys_updateLast (g : McpConnection -> McpConnection) (l : list McpConnection) :
  (forall c, key (g c) = key c) -> map key (updateLast g l) = map key l.
Proof.
  intros Hg. destruct l as [|c l] using rev_ind; [reflexivity|].
  rewrite updateLast_snoc, !map_app. simpl. rewrite Hg. reflexivity.
Qed.

Lemma key_with_server (f : McpServer -> McpServer) (c : McpConnection) :
  (forall s, name (f s) = name s /\ source (f s) = source s) ->
  key (with_server f c) = key c.
Proof.
  intros Hf. unfold key. destruct c as [s cl t|s]; simpl; destruct (Hf s) as [-> ->]; reflexivity.
Qed.

Lemma key_handshaken (hs : HandshakeResult) (c : McpConnection) : key (handshaken hs c) = key c.
Proof. destruct c; reflexivity. Qed.



Lemma inv_fetchList (I : McpHub -> Prop) (method : string) (answer : Outcome (list string))
    (serverName : string) (src : option Source) :
  hoare I (fetchList method answer serverName src) I.
Proof.
  intros h Hh. destruct (fetchList_run method answer serverName src h) as (l & evs & ->).
  exact Hh.
Qed.

Section UniqueKeys.
Context `{Host}.

Lemma inv_removeFileWatchersForServer (I : McpHub -> Prop) (serverName : string) :
  (forall v h, I h -> I (set_fileWatchers v h)) ->
  hoare I (removeFileWatchersForServer serverName) I.
Proof.
  intros HI. unfold removeFileWatchersForServer.
  repeat inv_step. apply hoare_modifyHub. intros h Hh. apply HI, Hh.
Qed.

Lemma inv_removeAllFileWatchers (I : McpHub -> Prop) :
  (forall v h, I h -> I (set_fileWatchers v h)) ->
  hoare I removeAllFileWatchers I.
Proof.
  intros HI. unfold removeAllFileWatchers.
  repeat inv_step. apply hoare_modifyHub. intros h Hh. apply HI, Hh.
Qed.

Lemma inv_setupFileWatcher (I : McpHub -> Prop) (serverName : string) (cfg : ServerConfig) :
  (forall v h, I h -> I (set_fileWatchers v h)) ->
  hoare I (setupFileWatcher serverName cfg) I.
Proof. intros HI. apply hoare_modifyHub. intros h Hh. apply HI, Hh. Qed.











End UniqueKeys.

(** ** Calls that overlap *)

Section Overlap.
Context `{Host}.

Lemma bind_ret_tt (m : Hub unit) (h : McpHub) : (m ;; ret tt) h = m h.
Proof.
  unfold bind, ret. destruct (m h) as [[[]|e] h' evs]; simpl; [rewrite app_nil_r|]; reflexivity.
Qed.

Lemma bind_ext {A B} (m : Hub A) (k k' : A -> Hub B) (h : McpHub) :
  (forall a h', k a h' = k' a h') -> bind m k h = bind m k' h.
Proof. intros Hk. unfold bind. destruct (outcome (m h)); [rewrite Hk|]; reflexivity. Qed.

(** The stretches of [connectToServer], run with nothing in between, are
    [connectToServer]. *)
Lemma connectToServer_stretches_run (env : ConnectEnv) (serverName : string)
    (cfg : ServerConfig) (src : Source) (h : McpHub) :
  uninterrupted (connectToServer_stretches env serverName cfg src) h =
  connectToServer env serverName cfg src h.
Proof.
  unfold uninterrupted, connectToServer_stretches, connectToServer. cbn [forEach].
  apply bind_ext. intros _ h1. apply bind_ext. intros _ h2.
  apply bind_ret_tt.
Qed.

Lemma stretch_returned {B} (stretch : Hub unit) (k : bool -> Hub B) (h : McpHub) :
  outcome (stretch h) = Returned tt ->
  (went <- tryCatch (stretch ;; ret true) (fun _ => ret false) ;; k went) h =
  prepend (effects (stretch h)) (k true (final (stretch h))).
Proof.
  intros Hout. unfold bind, tryCatch, ret, prepend. simpl. rewrite Hout. simpl.
  rewrite app_nil_r. reflexivity.
Qed.

Lemma stretch_thrown {B} (stretch : Hub unit) (k : bool -> Hub B) (h : McpHub) (e : Exn) :
  outcome (stretch h) = Thrown e ->
  (went <- tryCatch (stretch ;; ret true) (fun _ => ret false) ;; k went) h =
  prepend (effects (stretch h)) (k false (final (stretch h))).
Proof.
  intros Hout. unfold bind, tryCatch, ret, prepend. simpl. rewrite Hout. simpl.
  rewrite app_nil_r. reflexivity.
Qed.

Lemma void_cons_returned (stretch m : Hub unit) (h : McpHub) :
  outcome (stretch h) = Returned tt ->
  void (stretch ;; m) h = prepend (effects (stretch h)) (void m (final (stretch h))).
Proof.
  intros Hout. unfold void, bind, tryCatch, ret, prepend. simpl. rewrite Hout. simpl.
  destruct (outcome (m (final (stretch h)))) as [[]|e]; simpl;
    rewrite ?app_nil_r, ?app_assoc; reflexivity.
Qed.

Lemma void_cons_thrown (stretch m : Hub unit) (h : McpHub) (e : Exn) :
  outcome (stretch h) = Thrown e ->
  void (stretch ;; m) h = mkRun (Returned tt) (final (stretch h)) (effects (stretch h)).
Proof.
  intros Hout. unfold void, bind, tryCatch, ret. simpl. rewrite Hout. simpl.
  rewrite app_nil_r. reflexivity.
Qed.

Lemma bind_prepend {A B} (evs : list Event) (r : Run A) (m : Hub A) (k : A -> Hub B)
    (h : McpHub) :
  m h = prepend evs r ->
  bind m k h = prepend evs (bind (fun _ => r) k h).
Proof.
  intros Hm. unfold bind, prepend. rewrite Hm. simpl.
  destruct (outcome r); simpl; rewrite ?app_assoc; reflexivity.
Qed.

Lemma interleave_both_over (schedule : list bool) (h : McpHub) :
  interleave schedule [] [] h = ret tt h.
Proof.
  induction schedule as [|turn later IH]; [reflexivity|].
  cbn [interleave]. destruct turn; exact IH.
Qed.

Lemma interleave_first_over (n : nat) (schedule : list bool) (second : list (Hub unit))
    (h : McpHub) :
  interleave (replicate n true ++ schedule) [] second h = interleave schedule [] second h.
Proof. induction n as [|n IH]; [reflexivity|]. exact IH. Qed.

Lemma interleave_second_alone (second : list (Hub unit)) (h : McpHub) :
  interleave (replicate (length second) false) [] second h = void (uninterrupted second) h.
Proof.
  revert h. induction second as [|stretch more IH]; intros h; [reflexivity|].
  cbn [length replicate interleave]. unfold uninterrupted. cbn [forEach].
  destruct (outcome (stretch h)) as [[]|e] eqn:Hout.
  - rewrite (stretch_returned _ _ _ Hout), (void_cons_returned _ _ _ Hout).
    f_equal. apply IH.
  - rewrite (stretch_thrown _ _ _ _ Hout), (void_cons_thrown _ _ _ _ Hout).
    rewrite interleave_both_over. unfold prepend, ret. simpl.
    rewrite app_nil_r. reflexivity.
Qed.

(** Two calls taken in turn are the first run to its end, then the
    second. *)
Lemma interleave_inTurn (first second : list (Hub unit)) (h : McpHub) :
  interleave (inTurn first second) first second h =
  (void (uninterrupted first) ;; void (uninterrupted second)) h.
Proof.
  unfold inTurn. revert h. induction first as [|stretch more IH]; intros h.
  - cbn [length replicate app]. rewrite interleave_second_alone.
    unfold uninterrupted at 2. cbn [forEach].
    assert (Hv : void (ret tt) h = ret tt h) by reflexivity.
    unfold bind. rewrite Hv. cbn [ret outcome final effects app].
    symmetry. apply run_eta.
  - cbn [length replicate app interleave]. unfold uninterrupted at 1. cbn [forEach].
    destruct (outcome (stretch h)) as [[]|e] eqn:Hout.
    + rewrite (stretch_returned _ _ _ Hout), IH.
      rewrite (bind_prepend _ _ _ _ _ (void_cons_returned _ _ _ Hout)).
      reflexivity.
    + rewrite (stretch_thrown _ _ _ _ Hout), interleave_first_over,
        interleave_second_alone.
      unfold bind at 1. rewrite (void_cons_thrown _ _ _ _ Hout). reflexivity.
Qed.

Lemma void_ext {A} (m m' : Hub A) (h : McpHub) :
  (forall h', m h' = m' h') -> void m h = void m' h.
Proof. intros Hm. unfold void, tryCatch, bind. rewrite Hm. reflexivity. Qed.

(** Two connects taken in turn are the two registry operations run one
    after the other. *)
Lemma connects_in_turn (env env' : ConnectEnv) (serverName serverName' : string)
    (cfg cfg' : ServerConfig) (src src' : Source) (h : McpHub) :
  let first := connectToServer_stretches env serverName cfg src in
  let second := connectToServer_stretches env' serverName' cfg' src' in
  interleave (inTurn first second) first second h =
  forEach [OpConnect env serverName cfg src; OpConnect env' serverName' cfg' src']
    runRegistryOp h.
Proof.
  intros first second. subst first second.
  rewrite interleave_inTurn. cbn [forEach runRegistryOp].
  transitivity
    ((void (connectToServer env serverName cfg src) ;;
      void (uninterrupted (connectToServer_stretches env' serverName' cfg' src'))) h).
  - unfold bind.
    rewrite (void_ext _ _ h (connectToServer_stretches_run env serverName cfg src)).
    reflexivity.
  - apply bind_ext. intros _ h'. rewrite bind_ret_tt.
    apply void_ext, connectToServer_stretches_run.
Qed.
End Overlap.
(** ** Disposal *)

Section Disposal.
Context `{Host}.

Lemma dispose_sets_flag (h : McpHub) : isDisposed (final (dispose h)) = true.
Proof.
  unfold dispose. rewrite bind_getHub.
  destruct (isDisposed h) eqn:Hflag; [exact Hflag|].
  revert h Hflag.
  assert (Hinv : forall h0 : McpHub,
            hoare (fun _ => True)
              (modifyHub (set_isDisposed true) ;;
               modifyHub clearTrackers ;;
               forEach (map_to_list (configChangeDebounceTimers h0))
                 (fun kv => emit (ClearTimeout kv.2)) ;;
               match flagResetTimer h0 with
               | Some t => emit (ClearTimeout t)
               | None => ret tt
               end ;;
               modifyHub clearTimers ;;
               removeAllFileWatchers ;;
               forEach (connections h0) (fun connection =>
                 tryCatch
                   (deleteConnection (name (server connection)) (source (server connection)))
                   (fun e =>
                      emit (ErrorFailedToCloseConnection (name (server connection))
                              (exn_message e)))) ;;
               modifyHub (set_connections []) ;;
               disposeOption (settingsWatcher h0) ;;
               disposeOption (projectMcpWatcher h0) ;;
               modifyHub clearWatchers ;;
               forEach (disposables h0) (fun d => emit (DisposableDispose d)))
              (fun h => isDisposed h = true)).
  { intros h0.
    eapply hoare_bind with (R := fun h => isDisposed h = true).
    - apply hoare_modifyHub. intros h _. reflexivity.
    - auto.
    - intros _. unfold disposeOption.
      repeat first
        [ apply inv_removeAllFileWatchers; intros v h Hh; exact Hh
        | apply hoare_modifyHub; intros h Hh; exact Hh
        | match goal with
          | |- hoare _ (deleteConnection ?n ?s) _ =>
              intros h Hh;
              destruct (deleteConnection_run n s h) as (_ & _ & _ & _ & _ & Hd & _);
              rewrite Hd; exact Hh
          end
        | inv_step ]. }
  intros h _. apply (Hinv h h I).
Qed.

(** C10. [dispose()] is idempotent: a call on a hub that has already been
    disposed returns at once, changes nothing in the hub and makes no call
    to the outside world, so disposing twice leaves the hub exactly as
    disposing once. *)
Theorem dispose_twice_is_dispose_once (h : McpHub) :
  let once := dispose h in
  let twice := dispose (final once) in
  outcome twice = Returned tt /\
  final twice = final once /\
  effects twice = [].
Proof.
  intros once twice.
  assert (Hflag : isDisposed (final once) = true) by apply dispose_sets_flag.
  subst twice. revert Hflag. generalize (final once). intros h' Hflag.
  unfold dispose. rewrite bind_getHub, Hflag.
  repeat split; reflexivity.
Qed.
End Disposal.
(** * The claims at concrete inputs *)

(** C1, as stated, fails: after deleting the only connection of server
    [srv], the pending request, the task and the progress token it owns are
    all still in their maps, the request was not aborted and the task is
    still working. *)
Lemma delete_leaves_trackers_behind :
  let r := deleteConnection (H := sampleHost) "srv" (Some Global) (busyHub true Working) in
  connections (final r) = [] /\
  ~ noTrackerOwnedBy "srv" (final r) /\
  req_serverName <$> pendingRequests (final r) !! KNum 1 = Some "srv"%string /\
  storedStatus "t1" (final r) = Some Working /\
  tok_serverName <$> activeProgressTokens (final r) !! KStr "tok" = Some "srv"%string /\
  effects r = [TransportClose 7; ClientClose 1].
Proof.
  vm_compute. repeat split; try reflexivity.
  intros (Hpending & _).
  apply (Hpending (KNum 1) {| req_serverName := "srv"; controller := 3 |}); reflexivity.
Qed.


(** C3, as stated, fails: when the transport cannot be acquired the error
    is rethrown but no connection is recorded for the key; and when the
    handshake fails the hub closes nothing. *)
Lemma connect_failure_leaves_no_entry_and_closes_nothing :
  let early := connectToServer (H := sampleHost)
                 (connectAttempt (Thrown (OtherError "spawn ENOENT"))
                    (Returned {| hs_capabilities := None; hs_instructions := None |}))
                 "srv" sampleConfig Global newHub in
  let late := connectToServer (H := sampleHost)
                (connectAttempt (Returned 7%nat) (Thrown (OtherError "Connection closed")))
                "srv" sampleConfig Global newHub in
  outcome early = Thrown (OtherError "spawn ENOENT") /\
  findConnection "srv" (Some Global) (connections (final early)) = None /\
  connections (final early) = [] /\
  outcome late = Thrown (OtherError "Connection closed") /\
  (transport <$> findConnection "srv" (Some Global) (connections (final late))) =
    Some (Some 7%nat) /\
  List.filter isTransportClose (effects late) = [].
Proof. vm_compute. repeat split; reflexivity. Qed.


(** The amended C1 at the sample hub: deleting by name alone closes the
    transport, then the client. *)
Example delete_sample_connection :
  effects (deleteConnection (H := sampleHost) "srv" None (busyHub false Working)) =
    [TransportClose 7; ClientClose 1].
Proof. vm_compute. reflexivity. Qed.



(** Witness of C3 (amended): the handshake with the sample server fails. *)
Lemma connect_failure_witness :
  let r := connectToServer (H := sampleHost)
             (connectAttempt (Returned 7%nat) (Thrown (OtherError "Connection closed")))
             "srv" sampleConfig Global newHub in
  outcome r = Thrown (OtherError "Connection closed") /\
  exists s,
    findConnection "srv" (Some Global) (connections (final r)) =
      Some (Connected s {| client_id := 1; serverCapabilities := None |} 7%nat) /\
    status s = StDisconnected /\
    errorHistory s = [{| err_message := "Connection closed"; err_timestamp := 100;
                         err_level := LvlError |}].
Proof.
  intros r.
  destruct (connect_failure_recorded_once_listed (H := sampleHost)
              (connectAttempt (Returned 7%nat) (Thrown (OtherError "Connection closed")))
              "srv" sampleConfig Global newHub eq_refl eq_refl) as [Hlate _].
  destruct (Hlate sampleConfig 7%nat (OtherError "Connection closed") eq_refl eq_refl eq_refl)
    as (Hout & _ & s & Hfind & Hstatus & Hhistory & _).
  split; [exact Hout|]. exists s. repeat split; assumption.
Defined.


(** Witness of C5, the scenario of the claim: a token is registered, then
    progress 5 and progress 3 are delivered.  The observer sees both raw
    values in order, one warning is logged, and the stored value ends at 3.
    A token registered without an observer gets the same warning and the
    same stored value. *)
Lemma progress_regression_witness :
  let deliver tok p :=
    onProgressNotification None
      {| p_progressToken := KStr tok; p_progress := p;
         p_total := None; p_message := None |} in
  let scenario :=
    (generateProgressToken "tok-1" "srv" (Some 9%nat) ;;
     deliver "tok-1" 5 ;; deliver "tok-1" 3) newHub in
  observed 9 (effects scenario) = [(5, None, None); (3, None, None)] /\
  List.filter isWarning (effects scenario) = [WarnNonMonotonicProgress (KStr "tok-1") 3 5] /\
  lastProgress <$> activeProgressTokens (final scenario) !! KStr "tok-1" = Some 3 /\
  let after5 :=
    final ((generateProgressToken "tok-1" "srv" (Some 9%nat) ;; deliver "tok-1" 5) newHub) in
  let unobserved5 :=
    final ((generateProgressToken "tok-2" "srv" None ;; deliver "tok-2" 5) newHub) in
  List.filter isWarning (effects (deliver "tok-1" 3 after5)) =
    [WarnNonMonotonicProgress (KStr "tok-1") 3 5] /\
  observed 9 (effects (deliver "tok-1" 3 after5)) = [(3, None, None)] /\
  List.filter isWarning (effects (deliver "tok-2" 3 unobserved5)) =
    [WarnNonMonotonicProgress (KStr "tok-2") 3 5] /\
  lastProgress <$>
    activeProgressTokens (final (deliver "tok-2" 3 unobserved5)) !! KStr "tok-2" = Some 3.
Proof.
  intros deliver scenario.
  split; [vm_compute; reflexivity|]. split; [vm_compute; reflexivity|].
  split; [vm_compute; reflexivity|].
  intros after5 unobserved5.
  destruct (progress_regression_still_recorded None
              {| p_progressToken := KStr "tok-1"; p_progress := 3;
                 p_total := None; p_message := None |}
              after5
              {| tok_serverName := "srv"; tok_callback := Some 9%nat; lastProgress := 5 |})
    as (_ & Hwarn & _ & Hobs & _).
  - vm_compute. reflexivity.
  - simpl. lia.
  - destruct (progress_regression_still_recorded None
                {| p_progressToken := KStr "tok-2"; p_progress := 3;
                   p_total := None; p_message := None |}
                unobserved5
                {| tok_serverName := "srv"; tok_callback := None; lastProgress := 5 |})
      as (_ & Hwarn2 & Hstored2 & _).
    + vm_compute. reflexivity.
    + simpl. lia.
    + split; [exact Hwarn|]. split; [exact (Hobs 9%nat)|].
      split; [exact Hwarn2|].
      cbn [p_progressToken p_progress] in Hstored2.
      unfold deliver. rewrite Hstored2. reflexivity.
Defined.

(** Witness of C6: request 42 is not pending at the sample hub. *)
Lemma cancellation_of_unknown_request_witness :
  final (onCancelledNotification
           {| c_requestId := Some (KNum 42); c_reason := Some "late"%string |}
           (busyHub true Working)) = busyHub true Working.
Proof.
  apply cancellation_of_unknown_request_is_noop.
  intros requestId [= <-]. vm_compute. reflexivity.
Defined.

(** Witness of C7: the sample peer declared no task support. *)
Lemma call_without_task_support_witness :
  let r := callToolAsTask
             {| call_token := "tok-9"; call_plain := Returned "plain"%string;
                call_augmented := Returned (ReplyTask (reportedTask Working));
                call_createdAt := 0; call_updatedAt := 0 |}
             "srv" "slow_tool" "{}"
             {| opt_source := Some Global; opt_ttl := Some 50;
                opt_progressCallback := Some 9%nat |}
             (busyHub false Working) in
  outcome r = Returned (ResResult "plain") /\
  effects r = [SendRequest 1 (ReqToolsCall "slow_tool" "{}")] /\
  final r = busyHub false Working.
Proof.
  intros r.
  destruct (call_without_task_support_is_plain
              {| call_token := "tok-9"; call_plain := Returned "plain"%string;
                 call_augmented := Returned (ReplyTask (reportedTask Working));
                 call_createdAt := 0; call_updatedAt := 0 |}
              "srv" "slow_tool" "{}"
              {| opt_source := Some Global; opt_ttl := Some 50;
                 opt_progressCallback := Some 9%nat |}
              (busyHub false Working)
              {| client_id := 1;
                 serverCapabilities :=
                   Some {| cap_tasks := false; cap_resources_subscribe := false |} |}
              eq_refl eq_refl) as (Hout & Heff & Hfinal & _).
  repeat split; assumption.
Defined.

(** The scenario of the specification against a peer that wraps the task
    in a member [task]: two polls see [working], the third sees
    [completed]; the payload is fetched once and the task record and its
    progress token are gone afterwards. *)
Lemma completed_payload_fetched_once_witness :
  let poll (clock : Z) (st : TaskStatus) :=
    {| ps_clock := clock;
       ps_get := {| te_reply := Returned (Some (reportedTask st)); te_now := clock |} |} in
  let r := pollTaskUntilComplete 0 (Returned "payload"%string)
             ([poll 10 Working; poll 20 Working] ++ poll 30 Completed :: [])
             "srv" "t1"
             {| po_source := Some Global; po_timeoutMs := None; po_onStatusChange := true |}
             (busyHub true Working) in
  resultRequests "t1" (effects r) = 1%nat /\
  outcome r = Returned (Some "payload"%string) /\
  activeTasks (final r) !! "t1" = None /\
  activeProgressTokens (final r) !! KStr "tok" = None.
Proof.
  intros poll r.
  destruct (completed_payload_fetched_once_failure_surfaced
              "srv" "t1"
              {| po_source := Some Global; po_timeoutMs := None; po_onStatusChange := true |}
              0 (Returned "payload"%string)
              [poll 10 Working; poll 20 Working] [] (poll 30 Completed)
              (reportedTask Completed) (busyHub true Working)
              {| client_id := 1;
                 serverCapabilities :=
                   Some {| cap_tasks := true; cap_resources_subscribe := false |} |})
    as [(Hcount & Hout & Hgone & Hreleased) _].
  - reflexivity.
  - constructor; [split; [simpl; lia | eexists; split; reflexivity]|].
    constructor; [split; [simpl; lia | eexists; split; reflexivity]|].
    constructor.
  - simpl. lia.
  - reflexivity.
  - split; [exact Hcount|]. split; [exact Hout|]. split; [exact Hgone|].
    apply (Hreleased (sampleTask Working) (KStr "tok")); reflexivity.
Defined.

(** Witness of C8: the peer reports the tracked task [t1] as completed, at
    the top level of its answer.  The poll ends with the error that the task was
    not found, fetches no payload, and the record and the progress token of the task stay. *)
Lemma poll_finds_no_task_witness :
  let r := pollTaskUntilComplete 0 (Returned "payload"%string)
             [answered 10 (TopLevel {| td_taskId := "t1"; td_status := Completed;
                                        td_statusMessage := None; td_pollInterval := None |})]
             "srv" "t1"
             {| po_source := Some Global; po_timeoutMs := None; po_onStatusChange := true |}
             (busyHub true Working) in
  outcome r = Thrown (McpError InternalError "Task t1 not found") /\
  resultRequests "t1" (effects r) = 0%nat /\
  storedStatus "t1" (final r) = Some Working /\
  is_Some (activeProgressTokens (final r) !! KStr "tok").
Proof.
  intros r.
  destruct (poll_finds_no_task_in_a_top_level_answer "srv" "t1"
              {| po_source := Some Global; po_timeoutMs := None; po_onStatusChange := true |}
              0 10 (Returned "payload"%string) []
              {| td_taskId := "t1"; td_status := Completed;
                 td_statusMessage := None; td_pollInterval := None |}
              (busyHub true Working)
              {| client_id := 1;
                 serverCapabilities :=
                   Some {| cap_tasks := true; cap_resources_subscribe := false |} |})
    as (Hout & _ & Hcount & Hfinal).
  - reflexivity.
  - simpl. lia.
  - fold r in Hout, Hcount, Hfinal.
    split; [exact Hout|]. split; [exact Hcount|]. rewrite Hfinal.
    split; [reflexivity|]. eexists. reflexivity.
Defined.

(** The third part of C3 (amended) at the sample server: the handshake
    succeeds, two of the four list requests fail, and the connect still
    returns with the connection listed as connected. *)
Example connect_with_failing_list_fetches :
  let r := connectToServer (H := sampleHost)
             (connectAttempt (Returned 7%nat)
                (Returned {| hs_capabilities := None; hs_instructions := None |}))
             "srv" sampleConfig Global newHub in
  outcome r = Returned tt /\
  (fun c => (status (server c), tools (server c), resources (server c))) <$>
    findConnection "srv" (Some Global) (connections (final r)) =
    Some (StConnected, ["echo"%string], []) /\
  effects r =
    [ClientConnect 1 7; SendRequest 1 (ReqList "tools/list");
     SendRequest 1 (ReqList "resources/list");
     SendRequest 1 (ReqList "resources/templates/list");
     SendRequest 1 (ReqList "prompts/list")].
Proof. vm_compute. repeat split; reflexivity. Qed.
(** * Further properties of the hub *)

(** ** The error history of a server *)

Lemma appendErrorMessage_last (now : Z) (err : string) (level : ErrorLevel) (s : McpServer) :
  last (errorHistory (appendErrorMessage now err level s)) =
    Some {| err_message := truncateError err; err_timestamp := now; err_level := level |}.
Proof.
  unfold appendErrorMessage. cbn [errorHistory].
  case_bool_decide as Hlong; [|apply last_snoc].
  rewrite drop_app_le by (rewrite length_app in *; simpl in *; lia).
  apply last_snoc.
Qed.

(** X1. [appendErrorMessage] keeps the error history at no more than 100
    entries whatever its length was before: the new history is a tail of
    the old one followed by the new entry, the new entry is its last
    element, and the server's current error is the recorded text.  A history
    of fewer than 100 entries loses nothing. *)
Theorem error_history_keeps_last_hundred (now : Z) (err : string) (level : ErrorLevel)
    (s : McpServer) :
  let entry := {| err_message := truncateError err; err_timestamp := now; err_level := level |} in
  let s' := appendErrorMessage now err level s in
  (length (errorHistory s') <= 100)%nat /\
  errorHistory s' `suffix_of` errorHistory s ++ [entry] /\
  last (errorHistory s') = Some entry /\
  error s' = Some (truncateError err) /\
  ((length (errorHistory s) < 100)%nat -> errorHistory s' = errorHistory s ++ [entry]).
Proof.
  intros entry s'. subst s'. unfold appendErrorMessage. cbn [errorHistory error].
  fold entry. set (pushed := errorHistory s ++ [entry]).
  assert (Hlen : length pushed = S (length (errorHistory s))).
  { subst pushed. rewrite length_app. simpl. lia. }
  case_bool_decide as Hlong.
  - split; [rewrite length_drop; lia|].
    split; [apply suffix_drop|].
    split.
    + subst pushed. rewrite drop_app_le by (rewrite length_app in *; simpl in *; lia).
      apply last_snoc.
    + split; [reflexivity|]. intros Hshort. lia.
  - split; [lia|]. split; [reflexivity|]. split; [apply last_snoc|]. split; reflexivity.
Qed.

Lemma length_string_app (s1 s2 : string) :
  String.length (s1 +:+ s2) = (String.length s1 + String.length s2)%nat.
Proof. induction s1 as [|a s1 IH]; simpl; [reflexivity | rewrite IH; reflexivity]. Qed.

Lemma length_substring_le (n : nat) (s : string) :
  (String.length (String.substring 0 n s) <= n)%nat.
Proof.
  revert s. induction n as [|n IH]; intros [|a s]; simpl; try lia.
  specialize (IH s). lia.
Qed.

Lemma get_substring_prefix (n i : nat) (s t : string) :
  (i < n)%nat -> (n <= String.length s)%nat ->
  String.get i (String.substring 0 n s +:+ t) = String.get i s.
Proof.
  revert i s. induction n as [|n IH]; intros i [|a s] Hi Hn; simpl in *; try lia.
  destruct i as [|i]; [reflexivity|]. apply IH; lia.
Qed.

(** X2. The text [appendErrorMessage] records is never longer than 1000
    characters plus the 28 of the truncation marker; a message of at most
    1000 characters is recorded unchanged, and in every case the first 1000
    characters are those of the message. *)
Theorem stored_error_text_is_bounded (err : string) :
  (String.length (truncateError err) <= MAX_ERROR_LENGTH + 28)%nat /\
  ((String.length err <= MAX_ERROR_LENGTH)%nat -> truncateError err = err) /\
  (forall i, (i < MAX_ERROR_LENGTH)%nat ->
     String.get i (truncateError err) = String.get i err).
Proof.
  unfold truncateError. case_bool_decide as Hlong.
  - split.
    + rewrite length_string_app.
      pose proof (length_substring_le MAX_ERROR_LENGTH err) as Hsub.
      change (String.length "...(error message truncated)") with 28%nat. lia.
    + split; [intros Hshort; lia|].
      intros i Hi. apply get_substring_prefix; [exact Hi | lia].
  - split; [lia|]. split; reflexivity.
Qed.

(** ** Looking up and listing connections *)

Lemma find_spec {A} (p : A -> bool) (l : list A) :
  match find p l with
  | Some x => x ∈ l /\ p x = true
  | None => forall x, x ∈ l -> p x = false
  end.
Proof.
  induction l as [|a l IH]; simpl.
  - intros x Hin. inversion Hin.
  - destruct (p a) eqn:Hpa.
    + split; [apply list_elem_of_here | exact Hpa].
    + destruct (find p l) as [x|].
      * destruct IH as [Hin Hp]. split; [apply list_elem_of_further, Hin | exact Hp].
      * intros x Hin. apply elem_of_cons in Hin as [->|Hin]; [exact Hpa | apply IH, Hin].
Qed.

(** X3. [findConnection] answers with a listed connection of the given
    name and, when a source is given, of that source; called without a
    source it answers with a project connection whenever one of that name is
    listed.  It answers nothing only when no listed connection has the name
    (and the source, when given). *)
Theorem findConnection_prefers_project (serverName : string) (src : option Source)
    (conns : list McpConnection) :
  match findConnection serverName src conns with
  | Some c =>
      c ∈ conns /\ selected serverName src c = true /\
      (src = None ->
       (exists c', c' ∈ conns /\ matches serverName Project c' = true) ->
       source (server c) = Some Project)
  | None => forall c, c ∈ conns -> selected serverName src c = false
  end.
Proof.
  unfold findConnection, selected. destruct src as [s|].
  - pose proof (find_spec (matches serverName s) conns) as Hf.
    destruct (find (matches serverName s) conns) as [c|]; [|exact Hf].
    destruct Hf as [Hin Hm]. repeat split; [exact Hin | exact Hm | discriminate].
  - pose proof (find_spec (matches serverName Project) conns) as Hp.
    destruct (find (matches serverName Project) conns) as [c|].
    + destruct Hp as [Hin Hm]. split; [exact Hin|].
      unfold matches in Hm. apply andb_prop in Hm as [Hn Hs].
      split; [exact Hn|]. intros _ _. apply bool_decide_eq_true_1 in Hs. exact Hs.
    + pose proof (find_spec (fun c => matchesName serverName c && isGlobal c) conns) as Hg.
      destruct (find (fun c => matchesName serverName c && isGlobal c) conns) as [c|].
      * destruct Hg as [Hin Hm]. apply andb_prop in Hm as [Hn _].
        split; [exact Hin|]. split; [exact Hn|].
        intros _ (c' & Hin' & Hm'). rewrite (Hp c' Hin') in Hm'. discriminate.
      * intros c Hin. specialize (Hp c Hin). specialize (Hg c Hin).
        unfold matches, matchesName, isGlobal in *.
        destruct (bool_decide (name (server c) = serverName)); [|reflexivity].
        simpl in *. destruct (source (server c)) as [[]|]; simpl in *;
          repeat (case_bool_decide; simpl in * ); congruence.
Qed.

Lemma mapGet_mapSet {V} (k k' : string) (v : V) (m : NameMap V) :
  mapGet k' (mapSet k v m) = if bool_decide (k = k') then Some v else mapGet k' m.
Proof.
  induction m as [|[k0 v0] m IH]; simpl.
  - reflexivity.
  - destruct (bool_decide (k0 = k)) eqn:Hk0; simpl.
    + apply bool_decide_eq_true_1 in Hk0 as ->.
      destruct (bool_decide (k = k')); reflexivity.
    + rewrite IH. destruct (bool_decide (k0 = k')) eqn:Hk0'; [|reflexivity].
      apply bool_decide_eq_true_1 in Hk0' as ->.
      rewrite bool_decide_eq_false_2; [reflexivity|].
      intros ->. rewrite bool_decide_eq_true_2 in Hk0 by reflexivity. discriminate.
Qed.

Lemma mapGet_elem_of {V} (k : string) (v : V) (m : NameMap V) :
  mapGet k m = Some v -> (k, v) ∈ m.
Proof.
  induction m as [|[k0 v0] m IH]; simpl; [discriminate|].
  case_bool_decide as Hk.
  - intros [= <-]. subst k0. apply list_elem_of_here.
  - intros Hget. apply list_elem_of_further, IH, Hget.
Qed.

Lemma elem_of_mapGet {V} (k : string) (v : V) (m : NameMap V) :
  NoDup (map fst m) -> (k, v) ∈ m -> mapGet k m = Some v.
Proof.
  induction m as [|[k0 v0] m IH]; simpl; intros Hnd Hin; [inversion Hin|].
  apply NoDup_cons in Hnd as [Hk0 Hnd].
  apply elem_of_cons in Hin as [[= <- <-]|Hin].
  - rewrite bool_decide_eq_true_2 by reflexivity. reflexivity.
  - rewrite bool_decide_eq_false_2; [apply IH; assumption|].
    intros ->. apply Hk0. apply (list_elem_of_fmap_2 fst _ (k, v)), Hin.
Qed.

Lemma elem_of_mapSet {V} (k : string) (v : V) (m : NameMap V) (x : string * V) :
  x ∈ mapSet k v m -> x = (k, v) \/ x ∈ m.
Proof.
  induction m as [|[k0 v0] m IH]; simpl.
  - intros Hin. apply list_elem_of_singleton in Hin. left. exact Hin.
  - case_bool_decide as Hk; intros Hin; apply elem_of_cons in Hin as [->|Hin].
    + left. reflexivity.
    + right. apply list_elem_of_further, Hin.
    + right. apply list_elem_of_here.
    + destruct (IH Hin) as [->|Hin']; [left; reflexivity|].
      right. apply list_elem_of_further, Hin'.
Qed.

Lemma keys_mapSet {V} (k : string) (v : V) (m : NameMap V) :
  map fst (mapSet k v m) =
    match mapGet k m with Some _ => map fst m | None => map fst m ++ [k] end.
Proof.
  induction m as [|[k0 v0] m IH]; simpl; [reflexivity|].
  case_bool_decide as Hk; simpl.
  - subst k0. reflexivity.
  - rewrite IH. destruct (mapGet k m); reflexivity.
Qed.

Lemma mapGet_None {V} (k : string) (m : NameMap V) :
  mapGet k m = None -> k ∉ map fst m.
Proof.
  induction m as [|[k0 v0] m IH]; simpl; intros Hget Hin; [inversion Hin|].
  case_bool_decide as Hk; [discriminate|].
  apply elem_of_cons in Hin as [->|Hin]; [apply Hk; reflexivity | exact (IH Hget Hin)].
Qed.

Lemma NoDup_keys_mapSet {V} (k : string) (v : V) (m : NameMap V) :
  NoDup (map fst m) -> NoDup (map fst (mapSet k v m)).
Proof.
  intros Hnd. rewrite keys_mapSet. destruct (mapGet k m) eqn:Hget; [exact Hnd|].
  apply NoDup_app. split; [exact Hnd|]. split; [|apply NoDup_singleton].
  intros x Hx Hin. apply list_elem_of_singleton in Hin as ->.
  exact (mapGet_None _ _ Hget Hx).
Qed.

Lemma listed_addServer (seen : list McpConnection) (m : NameMap McpServer)
    (conn : McpConnection) :
  listed seen m -> listed (seen ++ [conn]) (addServer m conn).
Proof.
  intros (Hnd & Hval & Hall & Hproj). unfold addServer.
  destruct (mapGet (name (server conn)) m) as [existing|] eqn:Hget.
  - destruct (bool_decide (source (server conn) = Some Project)
              && negb (bool_decide (source existing = Some Project))) eqn:Hover.
    + apply andb_prop in Hover as [Hp _]. apply bool_decide_eq_true_1 in Hp.
      split; [apply NoDup_keys_mapSet, Hnd|]. split; [|split].
      * intros k v Hin. apply elem_of_mapSet in Hin as [[= -> ->]|Hin].
        -- split; [reflexivity|]. exists conn. split; [|reflexivity].
           apply elem_of_app. right. apply list_elem_of_here.
        -- destruct (Hval k v Hin) as (Hk & c & Hc & Hs). split; [exact Hk|].
           exists c. split; [apply elem_of_app; left; exact Hc | exact Hs].
      * intros c Hin. rewrite mapGet_mapSet. case_bool_decide; [eauto|].
        apply elem_of_app in Hin as [Hin|Hin]; [apply Hall, Hin|].
        apply list_elem_of_singleton in Hin as ->. congruence.
      * intros c v Hin Hsrc. rewrite mapGet_mapSet. case_bool_decide.
        -- intros [= <-]. exact Hp.
        -- apply elem_of_app in Hin as [Hin|Hin]; [apply Hproj; assumption|].
           apply list_elem_of_singleton in Hin as ->. congruence.
    + split; [exact Hnd|]. split; [|split].
      * intros k v Hin. destruct (Hval k v Hin) as (Hk & c & Hc & Hs). split; [exact Hk|].
        exists c. split; [apply elem_of_app; left; exact Hc | exact Hs].
      * intros c Hin. apply elem_of_app in Hin as [Hin|Hin]; [apply Hall, Hin|].
        apply list_elem_of_singleton in Hin as ->. eauto.
      * intros c v Hin Hsrc Hv. apply elem_of_app in Hin as [Hin|Hin];
          [apply (Hproj c); assumption|].
        apply list_elem_of_singleton in Hin as ->.
        rewrite Hget in Hv. injection Hv as <-.
        rewrite Hsrc, bool_decide_eq_true_2 in Hover by reflexivity. simpl in Hover.
        apply negb_false_iff, bool_decide_eq_true_1 in Hover. exact Hover.
  - split; [apply NoDup_keys_mapSet, Hnd|]. split; [|split].
    + intros k v Hin. apply elem_of_mapSet in Hin as [[= -> ->]|Hin].
      * split; [reflexivity|]. exists conn. split; [|reflexivity].
        apply elem_of_app. right. apply list_elem_of_here.
      * destruct (Hval k v Hin) as (Hk & c & Hc & Hs). split; [exact Hk|].
        exists c. split; [apply elem_of_app; left; exact Hc | exact Hs].
    + intros c Hin. rewrite mapGet_mapSet. case_bool_decide; [eauto|].
      apply elem_of_app in Hin as [Hin|Hin]; [apply Hall, Hin|].
      apply list_elem_of_singleton in Hin as ->. congruence.
    + intros c v Hin Hsrc. rewrite mapGet_mapSet. case_bool_decide as Hk.
      * intros [= <-]. apply elem_of_app in Hin as [Hin|Hin].
        -- destruct (Hall c Hin) as [v Hv]. rewrite <- Hk in Hv. congruence.
        -- apply list_elem_of_singleton in Hin as ->. exact Hsrc.
      * apply elem_of_app in Hin as [Hin|Hin]; [apply Hproj; assumption|].
        apply list_elem_of_singleton in Hin as ->. congruence.
Qed.

Lemma listed_fold (todo seen : list McpConnection) (m : NameMap McpServer) :
  listed seen m -> listed (seen ++ todo) (fold_left addServer todo m).
Proof.
  revert seen m. induction todo as [|c todo IH]; intros seen m Hl; simpl.
  - rewrite app_nil_r. exact Hl.
  - replace (seen ++ c :: todo) with ((seen ++ [c]) ++ todo)
      by (rewrite <- app_assoc; reflexivity).
    apply IH, listed_addServer, Hl.
Qed.

(** X4. [getServers] lists every name at most once; each listed server is
    enabled and is one of those [getAllServers] lists, every enabled
    connection's name is listed, and where an enabled project connection of a
    name exists the server listed under that name is a project server. *)
Theorem getServers_lists_each_enabled_name_once (h : McpHub) :
  let result := getServers h in
  NoDup (map name result) /\
  (forall s, s ∈ result -> disabled s = false /\ s ∈ getAllServers h) /\
  (forall c, c ∈ connections h -> disabled (server c) = false ->
     exists s, s ∈ result /\ name s = name (server c)) /\
  (forall c s, c ∈ connections h -> disabled (server c) = false ->
     source (server c) = Some Project ->
     s ∈ result -> name s = name (server c) -> source s = Some Project).
Proof.
  intros result. subst result. unfold getServers, mapValues.
  set (enabled := List.filter (fun conn => negb (disabled (server conn))) (connections h)).
  assert (Hen : forall c, c ∈ enabled <-> c ∈ connections h /\ disabled (server c) = false).
  { intros c. subst enabled. rewrite !list_elem_of_In, filter_In, negb_true_iff. reflexivity. }
  destruct (listed_fold enabled [] []) as (Hnd & Hval & Hall & Hproj).
  { split; [apply NoDup_nil_2|]. split; [|split].
    - intros k v Hin. inversion Hin.
    - intros c Hin. inversion Hin.
    - intros c v Hin. inversion Hin. }
  simpl in Hnd, Hval, Hall, Hproj.
  set (m := fold_left addServer enabled []) in *.
  assert (Hnames : map name (map snd m) = map fst m).
  { rewrite map_map. apply map_ext_in. intros [k v] Hin. simpl.
    apply (Hval k v), list_elem_of_In, Hin. }
  split; [rewrite Hnames; exact Hnd|]. split; [|split].
  - intros s Hin. apply list_elem_of_fmap in Hin as ([k v] & -> & Hin). simpl.
    destruct (Hval k v Hin) as (_ & c & Hc & Hs). apply Hen in Hc as [Hc Hd].
    split; [rewrite <- Hs; exact Hd|].
    rewrite <- Hs. apply (list_elem_of_fmap_2 server), Hc.
  - intros c Hin Hd. destruct (Hall c) as [v Hv]; [apply Hen; auto|].
    apply mapGet_elem_of in Hv. exists v. split.
    + apply (list_elem_of_fmap_2 snd _ _ Hv).
    + apply (Hval _ _ Hv).
  - intros c s Hin Hd Hsrc Hs Hname.
    apply list_elem_of_fmap in Hs as ([k v] & -> & Hs). simpl in *.
    apply (Hproj c v); [apply Hen; auto | exact Hsrc|].
    apply elem_of_mapGet; [exact Hnd|]. rewrite <- Hname.
    destruct (Hval k v Hs) as [-> _]. exact Hs.
Qed.

(** ** Deleting connections, again *)

Section DeleteAgain.
Context `{Host}.

Lemma deleteConnection_eq (serverName : string) (src : option Source) (h : McpHub) :
  let h1 := set_fileWatchers (delete serverName (fileWatchers h)) h in
  let h2 := set_connections (List.filter (kept serverName src) (connections h)) h1 in
  deleteConnection serverName src h =
    mkRun (Returned tt)
      (match List.filter (matchesName serverName)
               (List.filter (kept serverName src) (connections h)) with
       | [] => set_sanitizedNameRegistry
                 (delete (sanitizeMcpName serverName) (sanitizedNameRegistry h)) h2
       | _ :: _ => h2
       end)
      (effects (removeFileWatchersForServer serverName h) ++
       effects (forEach (List.filter (selected serverName src) (connections h))
                  (closeConnection serverName) h1)).
Proof.
  intros h1 h2. unfold deleteConnection.
  destruct (removeFileWatchersForServer_run serverName h) as (Ho1 & Hf1 & _).
  rewrite (bind_returned _ _ _ _ Ho1), Hf1. fold h1.
  rewrite bind_getHub.
  destruct (forEach_close_run serverName
              (List.filter (selected serverName src) (connections h1)) h1)
    as (Ho2 & Hf2 & _).
  rewrite (bind_returned _ _ _ _ Ho2), Hf2.
  rewrite bind_modifyHub, bind_getHub.
  cbn [connections set_connections].
  change (connections h1) with (connections h). fold h2.
  destruct (List.filter (matchesName serverName)
              (List.filter (kept serverName src) (connections h)));
    unfold prepend, modifyHub, ret; cbn [outcome final effects];
    rewrite ?app_nil_r; reflexivity.
Qed.

Lemma filter_selected_kept (serverName : string) (src : option Source)
    (l : list McpConnection) :
  List.filter (selected serverName src) (List.filter (kept serverName src) l) = [].
Proof.
  induction l as [|c l IH]; simpl; [reflexivity|].
  destruct (kept serverName src c) eqn:Hk; [|exact IH].
  simpl. rewrite kept_selected in Hk. apply negb_true_iff in Hk. rewrite Hk. exact IH.
Qed.

Lemma filter_idem {A} (p : A -> bool) (l : list A) :
  List.filter p (List.filter p l) = List.filter p l.
Proof.
  induction l as [|a l IH]; simpl; [reflexivity|].
  destruct (p a) eqn:Hp; simpl; rewrite ?Hp, IH; reflexivity.
Qed.

(** X5. [deleteConnection] is idempotent: called again with the same name
    and source on the hub it left, it returns, changes nothing in the hub
    and makes no call to the outside (no watcher, transport or client is
    closed a second time). *)
Theorem deleting_again_changes_nothing (serverName : string) (src : option Source)
    (h : McpHub) :
  let once := deleteConnection serverName src h in
  deleteConnection serverName src (final once) = mkRun (Returned tt) (final once) [].
Proof.
  intros once. subst once.
  rewrite (deleteConnection_eq serverName src h). cbn [final].
  set (h1 := set_fileWatchers (delete serverName (fileWatchers h)) h).
  set (h2 := set_connections (List.filter (kept serverName src) (connections h)) h1).
  set (h3 := match List.filter (matchesName serverName)
                     (List.filter (kept serverName src) (connections h)) with
             | [] => set_sanitizedNameRegistry
                       (delete (sanitizeMcpName serverName) (sanitizedNameRegistry h)) h2
             | _ :: _ => h2
             end).
  assert (Hconn : connections h3 = List.filter (kept serverName src) (connections h)).
  { subst h3. destruct (List.filter (matchesName serverName)
                          (List.filter (kept serverName src) (connections h))); reflexivity. }
  assert (Hfw : fileWatchers h3 !! serverName = None).
  { subst h3. destruct (List.filter (matchesName serverName)
                          (List.filter (kept serverName src) (connections h)));
      apply lookup_delete_eq. }
  assert (Hreg : List.filter (matchesName serverName) (connections h3) = [] ->
                 sanitizedNameRegistry h3 !! sanitizeMcpName serverName = None).
  { rewrite Hconn. subst h3. intros Hnone. rewrite Hnone. apply lookup_delete_eq. }
  assert (Hsel : List.filter (selected serverName src) (connections h3) = []).
  { rewrite Hconn. apply filter_selected_kept. }
  assert (Hkept : List.filter (kept serverName src) (connections h3) = connections h3).
  { rewrite Hconn. apply filter_idem. }
  clearbody h3. clear h1 h2.
  rewrite (deleteConnection_eq serverName src h3).
  rewrite Hsel, Hkept.
  unfold removeFileWatchersForServer. rewrite bind_getHub, Hfw.
  cbn [forEach ret effects app]. rewrite (delete_id _ _ Hfw). f_equal.
  destruct (List.filter (matchesName serverName) (connections h3)).
  - rewrite (delete_id _ _ (Hreg eq_refl)). destruct h3; reflexivity.
  - destruct h3; reflexivity.
Qed.
End DeleteAgain.

Lemma forEach_emit {A} (f : A -> Event) (xs : list A) (h : McpHub) :
  forEach xs (fun x => emit (f x)) h = mkRun (Returned tt) h (map f xs).
Proof.
  induction xs as [|x xs IH]; cbn [forEach]; [reflexivity|].
  rewrite bind_emit, IH. reflexivity.
Qed.

Lemma removeAllFileWatchers_eq (h : McpHub) :
  removeAllFileWatchers h =
    mkRun (Returned tt) (set_fileWatchers ∅ h)
      (concat (map (fun kv : string * list FSWatcher => map WatcherClose kv.2)
                 (map_to_list (fileWatchers h)))).
Proof.
  unfold removeAllFileWatchers. rewrite bind_getHub.
  assert (Hloop : forall (kvs : list (string * list FSWatcher)) h0,
            forEach kvs (fun kv => forEach kv.2 (fun w => emit (WatcherClose w))) h0 =
              mkRun (Returned tt) h0
                (concat (map (fun kv : string * list FSWatcher => map WatcherClose kv.2) kvs))).
  { induction kvs as [|kv kvs IH]; intros h0; cbn [forEach]; [reflexivity|].
    rewrite (bind_returned _ _ _ tt) by (rewrite forEach_emit; reflexivity).
    rewrite forEach_emit. cbn [final effects]. rewrite IH. reflexivity. }
  rewrite (bind_returned _ _ _ tt) by (rewrite Hloop; reflexivity).
  rewrite Hloop. cbn [final effects]. unfold prepend, modifyHub. cbn [final effects outcome].
  rewrite app_nil_r. reflexivity.
Qed.

Lemma removeAllFileWatchers_run (h : McpHub) :
  let r := removeAllFileWatchers h in
  outcome r = Returned tt /\ final r = set_fileWatchers ∅ h /\
  forallb isRelease (effects r) = true.
Proof.
  rewrite removeAllFileWatchers_eq. cbn [outcome final effects].
  repeat split; try reflexivity.
  induction (map_to_list (fileWatchers h)) as [|kv kvs IH]; simpl; [reflexivity|].
  rewrite forallb_app, IH, andb_true_r.
  induction kv.2 as [|w ws IHw]; simpl; [reflexivity | exact IHw].
Qed.

Section Teardown.
Context `{Host}.

Lemma closeConnection_release (serverName : string) (c : McpConnection) (h : McpHub) :
  forallb isRelease (effects (closeConnection serverName c h)) = true.
Proof.
  unfold closeConnection, tryCatch, bind, emit, await.
  destruct c as [s cl t|s]; simpl; [|reflexivity].
  destruct (transportClose t) as [[]|e]; simpl; [|reflexivity].
  destruct (clientClose (client_id cl)) as [[]|e]; reflexivity.
Qed.

Lemma forEach_close_release (serverName : string) (cs : list McpConnection) (h : McpHub) :
  forallb isRelease (effects (forEach cs (closeConnection serverName) h)) = true.
Proof.
  induction cs as [|c cs IH]; cbn [forEach]; [reflexivity|].
  destruct (closeConnection_run serverName c h) as (Ho & Hf & _).
  rewrite (bind_returned _ _ _ _ Ho), Hf. cbn [prepend effects].
  rewrite forallb_app, closeConnection_release, IH. reflexivity.
Qed.

Lemma deleteConnection_release (serverName : string) (src : option Source) (h : McpHub) :
  forallb isRelease (effects (deleteConnection serverName src h)) = true.
Proof.
  rewrite deleteConnection_eq. cbn [effects]. rewrite forallb_app.
  rewrite forEach_close_release, andb_true_r.
  destruct (removeFileWatchersForServer_run serverName h) as (_ & _ & He).
  apply forallb_forall. intros ev Hin. apply list_elem_of_In, He in Hin as [w ->]. reflexivity.
Qed.
End Teardown.

(** ** Project servers and settings updates *)

Lemma filter_nonproject_kept (n : string) (l : list McpConnection) :
  List.filter (fun c => negb (isProject c)) (List.filter (kept n (Some Project)) l) =
  List.filter (fun c => negb (isProject c)) l.
Proof.
  induction l as [|c l IH]; simpl; [reflexivity|].
  destruct (kept n (Some Project) c) eqn:Hk; simpl.
  - rewrite IH. reflexivity.
  - rewrite IH. unfold kept in Hk. unfold isProject.
    destruct (matchesName n c); simpl in Hk; [|discriminate].
    destruct (bool_decide (source (server c) = Some Project)); [reflexivity | discriminate].
Qed.

Lemma filter_all {A} (p : A -> bool) (l : list A) :
  (forall x, x ∈ l -> p x = true) -> List.filter p l = l.
Proof.
  induction l as [|a l IH]; intros Hall; simpl; [reflexivity|].
  rewrite (Hall a) by apply list_elem_of_here.
  rewrite IH; [reflexivity|]. intros x Hx. apply Hall, list_elem_of_further, Hx.
Qed.

Lemma filter_none {A} (p : A -> bool) (l : list A) :
  (forall x, x ∈ l -> p x = false) -> List.filter p l = [].
Proof.
  induction l as [|a l IH]; intros Hall; simpl; [reflexivity|].
  rewrite (Hall a) by apply list_elem_of_here.
  apply IH. intros x Hx. apply Hall, list_elem_of_further, Hx.
Qed.

Lemma notifyWebviewOfServerChanges_run (notify : Outcome unit) (h : McpHub) :
  notifyWebviewOfServerChanges notify h =
    mkRun (match notify with Returned _ => Returned tt | Thrown e => Thrown e end) h
          (match notify with Returned _ => [NotifyWebviewOfServerChanges] | Thrown _ => [] end).
Proof. destruct notify as [[]|e]; reflexivity. Qed.

Section Cleanup.
Context `{Host}.

Lemma delete_project_loop (todo : list McpConnection) (h : McpHub) :
  (forall c, c ∈ connections h -> isProject c = true ->
     exists conn, conn ∈ todo /\ name (server conn) = name (server c)) ->
  let r := forEach todo (fun conn => deleteConnection (name (server conn)) (Some Project)) h in
  outcome r = Returned tt /\
  connections (final r) = List.filter (fun c => negb (isProject c)) (connections h) /\
  forallb isRelease (effects r) = true /\
  activeTasks (final r) = activeTasks h /\
  pendingRequests (final r) = pendingRequests h /\
  activeProgressTokens (final r) = activeProgressTokens h.
Proof.
  revert h. induction todo as [|conn todo IH]; intros h Hcover; cbn [forEach].
  - cbn [ret outcome final effects]. repeat split; try reflexivity.
    symmetry. apply filter_all. intros c Hc. unfold negb.
    destruct (isProject c) eqn:Hp; [|reflexivity].
    destruct (Hcover c Hc Hp) as (conn & Hin & _). inversion Hin.
  - destruct (deleteConnection_run (name (server conn)) (Some Project) h)
      as (Ho & Hconn & Hpend & Htasks & Htoks & _).
    rewrite (bind_returned _ _ _ _ Ho). cbn [prepend outcome final effects].
    destruct (IH (final (deleteConnection (name (server conn)) (Some Project) h)))
      as (Ho' & Hconn' & Hrel' & Htasks' & Hpend' & Htoks').
    { intros c Hc Hp. rewrite Hconn in Hc.
      apply list_elem_of_In, filter_In in Hc as [Hc Hk]. apply list_elem_of_In in Hc.
      destruct (Hcover c Hc Hp) as (conn' & Hin & Hname).
      apply elem_of_cons in Hin as [->|Hin]; [|eauto].
      exfalso. unfold kept, matchesName in Hk. unfold isProject in Hp.
      rewrite Hname, bool_decide_eq_true_2 in Hk by reflexivity.
      rewrite Hp in Hk. discriminate. }
    split; [exact Ho'|]. split.
    { rewrite Hconn', Hconn. apply filter_nonproject_kept. }
    split.
    { rewrite forallb_app, deleteConnection_release, Hrel'. reflexivity. }
    repeat split; congruence.
Qed.

(** How [cleanupProjectMcpServers] runs: releases, then the notification. *)
Lemma cleanupProjectMcpServers_run
    (envs : string -> ConnectEnv) (notify : Outcome unit) (h : McpHub) :
  exists h' released,
    cleanupProjectMcpServers envs notify h =
      mkRun (match notify with Returned _ => Returned tt | Thrown e => Thrown e end) h'
            (released ++ match notify with
                         | Returned _ => [NotifyWebviewOfServerChanges]
                         | Thrown _ => []
                         end) /\
    forallb isRelease released = true /\
    connections h' = List.filter (fun c => negb (isProject c)) (connections h) /\
    fileWatchers h' = ∅ /\
    activeTasks h' = activeTasks h /\
    pendingRequests h' = pendingRequests h /\
    activeProgressTokens h' = activeProgressTokens h.
Proof.
  unfold cleanupProjectMcpServers. rewrite bind_getHub.
  destruct (delete_project_loop (List.filter isProject (connections h)) h)
    as (Ho & Hconn & Hrel & Htasks & Hpend & Htoks).
  { intros c Hc Hp. exists c. split; [|reflexivity].
    apply list_elem_of_In, filter_In. split; [apply list_elem_of_In, Hc | exact Hp]. }
  change (fun conn : McpConnection => bool_decide (source (server conn) = Some Project))
    with isProject.
  rewrite (bind_returned _ _ _ _ Ho).
  set (h1 := final (forEach (List.filter isProject (connections h))
                      (fun conn => deleteConnection (name (server conn)) (Some Project)) h)) in *.
  set (evs := effects (forEach (List.filter isProject (connections h))
                      (fun conn => deleteConnection (name (server conn)) (Some Project)) h)) in *.
  unfold updateServerConnections. cbn [when].
  rewrite bind_ret.
  destruct (removeAllFileWatchers_run h1) as (Ho2 & Hf2 & Hrel2).
  rewrite (bind_returned _ _ _ _ Ho2), Hf2. rewrite bind_getHub.
  cbn [connections set_fileWatchers].
  assert (Hnone : List.filter
            (fun c => bool_decide (source (server c) = Some Project)
                      || bool_decide (source (server c) = None) && bool_decide (Project = Global))
            (connections h1) = []).
  { apply filter_none. intros c Hc. rewrite Hconn in Hc.
    apply list_elem_of_In, filter_In in Hc as [_ Hc]. unfold isProject in Hc.
    apply negb_true_iff in Hc. rewrite Hc. simpl.
    rewrite andb_false_r. reflexivity. }
  rewrite Hnone. change (setOf (map _ [])) with (@nil string). cbn [forEach].
  rewrite !bind_ret.
  exists (set_fileWatchers ∅ h1), (evs ++ effects (removeAllFileWatchers h1)).
  split.
  { destruct notify as [[]|e].
    - rewrite (bind_returned _ _ _ tt) by (rewrite notifyWebviewOfServerChanges_run; reflexivity).
      rewrite notifyWebviewOfServerChanges_run.
      cbn [prepend outcome final effects ret app]. rewrite <- !app_assoc. reflexivity.
    - rewrite (bind_thrown _ _ _ e) by (rewrite notifyWebviewOfServerChanges_run; reflexivity).
      rewrite notifyWebviewOfServerChanges_run.
      cbn [prepend outcome final effects ret app]. rewrite <- !app_assoc. reflexivity. }
  split; [rewrite forallb_app, Hrel, Hrel2; reflexivity|].
  repeat split; assumption.
Qed.

(** X6. [cleanupProjectMcpServers] removes exactly the project
    connections: the list it leaves is the old one without them, in the old
    order.  It leaves no file watcher at all, those of the other servers
    included; apart from releasing watchers, transports and clients its only
    outside call is the notification of the webview, whose failure is the
    only way it can throw; the trackers of requests, tasks and progress
    tokens are left as they were. *)
Theorem cleanup_removes_exactly_the_project_connections
    (envs : string -> ConnectEnv) (notify : Outcome unit) (h : McpHub) :
  let r := cleanupProjectMcpServers envs notify h in
  connections (final r) = List.filter (fun c => negb (isProject c)) (connections h) /\
  fileWatchers (final r) = ∅ /\
  outcome r = match notify with Returned _ => Returned tt | Thrown e => Thrown e end /\
  List.filter (fun ev => negb (isRelease ev)) (effects r) =
    match notify with Returned _ => [NotifyWebviewOfServerChanges] | Thrown _ => [] end /\
  activeTasks (final r) = activeTasks h /\
  pendingRequests (final r) = pendingRequests h /\
  activeProgressTokens (final r) = activeProgressTokens h.
Proof.
  intros r. subst r.
  destruct (cleanupProjectMcpServers_run envs notify h)
    as (h' & released & -> & Hrel & Hconn & Hfw & Htasks & Hpend & Htoks).
  cbn [outcome final effects].
  split; [exact Hconn|]. split; [exact Hfw|]. split; [reflexivity|].
  split; [|auto].
  rewrite List.filter_app.
  assert (Hquiet : List.filter (fun ev => negb (isRelease ev)) released = []).
  { apply filter_none. intros ev Hin. apply negb_false_iff.
    apply list_elem_of_In in Hin. revert ev Hin. apply forallb_forall. exact Hrel. }
  rewrite Hquiet. destruct notify as [[]|e]; reflexivity.
Qed.
End Cleanup.

Lemma keys_kept (n : string) (s : Source) (l : list McpConnection) :
  map key (List.filter (kept n (Some s)) l) =
  List.filter (fun k => negb (bool_decide (k = (n, Some s)))) (map key l).
Proof.
  induction l as [|c l IH]; simpl; [reflexivity|].
  assert (Hk : kept n (Some s) c = negb (bool_decide (key c = (n, Some s)))).
  { unfold kept, matchesName, key.
    destruct (bool_decide (name (server c) = n)) eqn:Hn; simpl.
    - apply bool_decide_eq_true_1 in Hn.
      destruct (bool_decide (source (server c) = Some s)) eqn:Hs; simpl.
      + apply bool_decide_eq_true_1 in Hs. rewrite bool_decide_eq_true_2 by congruence.
        reflexivity.
      + apply bool_decide_eq_false_1 in Hs. rewrite bool_decide_eq_false_2 by congruence.
        reflexivity.
    - apply bool_decide_eq_false_1 in Hn. rewrite bool_decide_eq_false_2 by congruence.
      reflexivity. }
  rewrite <- Hk. destruct (kept n (Some s) c); simpl; rewrite IH; reflexivity.
Qed.

Lemma hoare_forEach_in {A} (I : McpHub -> Prop) (xs : list A) (body : A -> Hub unit) :
  (forall x, x ∈ xs -> hoare I (body x) I) -> hoare I (forEach xs body) I.
Proof.
  induction xs as [|x xs IH]; intros Hbody; simpl.
  - apply hoare_ret.
  - eapply hoare_bind; [apply Hbody, list_elem_of_here | auto |].
    intros _. apply IH. intros y Hy. apply Hbody, list_elem_of_further, Hy.
Qed.

Lemma elem_of_setOf (x : string) (xs : list string) : x ∈ setOf xs <-> x ∈ xs.
Proof. unfold setOf. rewrite elem_of_reverse, elem_of_remove_dups, elem_of_reverse. reflexivity. Qed.

(** Invariants of the list of connection keys that survive the steps
    [updateServerConnections] takes for one source. *)
Section KeyInvariant.
Context `{Host}.
Variable src : Source.
Variable names : list string.
Variable Q : list (string * option Source) -> Prop.
Hypothesis Q_remove : forall n l,
  Q l -> Q (List.filter (fun k => negb (bool_decide (k = (n, Some src)))) l).
Hypothesis Q_add : forall n l, n ∈ names -> Q l -> Q (l ++ [(n, Some src)]).


Lemma keys_deleteConnection (n : string) :
  hoare (fun h => Q (keys h)) (deleteConnection n (Some src)) (fun h => Q (keys h)).
Proof.
  intros h Hh. destruct (deleteConnection_run n (Some src) h) as (_ & Hconn & _).
  unfold keys. rewrite Hconn, keys_kept. apply Q_remove, Hh.
Qed.

Lemma keys_connectToServer (env : ConnectEnv) (n : string) (cfg : ServerConfig) :
  n ∈ names ->
  hoare (fun h => Q (keys h)) (connectToServer env n cfg src) (fun h => Q (keys h)).
Proof.
  intros Hn. unfold connectToServer.
  assert (Hpush : forall c, key c = (n, Some src) ->
                    hoare (fun h => Q (keys h)) (pushConnection c) (fun h => Q (keys h))).
  { intros c Hkey. apply hoare_modifyHub. intros h Hh. unfold keys. simpl.
    rewrite map_app. simpl. rewrite Hkey. apply Q_add; assumption. }
  assert (Hlast : forall g, (forall c, key (g c) = key c) ->
                    hoare (fun h => Q (keys h)) (mutateLast g) (fun h => Q (keys h))).
  { intros g Hg. apply hoare_modifyHub. intros h Hh. unfold keys. simpl.
    rewrite keys_updateLast; [exact Hh | exact Hg]. }
  assert (Hfound : forall p f, (forall s, name (f s) = name s /\ source (f s) = source s) ->
                    hoare (fun h => Q (keys h)) (mutateFound p (with_server f))
                      (fun h => Q (keys h))).
  { intros p f Hf. apply hoare_modifyHub. intros h Hh. unfold keys. simpl.
    rewrite keys_updateFirst; [exact Hh|]. intros c. apply key_with_server, Hf. }
  apply inv_bind; [apply keys_deleteConnection|]. intros _.
  apply inv_bind; [apply hoare_modifyHub; intros h Hh; exact Hh|]. intros _.
  destruct (negb (ce_mcpEnabled env)); [apply Hpush; reflexivity|].
  destruct (cfg_disabled cfg); [apply Hpush; reflexivity|].
  apply inv_bind; [apply hoare_modifyHub; intros h Hh; exact Hh|]. intros _.
  apply inv_tryCatch.
  - unfold fetchToolsList, fetchResourcesList, fetchResourceTemplatesList, fetchPromptsList.
    repeat first
      [ apply inv_fetchList
      | apply Hpush; reflexivity
      | apply Hlast;
        first [ apply key_handshaken
              | intros c; apply key_with_server; intros s; split; reflexivity ]
      | inv_step ].
  - intros e. apply inv_bind; [|intros _; apply hoare_throw].
    apply Hfound. intros s. split; reflexivity.
Qed.

Lemma keys_reconcileOne (envs : string -> ConnectEnv) (entry : string * RawConfig) :
  entry.1 ∈ names ->
  hoare (fun h => Q (keys h)) (reconcileOne envs src entry) (fun h => Q (keys h)).
Proof.
  destruct entry as [serverName rawConfig]. simpl. intros Hn. unfold reconcileOne.
  repeat first
    [ apply keys_connectToServer; exact Hn
    | apply keys_deleteConnection
    | apply inv_setupFileWatcher; intros v h Hh; exact Hh
    | inv_step ].
Qed.
End KeyInvariant.

Lemma otherKeys_remove (src : Source) (n : string) (l : list (string * option Source)) :
  otherKeys src (List.filter (fun k => negb (bool_decide (k = (n, Some src)))) l) =
  otherKeys src l.
Proof.
  unfold otherKeys. induction l as [|k l IH]; simpl; [reflexivity|].
  destruct (bool_decide (k = (n, Some src))) eqn:Hk; simpl.
  - apply bool_decide_eq_true_1 in Hk. subst k. simpl.
    rewrite bool_decide_eq_true_2 by reflexivity. simpl. exact IH.
  - rewrite IH. reflexivity.
Qed.

Lemma otherKeys_add (src : Source) (n : string) (l : list (string * option Source)) :
  otherKeys src (l ++ [(n, Some src)]) = otherKeys src l.
Proof.
  unfold otherKeys. rewrite List.filter_app. simpl.
  rewrite bool_decide_eq_true_2 by reflexivity. simpl. apply app_nil_r.
Qed.

Section Reconciling.
Context `{Host}.

Lemma prune_loop (src : Source) (names todo : list string) (h : McpHub) :
  let r := forEach todo (fun nm =>
             if bool_decide (nm ∈ names) then ret tt
             else deleteConnection nm (Some src)) h in
  outcome r = Returned tt /\
  otherKeys src (keys (final r)) = otherKeys src (keys h) /\
  ((forall k, k ∈ keys h -> k.2 = Some src -> k.1 ∈ names \/ k.1 ∈ todo) ->
   forall k, k ∈ keys (final r) -> k.2 = Some src -> k.1 ∈ names).
Proof.
  revert h. induction todo as [|nm todo IH]; intros h; cbn [forEach].
  - cbn [ret outcome final]. repeat split; try reflexivity.
    intros Hcover k Hk Hs. destruct (Hcover k Hk Hs) as [Hin|Hin]; [exact Hin | inversion Hin].
  - case_bool_decide as Hnm.
    + rewrite bind_ret. destruct (IH h) as (Ho & Hother & Hprune).
      split; [exact Ho|]. split; [exact Hother|].
      intros Hcover. apply Hprune. intros k Hk Hs.
      destruct (Hcover k Hk Hs) as [Hin|Hin]; [left; exact Hin|].
      apply elem_of_cons in Hin as [->|Hin]; [left; exact Hnm | right; exact Hin].
    + destruct (deleteConnection_run nm (Some src) h) as (Ho & Hconn & _).
      rewrite (bind_returned _ _ _ _ Ho). cbn [prepend outcome final effects].
      destruct (IH (final (deleteConnection nm (Some src) h))) as (Ho' & Hother & Hprune).
      assert (Hkeys : keys (final (deleteConnection nm (Some src) h)) =
                      List.filter (fun k => negb (bool_decide (k = (nm, Some src)))) (keys h)).
      { unfold keys. rewrite Hconn. apply keys_kept. }
      split; [exact Ho'|]. split.
      * rewrite Hother, Hkeys. apply otherKeys_remove.
      * intros Hcover. apply Hprune. intros k Hk Hs. rewrite Hkeys in Hk.
        apply list_elem_of_In, filter_In in Hk as [Hk Hne]. apply list_elem_of_In in Hk.
        destruct (Hcover k Hk Hs) as [Hin|Hin]; [left; exact Hin|].
        apply elem_of_cons in Hin as [Heq|Hin]; [|right; exact Hin].
        exfalso. apply negb_true_iff, bool_decide_eq_false_1 in Hne. apply Hne.
        destruct k as [k1 k2]. simpl in *. congruence.
Qed.

(** X7. After [updateServerConnections] for a source, however it ends,
    every listed connection of that source bears a name of the new settings;
    the (name, source) pairs of the connections outside the source are the
    same, in the same order, as before. *)
Theorem update_drops_servers_missing_from_the_settings
    (envs : string -> ConnectEnv) (notify : Outcome unit)
    (newServers : list (string * RawConfig)) (src : Source) (manage : bool) (h : McpHub) :
  let r := updateServerConnections envs notify newServers src manage h in
  (forall c, c ∈ connections (final r) -> source (server c) = Some src ->
     name (server c) ∈ map fst newServers) /\
  otherKeys src (keys (final r)) = otherKeys src (keys h).
Proof.
  intros r. subst r. unfold updateServerConnections.
  set (names := map fst newServers).
  set (Q := fun l : list (string * option Source) =>
              (forall k, k ∈ l -> k.2 = Some src -> k.1 ∈ names) /\
              otherKeys src l = otherKeys src (keys h)).
  assert (Q_remove : forall n l,
            Q l -> Q (List.filter (fun k => negb (bool_decide (k = (n, Some src)))) l)).
  { intros n l [Hp Ho]. split.
    - intros k Hk. apply list_elem_of_In, filter_In in Hk as [Hk _].
      apply Hp, list_elem_of_In, Hk.
    - rewrite otherKeys_remove. exact Ho. }
  assert (Q_add : forall n l, n ∈ names -> Q l -> Q (l ++ [(n, Some src)])).
  { intros n l Hn [Hp Ho]. split.
    - intros k Hk Hs. apply elem_of_app in Hk as [Hk|Hk]; [apply Hp; assumption|].
      apply list_elem_of_singleton in Hk as ->. exact Hn.
    - rewrite otherKeys_add. exact Ho. }
  assert (Hgoal : Q (keys (final
            ((when manage (modifyHub (set_isConnecting true)) ;;
              removeAllFileWatchers ;;
              h0 <- getHub ;;
              forEach
                (setOf (map (fun c => name (server c))
                   (List.filter
                      (fun c => bool_decide (source (server c) = Some src)
                                || bool_decide (source (server c) = None)
                                   && bool_decide (src = Global))
                      (connections h0))))
                (fun nm => if bool_decide (nm ∈ names) then ret tt
                           else deleteConnection nm (Some src)) ;;
              forEach newServers (reconcileOne envs src) ;;
              notifyWebviewOfServerChanges notify ;;
              when manage (modifyHub (set_isConnecting false))) h)))).
  { set (h0 := final (when manage (modifyHub (set_isConnecting true)) h)).
    assert (Hwhen : when manage (modifyHub (set_isConnecting true)) h = mkRun (Returned tt) h0 []).
    { subst h0. destruct manage; reflexivity. }
    assert (Hk0 : connections h0 = connections h).
    { subst h0. destruct manage; reflexivity. }
    rewrite (bind_returned _ _ _ tt) by (rewrite Hwhen; reflexivity).
    rewrite Hwhen. cbn [final effects]. rewrite prepend_nil.
    destruct (removeAllFileWatchers_run h0) as (Ho1 & Hf1 & _).
    rewrite (bind_returned _ _ _ _ Ho1), Hf1. cbn [prepend final].
    rewrite bind_getHub. cbn [connections set_fileWatchers]. rewrite Hk0.
    set (h1 := set_fileWatchers ∅ h0).
    set (todo := setOf (map (fun c => name (server c))
                   (List.filter
                      (fun c => bool_decide (source (server c) = Some src)
                                || bool_decide (source (server c) = None)
                                   && bool_decide (src = Global))
                      (connections h)))).
    destruct (prune_loop src names todo h1) as (Ho2 & Hother & Hprune).
    rewrite (bind_returned _ _ _ _ Ho2). cbn [prepend final].
    set (h2 := final (forEach todo (fun nm => if bool_decide (nm ∈ names) then ret tt
                                              else deleteConnection nm (Some src)) h1)) in *.
    assert (Hkeys1 : keys h1 = keys h) by (unfold keys; subst h1; simpl; rewrite Hk0; reflexivity).
    assert (HQ2 : Q (keys h2)).
    { split; [|rewrite Hother, Hkeys1; reflexivity].
      apply Hprune. intros k Hk Hs. right. subst todo. apply elem_of_setOf.
      rewrite Hkeys1 in Hk. unfold keys in Hk.
      apply list_elem_of_fmap in Hk as (c & -> & Hc). unfold key in *. simpl in *.
      apply (list_elem_of_fmap_2 (fun c => name (server c))).
      apply list_elem_of_In, filter_In. split; [apply list_elem_of_In, Hc|].
      rewrite Hs, bool_decide_eq_true_2 by reflexivity. reflexivity. }
    revert HQ2. generalize h2. clear -Q_remove Q_add.
    change (hoare (fun h => Q (keys h))
              (forEach newServers (reconcileOne envs src) ;;
               notifyWebviewOfServerChanges notify ;;
               when manage (modifyHub (set_isConnecting false)))
              (fun h => Q (keys h))).
    apply inv_bind.
    - apply hoare_forEach_in. intros entry Hentry.
      apply (keys_reconcileOne src names Q Q_remove Q_add).
      subst names. apply (list_elem_of_fmap_2 fst), Hentry.
    - intros _. repeat first [ apply hoare_modifyHub; intros h' Hh'; exact Hh' | inv_step ]. }
  destruct Hgoal as [Hp Ho]. split; [|exact Ho].
  intros c Hc Hs. apply (Hp (key c)); [|exact Hs].
  unfold keys. apply (list_elem_of_fmap_2 key), Hc.
Qed.
End Reconciling.

Section Unchanged.
Context `{Host}.

Lemma forEach_skip {A} (xs : list A) (body : A -> Hub unit) (h : McpHub) :
  (forall x, x ∈ xs -> body x h = mkRun (Returned tt) h []) ->
  forEach xs body h = mkRun (Returned tt) h [].
Proof.
  induction xs as [|x xs IH]; intros Hbody; cbn [forEach]; [reflexivity|].
  rewrite (bind_returned _ _ _ tt) by (rewrite Hbody; [reflexivity | apply list_elem_of_here]).
  rewrite Hbody by apply list_elem_of_here. cbn [final effects]. rewrite prepend_nil.
  apply IH. intros y Hy. apply Hbody, list_elem_of_further, Hy.
Qed.

(** X8. When the new settings of a source name exactly servers that are
    listed with a stored configuration deep-equal to the new one, and every
    connection of the source is named in them, [updateServerConnections]
    leaves the connections as they are and connects nothing, yet it closes
    every file watcher of the hub and sets none up again: afterwards the hub
    watches no file. *)
Theorem update_with_unchanged_settings_drops_file_watchers
    (envs : string -> ConnectEnv) (notify : Outcome unit)
    (newServers : list (string * RawConfig)) (src : Source) (manage : bool) (h : McpHub) :
  (forall c, c ∈ connections h ->
     source (server c) = Some src \/ (source (server c) = None /\ src = Global) ->
     name (server c) ∈ map fst newServers) ->
  (forall n raw, (n, raw) ∈ newServers ->
     exists validated cc stored,
       validateServerConfig raw n = Returned validated /\
       findConnection n (Some src) (connections h) = Some cc /\
       jsonParse (config (server cc)) = Returned stored /\
       deepEqual stored raw = true) ->
  let r := updateServerConnections envs notify newServers src manage h in
  connections (final r) = connections h /\
  fileWatchers (final r) = ∅ /\
  forallb isRelease (effects (removeAllFileWatchers h)) = true /\
  effects r = effects (removeAllFileWatchers h) ++
              match notify with Returned _ => [NotifyWebviewOfServerChanges] | Thrown _ => [] end.
Proof.
  intros Hlisted Hsame r. subst r. unfold updateServerConnections.
  set (h0 := final (when manage (modifyHub (set_isConnecting true)) h)).
  assert (Hwhen : when manage (modifyHub (set_isConnecting true)) h = mkRun (Returned tt) h0 []).
  { subst h0. destruct manage; reflexivity. }
  assert (Hk0 : connections h0 = connections h) by (subst h0; destruct manage; reflexivity).
  assert (Hw0 : removeAllFileWatchers h0 =
                mkRun (Returned tt) (set_fileWatchers ∅ h0) (effects (removeAllFileWatchers h))).
  { rewrite !removeAllFileWatchers_eq. subst h0. destruct manage; reflexivity. }
  rewrite (bind_returned _ _ _ tt) by (rewrite Hwhen; reflexivity).
  rewrite Hwhen. cbn [final effects]. rewrite prepend_nil.
  rewrite (bind_returned _ _ _ tt) by (rewrite Hw0; reflexivity).
  rewrite Hw0. cbn [final effects].
  rewrite bind_getHub. cbn [connections set_fileWatchers]. rewrite Hk0.
  set (h1 := set_fileWatchers ∅ h0).
  rewrite (bind_returned _ _ _ tt); cycle 1.
  { rewrite forEach_skip; [reflexivity|]. intros nm Hnm.
    apply elem_of_setOf, list_elem_of_fmap in Hnm as (c & -> & Hc).
    apply list_elem_of_In, filter_In in Hc as [Hc Hsrc]. apply list_elem_of_In in Hc.
    rewrite bool_decide_eq_true_2; [reflexivity|].
    apply Hlisted; [exact Hc|].
    apply orb_prop in Hsrc as [Hs|Hs].
    - left. apply bool_decide_eq_true_1 in Hs. exact Hs.
    - right. apply andb_prop in Hs as [Hs1 Hs2].
      apply bool_decide_eq_true_1 in Hs1, Hs2. auto. }
  rewrite forEach_skip; cycle 1.
  { intros nm Hnm.
    apply elem_of_setOf, list_elem_of_fmap in Hnm as (c & -> & Hc).
    apply list_elem_of_In, filter_In in Hc as [Hc Hsrc]. apply list_elem_of_In in Hc.
    rewrite bool_decide_eq_true_2; [reflexivity|].
    apply Hlisted; [exact Hc|].
    apply orb_prop in Hsrc as [Hs|Hs].
    - left. apply bool_decide_eq_true_1 in Hs. exact Hs.
    - right. apply andb_prop in Hs as [Hs1 Hs2].
      apply bool_decide_eq_true_1 in Hs1, Hs2. auto. }
  cbn [final effects]. rewrite prepend_nil.
  assert (Hrec : forEach newServers (reconcileOne envs src) h1 = mkRun (Returned tt) h1 []).
  { apply forEach_skip. intros [n raw] Hin.
    destruct (Hsame n raw Hin) as (validated & cc & stored & Hv & Hfind & Hparse & Heq).
    unfold reconcileOne. rewrite bind_getHub.
    change (connections h1) with (connections h0). rewrite Hk0, Hv, Hfind, Hparse.
    rewrite bind_await_returned, Heq. reflexivity. }
  rewrite (bind_returned _ _ _ tt) by (rewrite Hrec; reflexivity).
  rewrite Hrec. cbn [final effects]. rewrite prepend_nil.
  assert (Hrel : forallb isRelease (effects (removeAllFileWatchers h)) = true)
    by apply removeAllFileWatchers_run.
  destruct notify as [[]|e].
  - rewrite (bind_returned _ _ _ tt) by (rewrite notifyWebviewOfServerChanges_run; reflexivity).
    rewrite notifyWebviewOfServerChanges_run. cbn [prepend outcome final effects].
    assert (Hend : when manage (modifyHub (set_isConnecting false)) h1 =
                   mkRun (Returned tt) (final (when manage (modifyHub (set_isConnecting false)) h1)) []).
    { destruct manage; reflexivity. }
    rewrite Hend. cbn [final effects]. rewrite app_nil_r.
    repeat split; try assumption; destruct manage; try reflexivity; exact Hk0.
  - rewrite (bind_thrown _ _ _ e) by (rewrite notifyWebviewOfServerChanges_run; reflexivity).
    rewrite notifyWebviewOfServerChanges_run. cbn [prepend outcome final effects].
    repeat split; try assumption; try reflexivity; exact Hk0.
Qed.
End Unchanged.

(** ** Disposal *)

Section DisposeAll.
Context `{Host}.

Lemma selected_own (c : McpConnection) :
  selected (name (server c)) (source (server c)) c = true.
Proof.
  unfold selected, matches, matchesName. destruct (source (server c)) as [s|] eqn:Hs.
  - rewrite !bool_decide_eq_true_2 by reflexivity. reflexivity.
  - apply bool_decide_eq_true_2. reflexivity.
Qed.

Lemma tryCatch_deleteConnection (n : string) (src : option Source)
    (handler : Exn -> Hub unit) (h : McpHub) :
  tryCatch (deleteConnection n src) handler h = deleteConnection n src h.
Proof.
  apply (tryCatch_returned _ _ _ tt). apply (deleteConnection_run n src h).
Qed.

(** The loop of [dispose] over the connections it found. *)
Lemma dispose_loop (todo : list McpConnection) (h : McpHub) :
  let r := forEach todo (fun connection =>
             tryCatch
               (deleteConnection (name (server connection)) (source (server connection)))
               (fun e => emit (ErrorFailedToCloseConnection (name (server connection))
                                 (exn_message e)))) h in
  outcome r = Returned tt /\
  forallb isRelease (effects r) = true /\
  (forall c t, c ∈ todo -> c ∈ connections h -> transport c = Some t ->
     TransportClose t ∈ effects r) /\
  pendingRequests (final r) = pendingRequests h /\
  activeTasks (final r) = activeTasks h /\
  activeProgressTokens (final r) = activeProgressTokens h /\
  isDisposed (final r) = isDisposed h /\
  resourceSubscriptions (final r) = resourceSubscriptions h /\
  configChangeDebounceTimers (final r) = configChangeDebounceTimers h /\
  flagResetTimer (final r) = flagResetTimer h /\
  isProgrammaticUpdate (final r) = isProgrammaticUpdate h /\
  settingsWatcher (final r) = settingsWatcher h /\
  projectMcpWatcher (final r) = projectMcpWatcher h /\
  disposables (final r) = disposables h /\
  (fileWatchers h = ∅ -> fileWatchers (final r) = ∅).
Proof.
  revert h. induction todo as [|c0 todo IH]; intros h; cbn [forEach].
  - cbn [ret outcome final effects]. repeat split; try reflexivity; try tauto.
    intros c t Hin. inversion Hin.
  - set (n := name (server c0)). set (s := source (server c0)).
    destruct (deleteConnection_run n s h) as (Ho & Hconn & _ & _ & _ & _ & Hclose & _).
    rewrite (bind_returned _ _ _ tt) by (rewrite tryCatch_deleteConnection; exact Ho).
    rewrite tryCatch_deleteConnection. cbn [prepend outcome final effects].
    pose proof (deleteConnection_release n s h) as Hrel.
    pose proof (deleteConnection_eq n s h) as Heq. cbv zeta in Heq.
    set (h' := final (deleteConnection n s h)) in *.
    assert (Hfields :
      pendingRequests h' = pendingRequests h /\
      activeTasks h' = activeTasks h /\
      activeProgressTokens h' = activeProgressTokens h /\
      isDisposed h' = isDisposed h /\
      resourceSubscriptions h' = resourceSubscriptions h /\
      configChangeDebounceTimers h' = configChangeDebounceTimers h /\
      flagResetTimer h' = flagResetTimer h /\
      isProgrammaticUpdate h' = isProgrammaticUpdate h /\
      settingsWatcher h' = settingsWatcher h /\
      projectMcpWatcher h' = projectMcpWatcher h /\
      disposables h' = disposables h /\
      fileWatchers h' = delete n (fileWatchers h)).
    { subst h'. rewrite Heq. cbn [final].
      destruct (List.filter (matchesName n) (List.filter (kept n s) (connections h)));
        repeat split; reflexivity. }
    destruct Hfields as (F1 & F2 & F3 & F4 & F5 & F6 & F7 & F8 & F9 & F10 & F11 & F12).
    destruct (IH h') as (Ho' & Hrel' & Hclose' & G1 & G2 & G3 & G4 & G5 & G6 & G7 & G8 & G9
                         & G10 & G11 & G12).
    split; [exact Ho'|]. split; [rewrite forallb_app, Hrel, Hrel'; reflexivity|].
    split.
    { intros c t Hin Hc Ht. apply elem_of_app.
      destruct (selected n s c) eqn:Hsel.
      - left. apply (Hclose c t Hc Hsel Ht).
      - apply elem_of_cons in Hin as [->|Hin].
        + subst n s. rewrite selected_own in Hsel. discriminate.
        + right. apply (Hclose' c t Hin); [|exact Ht].
          subst h'. rewrite Hconn. apply list_elem_of_In, filter_In.
          split; [apply list_elem_of_In, Hc|]. rewrite kept_selected, Hsel. reflexivity. }
    repeat split; try congruence.
    intros Hempty. apply G12. rewrite F12, Hempty. apply delete_empty.
Qed.
End DisposeAll.

Section DisposeTheorem.
Context `{Host}.

(** X9. The first [dispose()] of a hub returns normally and only releases:
    every outside call closes a watcher, a transport or a client, clears a
    timer, disposes of a watcher or disposable, or logs a failed close.  It
    closes the transport of every connected connection, clears every
    debounce timer and disposes of every disposable, and leaves the hub
    flagged as disposed with no connection, no pending request, task,
    progress token or resource subscription, no file watcher and no timer.
    Pending requests are dropped without being aborted. *)
Theorem dispose_releases_everything (h : McpHub) :
  isDisposed h = false ->
  let r := dispose h in
  outcome r = Returned tt /\
  forallb isRelease (effects r) = true /\
  (forall c t, c ∈ connections h -> transport c = Some t -> TransportClose t ∈ effects r) /\
  (forall k t, configChangeDebounceTimers h !! k = Some t -> ClearTimeout t ∈ effects r) /\
  (forall d, d ∈ disposables h -> DisposableDispose d ∈ effects r) /\
  connections (final r) = [] /\
  isDisposed (final r) = true /\
  pendingRequests (final r) = ∅ /\
  activeTasks (final r) = ∅ /\
  activeProgressTokens (final r) = ∅ /\
  resourceSubscriptions (final r) = ∅ /\
  fileWatchers (final r) = ∅ /\
  configChangeDebounceTimers (final r) = ∅ /\
  flagResetTimer (final r) = None /\
  isProgrammaticUpdate (final r) = false /\
  settingsWatcher (final r) = None /\
  projectMcpWatcher (final r) = None.
Proof.
  intros Hflag r. subst r. unfold dispose. rewrite bind_getHub, Hflag.
  rewrite !bind_modifyHub.
  set (timers := map_to_list (configChangeDebounceTimers h)).
  rewrite (bind_returned _ _ _ tt)
    by (rewrite (forEach_emit (fun kv : string * nat => ClearTimeout kv.2)); reflexivity).
  rewrite (forEach_emit (fun kv : string * nat => ClearTimeout kv.2)). cbn [final effects].
  set (h0 := clearTrackers (set_isDisposed true h)).
  set (flagEvents := match flagResetTimer h with Some t => [ClearTimeout t] | None => [] end).
  assert (Hflagrun : (match flagResetTimer h with
                      | Some t => emit (ClearTimeout t)
                      | None => ret tt
                      end) h0 = mkRun (Returned tt) h0 flagEvents).
  { subst flagEvents. destruct (flagResetTimer h); reflexivity. }
  rewrite (bind_returned _ _ _ tt) by (rewrite Hflagrun; reflexivity).
  rewrite Hflagrun. cbn [final effects].
  rewrite bind_modifyHub.
  set (h1 := clearTimers h0).
  rewrite (bind_returned _ _ _ tt) by (rewrite removeAllFileWatchers_eq; reflexivity).
  pose proof (removeAllFileWatchers_run h1) as (_ & _ & Hrel1).
  rewrite removeAllFileWatchers_eq in *. cbn [final effects] in *.
  set (watcherEvents := concat (map (fun kv : string * list FSWatcher => map WatcherClose kv.2)
                                  (map_to_list (fileWatchers h1)))) in *.
  set (h2 := set_fileWatchers ∅ h1).
  destruct (dispose_loop (connections h) h2)
    as (Ho & Hrel & Hclose & G1 & G2 & G3 & G4 & G5 & G6 & G7 & G8 & G9 & G10 & G11 & G12).
  rewrite (bind_returned _ _ _ _ Ho).
  set (loop := forEach (connections h) (fun connection =>
                 tryCatch
                   (deleteConnection (name (server connection)) (source (server connection)))
                   (fun e => emit (ErrorFailedToCloseConnection (name (server connection))
                                     (exn_message e)))) h2) in *.
  rewrite bind_modifyHub.
  set (h3 := set_connections [] (final loop)).
  assert (Hopt : forall (w : option nat) (hh : McpHub),
            disposeOption w hh =
              mkRun (Returned tt) hh (match w with Some x => [WatcherDispose x] | None => [] end)).
  { intros [x|] hh; reflexivity. }
  rewrite (bind_returned _ _ _ tt) by (rewrite Hopt; reflexivity).
  rewrite Hopt. cbn [final effects].
  rewrite (bind_returned _ _ _ tt) by (rewrite Hopt; reflexivity).
  rewrite Hopt. cbn [final effects].
  rewrite bind_modifyHub.
  rewrite (forEach_emit DisposableDispose).
  unfold prepend. cbn [outcome final effects].
  split; [reflexivity|].
  split.
  { rewrite !forallb_app, Hrel, Hrel1.
    assert (Ht : forallb isRelease (map (fun kv : string * nat => ClearTimeout kv.2) timers) = true).
    { induction timers as [|kv kvs IHt]; simpl; [reflexivity | exact IHt]. }
    assert (Hd : forallb isRelease (map DisposableDispose (disposables h)) = true).
    { induction (disposables h) as [|d ds IHd]; simpl; [reflexivity | exact IHd]. }
    rewrite Ht, Hd. subst flagEvents.
    destruct (flagResetTimer h), (settingsWatcher h), (projectMcpWatcher h); reflexivity. }
  split.
  { intros c t Hc Ht. rewrite !elem_of_app. right. right. right. left.
    apply (Hclose c t Hc); [|exact Ht]. exact Hc. }
  split.
  { intros k t Hk. rewrite !elem_of_app. left.
    apply (list_elem_of_fmap_2 (fun kv : string * nat => ClearTimeout kv.2) _ (k, t)).
    subst timers. apply elem_of_map_to_list. exact Hk. }
  split.
  { intros d Hd. rewrite !elem_of_app. do 6 right.
    apply (list_elem_of_fmap_2 DisposableDispose), Hd. }
  subst h3. cbn [connections clearWatchers set_connections isDisposed pendingRequests activeTasks
       activeProgressTokens resourceSubscriptions fileWatchers configChangeDebounceTimers
       flagResetTimer isProgrammaticUpdate settingsWatcher projectMcpWatcher].
  rewrite G1, G2, G3, G4, G5, G6, G7, G8, (G12 eq_refl).
  repeat split; reflexivity.
Qed.
End DisposeTheorem.

(** ** Connecting and restarting *)

Section Placeholders.
Context `{Host}.

(** X10. When MCP is switched off globally or the server's configuration
    is disabled, [connectToServer] contacts nobody: after deleting the old
    connection of the key its only effect is to list a disconnected
    placeholder that has no client and no transport, and no file watcher is
    set up for the server.  The placeholder is flagged disabled when the
    server is disabled; when only MCP is off it carries the configuration's
    own flag. *)
Theorem connect_of_disabled_server_lists_placeholder
    (env : ConnectEnv) (serverName : string) (cfg : ServerConfig) (src : Source) (h : McpHub) :
  ce_mcpEnabled env = false \/ cfg_disabled cfg = true ->
  let deleted := deleteConnection serverName (Some src) h in
  let r := connectToServer env serverName cfg src h in
  let placeholder :=
    Disconnected
      {| name := serverName; config := cfg_json cfg; status := StDisconnected;
         error := None; errorHistory := [];
         tools := []; resources := []; resourceTemplates := []; prompts := [];
         disabled := if ce_mcpEnabled env then true else cfg_disabled cfg;
         source := Some src; instructions := None |} in
  outcome r = Returned tt /\
  effects r = effects deleted /\
  connections (final r) = connections (final deleted) ++ [placeholder] /\
  findConnection serverName (Some src) (connections (final r)) = Some placeholder /\
  clientOf serverName (Some src) (final r) = None /\
  fileWatchers (final r) !! serverName = None.
Proof.
  intros Hoff deleted r placeholder. subst r deleted. unfold connectToServer.
  destruct (deleteConnection_run serverName (Some src) h) as (Ho & Hconn & _).
  pose proof (deleteConnection_eq serverName (Some src) h) as Heq. cbv zeta in Heq.
  rewrite (bind_returned _ _ _ _ Ho).
  set (h1 := final (deleteConnection serverName (Some src) h)) in *.
  assert (Hfw : fileWatchers h1 !! serverName = None).
  { subst h1. rewrite Heq. cbn [final].
    destruct (List.filter (matchesName serverName)
                (List.filter (kept serverName (Some src)) (connections h)));
      apply lookup_delete_eq. }
  assert (Hnone : find (matches serverName src) (connections h1) = None).
  { rewrite Hconn. apply find_kept_none. }
  rewrite bind_modifyHub.
  assert (Hbranch : forall m : Hub unit,
            (if negb (ce_mcpEnabled env)
             then pushConnection (createPlaceholderConnection serverName cfg src MCP_DISABLED)
             else if cfg_disabled cfg
                  then pushConnection
                         (createPlaceholderConnection serverName cfg src SERVER_DISABLED)
                  else m) = pushConnection placeholder).
  { intros m. subst placeholder. unfold createPlaceholderConnection.
    destruct (ce_mcpEnabled env) eqn:Hmcp, (cfg_disabled cfg) eqn:Hdis; simpl;
      try reflexivity.
    destruct Hoff; congruence. }
  rewrite Hbranch. unfold pushConnection, modifyHub, prepend.
  cbn [outcome final effects connections set_connections set_sanitizedNameRegistry fileWatchers].
  rewrite app_nil_r.
  assert (Hfind : find (matches serverName src) (connections h1 ++ [placeholder])
                  = Some placeholder).
  { rewrite find_app_none by exact Hnone. simpl.
    subst placeholder. rewrite matches_true by reflexivity. reflexivity. }
  repeat split; try reflexivity; try assumption.
  unfold clientOf, findConnection.
  cbn [connections set_connections set_sanitizedNameRegistry].
  rewrite Hfind. reflexivity.
Qed.
End Placeholders.

Lemma find_updateFirst (p : McpConnection -> bool) (g : McpConnection -> McpConnection)
    (l : list McpConnection) (c : McpConnection) :
  find p l = Some c -> p (g c) = true -> find p (updateFirst p g l) = Some (g c).
Proof.
  induction l as [|x l IH]; simpl; [discriminate|].
  destruct (p x) eqn:Hpx.
  - intros [= ->] Hg. simpl. rewrite Hg. reflexivity.
  - intros Hfind Hg. simpl. rewrite Hpx. apply IH; assumption.
Qed.

Lemma updateFirst_others (p : McpConnection -> bool) (g : McpConnection -> McpConnection)
    (l : list McpConnection) (c : McpConnection) :
  c ∈ l -> p c = false -> c ∈ updateFirst p g l.
Proof.
  induction l as [|x l IH]; simpl; intros Hin Hp; [inversion Hin|].
  apply elem_of_cons in Hin as [->|Hin].
  - rewrite Hp. apply list_elem_of_here.
  - destruct (p x); apply list_elem_of_further; [exact Hin | apply IH; assumption].
Qed.

Lemma map_updateFirst {B} (proj : McpConnection -> B) (p : McpConnection -> bool)
    (g : McpConnection -> McpConnection) (l : list McpConnection) :
  (forall c, proj (g c) = proj c) -> map proj (updateFirst p g l) = map proj l.
Proof.
  intros Hg. induction l as [|c l IH]; simpl; [reflexivity|].
  destruct (p c); simpl; [rewrite Hg | rewrite IH]; reflexivity.
Qed.

(** The shape shared by the two transport callbacks. *)
Lemma mark_then_notify (serverName : string) (src : Source) (f : McpServer -> McpServer)
    (notify : Outcome unit) (h : McpHub) :
  (forall s, name (f s) = name s /\ source (f s) = source s) ->
  let r := (mutateFound (matches serverName src) (with_server f) ;;
            notifyWebviewOfServerChanges notify) h in
  outcome r = match notify with Returned _ => Returned tt | Thrown e => Thrown e end /\
  final r = set_connections
              (updateFirst (matches serverName src) (with_server f) (connections h)) h /\
  map key (connections (final r)) = map key (connections h) /\
  map client (connections (final r)) = map client (connections h) /\
  map transport (connections (final r)) = map transport (connections h) /\
  match findConnection serverName (Some src) (connections h) with
  | Some c =>
      findConnection serverName (Some src) (connections (final r)) = Some (with_server f c)
  | None => connections (final r) = connections h
  end /\
  (forall c, c ∈ connections h -> matches serverName src c = false ->
     c ∈ connections (final r)).
Proof.
  intros Hf r. subst r. unfold mutateFound. rewrite bind_modifyHub.
  rewrite notifyWebviewOfServerChanges_run. cbn [outcome final connections set_connections].
  split; [reflexivity|]. split; [reflexivity|].
  split; [apply map_updateFirst; intros c; apply key_with_server, Hf|].
  split; [apply map_updateFirst; intros c; destruct c; reflexivity|].
  split; [apply map_updateFirst; intros c; destruct c; reflexivity|].
  split; [|intros c; apply updateFirst_others].
  unfold findConnection.
  destruct (find (matches serverName src) (connections h)) as [c|] eqn:Hfind.
  - apply find_updateFirst; [exact Hfind|].
    pose proof (find_spec (matches serverName src) (connections h)) as Hspec.
    rewrite Hfind in Hspec. destruct Hspec as [_ Hm].
    unfold matches in *. pose proof (key_with_server f c Hf) as Hkey.
    unfold key in Hkey. injection Hkey as -> ->. exact Hm.
  - apply updateFirst_none, Hfind.
Qed.

(** X11. The [onerror] and [onclose] callbacks of a transport never remove
    or add a connection: keys, clients and transport handles of the list are
    the same afterwards, and connections of another name or source are still
    listed.  The connection found under the callback's (name, source) is
    marked disconnected (and, on an error, gets the error as the newest
    entry of its history) while keeping its client and transport; when none
    is found the list is unchanged. *)
Theorem transport_callbacks_only_mark_their_entry
    (serverName : string) (src : Source) (e : Exn) (now : Z) (notify : Outcome unit)
    (h : McpHub) :
  let failed := onTransportError serverName src e now notify h in
  let closed := onTransportClose serverName src notify h in
  let entry := {| err_message := truncateError (exn_message e); err_timestamp := now;
                  err_level := LvlError |} in
  (map key (connections (final failed)) = map key (connections h) /\
   map client (connections (final failed)) = map client (connections h) /\
   map transport (connections (final failed)) = map transport (connections h) /\
   (forall c, c ∈ connections h -> matches serverName src c = false ->
      c ∈ connections (final failed)) /\
   match findConnection serverName (Some src) (connections h) with
   | Some c =>
       exists c', findConnection serverName (Some src) (connections (final failed)) = Some c' /\
                  status (server c') = StDisconnected /\
                  last (errorHistory (server c')) = Some entry /\
                  client c' = client c /\ transport c' = transport c
   | None => connections (final failed) = connections h
   end) /\
  (map key (connections (final closed)) = map key (connections h) /\
   map client (connections (final closed)) = map client (connections h) /\
   map transport (connections (final closed)) = map transport (connections h) /\
   (forall c, c ∈ connections h -> matches serverName src c = false ->
      c ∈ connections (final closed)) /\
   match findConnection serverName (Some src) (connections h) with
   | Some c =>
       findConnection serverName (Some src) (connections (final closed)) =
         Some (with_server (set_status StDisconnected) c)
   | None => connections (final closed) = connections h
   end).
Proof.
  intros failed closed entry. subst failed closed. unfold onTransportError, onTransportClose.
  split.
  - destruct (mark_then_notify serverName src
                (fun s => appendErrorMessage now (exn_message e) LvlError
                            (set_status StDisconnected s)) notify h)
      as (_ & _ & Hk & Hc & Ht & Hfind & Hothers); [intros s; split; reflexivity|].
    repeat (split; [assumption|]).
    destruct (findConnection serverName (Some src) (connections h)) as [c|]; [|exact Hfind].
    eexists. split; [exact Hfind|].
    pose proof (appendErrorMessage_last now (exn_message e) LvlError
                  (set_status StDisconnected (server c))) as Hlast.
    destruct c as [s cl t|s]; repeat split; try reflexivity; exact Hlast.
  - destruct (mark_then_notify serverName src (set_status StDisconnected) notify h)
      as (_ & _ & Hk & Hc & Ht & Hfind & Hothers); [intros s; split; reflexivity|].
    repeat (split; [assumption|]). exact Hfind.
Qed.

Lemma outcome_tryCatch_emit (m : Hub unit) (f : Exn -> Event) (h : McpHub) :
  outcome (tryCatch m (fun e => emit (f e)) h) = Returned tt.
Proof.
  unfold tryCatch. destruct (outcome (m h)) as [[]|e] eqn:Ho; [exact Ho | reflexivity].
Qed.

Section Restart.
Context `{Host}.

(** X12. As long as notifying the webview succeeds, [restartConnection]
    returns normally whatever happens to the reconnect (a stored
    configuration that does not parse or validate, a failing connect), and
    it leaves the [isConnecting] flag cleared.  With MCP switched off it does
    nothing but clear the flag. *)
Theorem restart_survives_a_failed_reconnect
    (env : RestartEnv) (serverName : string) (src : option Source) (h : McpHub) :
  re_notifyBefore env = Returned tt ->
  re_notifyAfter env = Returned tt ->
  let r := restartConnection env serverName src h in
  outcome r = Returned tt /\
  isConnecting (final r) = false /\
  (re_mcpEnabled env = false -> final r = set_isConnecting false h /\ effects r = []).
Proof.
  intros Hbefore Hafter r. subst r. unfold restartConnection.
  rewrite bind_modifyHub.
  destruct (re_mcpEnabled env); cbn [negb].
  2:{ unfold modifyHub. cbn [outcome final effects].
      repeat split; reflexivity. }
  rewrite bind_getHub. set (h0 := set_isConnecting true h).
  assert (Hend : forall (body : Hub unit),
            (forall h', outcome (body h') = Returned tt) ->
            outcome ((body ;; notifyWebviewOfServerChanges (re_notifyAfter env) ;;
                      modifyHub (set_isConnecting false)) h0) = Returned tt /\
            isConnecting (final ((body ;; notifyWebviewOfServerChanges (re_notifyAfter env) ;;
                                  modifyHub (set_isConnecting false)) h0)) = false).
  { intros body Hbody. rewrite (bind_returned _ _ _ _ (Hbody h0)).
    rewrite (bind_returned _ _ _ tt)
      by (rewrite notifyWebviewOfServerChanges_run, Hafter; reflexivity).
    split; reflexivity. }
  match goal with
  | |- outcome ((?body ;; _) h0) = _ /\ _ =>
      assert (Hbody : forall h', outcome (body h') = Returned tt);
        [|destruct (Hend body Hbody) as [Ho Hc];
          split; [exact Ho | split; [exact Hc | discriminate]]]
  end.
  intros h'.
  destruct (findConnection serverName src (connections h0)) as [connection|]; [|reflexivity].
  case_bool_decide; [reflexivity|].
  unfold mutateFound. rewrite bind_emit, bind_modifyHub. cbn [prepend outcome].
  rewrite (bind_returned _ _ _ tt)
    by (rewrite notifyWebviewOfServerChanges_run, Hbefore; reflexivity).
  cbn [prepend outcome]. rewrite bind_emit. cbn [prepend outcome].
  apply outcome_tryCatch_emit.
Qed.
End Restart.

(** ** Notifications and trackers *)

(** X13. A cancellation notification for a registered request logs it,
    aborts the request's controller once with the given reason and removes
    the entry, leaving every other pending request and the rest of the hub
    untouched; the same notification delivered again finds nothing, aborts
    nothing and changes nothing. *)
Theorem cancellation_aborts_a_registered_request_once
    (n : CancelledParams) (h : McpHub) (requestId : Key) (pending : PendingRequestData) :
  c_requestId n = Some requestId ->
  pendingRequests h !! requestId = Some pending ->
  let r := onCancelledNotification n h in
  let again := onCancelledNotification n (final r) in
  outcome r = Returned tt /\
  effects r = [LogCancellationReceived requestId (c_reason n);
               ControllerAbort (controller pending) (c_reason n)] /\
  final r = set_pendingRequests (delete requestId (pendingRequests h)) h /\
  (forall k, k <> requestId -> pendingRequests (final r) !! k = pendingRequests h !! k) /\
  pendingRequests (final r) !! requestId = None /\
  outcome again = Returned tt /\
  final again = final r /\
  effects again = [DebugIgnoringCancellation requestId].
Proof.
  intros Hid Hpending r again. subst again r. unfold onCancelledNotification.
  rewrite Hid, !bind_getHub, Hpending, !bind_emit, prepend_prepend.
  unfold modifyHub, prepend. cbn [outcome final effects app pendingRequests set_pendingRequests].
  rewrite lookup_delete_eq. cbn [emit outcome final effects].
  split; [reflexivity|]. split; [reflexivity|]. split; [reflexivity|].
  split; [intros k Hk; apply lookup_delete_ne; congruence|].
  repeat split; reflexivity.
Qed.

(** X14. Progress and task-status notifications never add or remove a
    tracker entry and touch nothing else in the hub: the set of active
    tokens, their owners and observers, and the set of tracked tasks with
    their owner, source, progress token and creation time are the same
    afterwards.  A progress notification for an unknown token does nothing
    at all; a status notification for an unknown task only logs. *)
Theorem notifications_create_no_tracker
    (provider : option (Outcome unit)) (now : Z) (p : ProgressParams) (s : TaskStatusParams)
    (h : McpHub) :
  let progressed := final (onProgressNotification provider p h) in
  let reported := final (onTaskStatusNotification provider now s h) in
  (progressed = set_activeProgressTokens (activeProgressTokens progressed) h /\
   (forall k, is_Some (activeProgressTokens progressed !! k) <->
              is_Some (activeProgressTokens h !! k)) /\
   (forall k, tok_serverName <$> activeProgressTokens progressed !! k =
              tok_serverName <$> activeProgressTokens h !! k) /\
   (forall k, tok_callback <$> activeProgressTokens progressed !! k =
              tok_callback <$> activeProgressTokens h !! k) /\
   (activeProgressTokens h !! p_progressToken p = None ->
    onProgressNotification provider p h = mkRun (Returned tt) h [])) /\
  (reported = set_activeTasks (activeTasks reported) h /\
   (forall k, is_Some (activeTasks reported !! k) <-> is_Some (activeTasks h !! k)) /\
   (forall k, task_serverName <$> activeTasks reported !! k =
              task_serverName <$> activeTasks h !! k) /\
   (forall k, task_source <$> activeTasks reported !! k =
              task_source <$> activeTasks h !! k) /\
   (forall k, task_progressToken <$> activeTasks reported !! k =
              task_progressToken <$> activeTasks h !! k) /\
   (forall k, createdAt <$> activeTasks reported !! k = createdAt <$> activeTasks h !! k) /\
   (activeTasks h !! ts_taskId s = None ->
    onTaskStatusNotification provider now s h =
      mkRun (Returned tt) h [DebugStatusForUnknownTask (ts_taskId s)])).
Proof.
  intros progressed reported. split.
  - subst progressed. unfold onProgressNotification. rewrite bind_getHub.
    destruct (activeProgressTokens h !! p_progressToken p) as [d|] eqn:Hd.
    + assert (Hfinal : final
                ((when (bool_decide (p_progress p < lastProgress d))
                    (emit (WarnNonMonotonicProgress (p_progressToken p) (p_progress p)
                             (lastProgress d))) ;;
                  modifyHub (fun h0 =>
                    set_activeProgressTokens
                      (<[p_progressToken p :=
                           {| tok_serverName := tok_serverName d;
                              tok_callback := tok_callback d;
                              lastProgress := p_progress p |}]> (activeProgressTokens h0)) h0) ;;
                  match tok_callback d with
                  | Some cb => emit (InvokeProgressCallback cb (p_progress p) (p_total p)
                                       (p_message p))
                  | None => ret tt
                  end ;;
                  postMessageToWebview provider
                    (MsgMcpProgress (tok_serverName d) (p_progressToken p) (p_progress p)
                       (p_total p) (p_message p))) h) =
              set_activeProgressTokens
                (<[p_progressToken p :=
                     {| tok_serverName := tok_serverName d; tok_callback := tok_callback d;
                        lastProgress := p_progress p |}]> (activeProgressTokens h)) h).
      { rewrite bind_when_emit, bind_modifyHub. cbn [prepend final].
        destruct (tok_callback d); destruct provider as [[[]|e]|]; reflexivity. }
      rewrite Hfinal. cbn [activeProgressTokens set_activeProgressTokens].
      split; [reflexivity|].
      split.
      { intros k. destruct (decide (k = p_progressToken p)) as [->|Hk].
        - rewrite lookup_insert_eq, Hd. split; eauto.
        - rewrite lookup_insert_ne by congruence. reflexivity. }
      split.
      { intros k. destruct (decide (k = p_progressToken p)) as [->|Hk].
        - rewrite lookup_insert_eq, Hd. reflexivity.
        - rewrite lookup_insert_ne by congruence. reflexivity. }
      split; [|discriminate].
      intros k. destruct (decide (k = p_progressToken p)) as [->|Hk].
      * rewrite lookup_insert_eq, Hd. reflexivity.
      * rewrite lookup_insert_ne by congruence. reflexivity.
    + cbn [ret final]. split; [destruct h; reflexivity|].
      repeat split; auto.
  - subst reported. unfold onTaskStatusNotification. rewrite bind_getHub.
    destruct (activeTasks h !! ts_taskId s) as [d|] eqn:Hd.
    + rewrite bind_modifyHub. cbn [prepend final].
      assert (Hpost : forall m hh, final (postMessageToWebview provider m hh) = hh).
      { intros m hh. destruct provider as [[[]|e]|]; reflexivity. }
      rewrite Hpost. cbn [activeTasks set_activeTasks].
      split; [reflexivity|].
      split.
      { intros k. destruct (decide (k = ts_taskId s)) as [->|Hk].
        - rewrite lookup_insert_eq, Hd. split; eauto.
        - rewrite lookup_insert_ne by congruence. reflexivity. }
      repeat (split;
        [intros k; destruct (decide (k = ts_taskId s)) as [->|Hk];
         [rewrite lookup_insert_eq, Hd; reflexivity
         |rewrite lookup_insert_ne by congruence; reflexivity]|]).
      discriminate.
    + cbn [emit final]. split; [destruct h; reflexivity|].
      repeat split; auto.
Qed.

(** X15. [registerCancellableRequest] returns the controller it files; a
    cancellation notification for the id then aborts exactly that
    controller and removes the entry.  After [unregisterRequest] the entry
    is gone as well, and a cancellation arriving late is ignored. *)
Theorem registered_request_is_cancellable_until_unregistered
    (ctrl : nat) (serverName : string) (requestId : Key) (reason : option string)
    (h : McpHub) :
  let n := {| c_requestId := Some requestId; c_reason := reason |} in
  let registering := registerCancellableRequest ctrl serverName requestId h in
  let cancelled := onCancelledNotification n (final registering) in
  let unregistered := unregisterRequest requestId (final registering) in
  let late := onCancelledNotification n (final unregistered) in
  outcome registering = Returned ctrl /\
  effects cancelled = [LogCancellationReceived requestId reason; ControllerAbort ctrl reason] /\
  final cancelled = set_pendingRequests (delete requestId (pendingRequests h)) h /\
  final unregistered = set_pendingRequests (delete requestId (pendingRequests h)) h /\
  effects late = [DebugIgnoringCancellation requestId] /\
  final late = final unregistered.
Proof.
  intros n registering cancelled unregistered late.
  subst late unregistered cancelled registering n.
  unfold registerCancellableRequest, unregisterRequest, onCancelledNotification,
    bind, modifyHub, getHub, emit, ret.
  cbn [outcome final effects c_requestId c_reason pendingRequests set_pendingRequests app].
  rewrite lookup_insert_eq. cbn [outcome final effects app controller].
  rewrite lookup_delete_eq. cbn [outcome final effects app pendingRequests set_pendingRequests].
  rewrite !delete_insert_eq.
  repeat split; reflexivity.
Qed.

(** X16. A token from [generateProgressToken] routes the next progress
    notification to the observer it was issued for, with the reported
    values, and records the reported progress; once [clearProgressToken] has
    run the token is gone and the same notification does nothing. *)
Theorem issued_token_reaches_its_observer_until_cleared
    (provider : option (Outcome unit)) (token serverName : string) (cb : nat)
    (progress : Z) (total : option Z) (message : option string) (h : McpHub) :
  let p := {| p_progressToken := KStr token; p_progress := progress; p_total := total;
              p_message := message |} in
  let issuing := generateProgressToken token serverName (Some cb) h in
  let notified := onProgressNotification provider p (final issuing) in
  let cleared := clearProgressToken (KStr token) (final issuing) in
  let late := onProgressNotification provider p (final cleared) in
  outcome issuing = Returned token /\
  observed cb (effects notified) = [(progress, total, message)] /\
  lastProgress <$> activeProgressTokens (final notified) !! KStr token = Some progress /\
  final cleared =
    set_activeProgressTokens (delete (KStr token) (activeProgressTokens h)) h /\
  late = mkRun (Returned tt) (final cleared) [].
Proof.
  intros p issuing notified cleared late.
  set (hi := set_activeProgressTokens
               (<[KStr token := {| tok_serverName := serverName; tok_callback := Some cb;
                                   lastProgress := 0 |}]> (activeProgressTokens h)) h).
  assert (Hissuing : issuing = mkRun (Returned token) hi []) by reflexivity.
  assert (Hcleared : cleared =
            mkRun (Returned tt)
              (set_activeProgressTokens (delete (KStr token) (activeProgressTokens h)) h) []).
  { subst cleared. rewrite Hissuing. unfold clearProgressToken, modifyHub. cbn [final].
    subst hi. cbn [activeProgressTokens set_activeProgressTokens].
    rewrite delete_insert_eq. reflexivity. }
  subst late notified. rewrite Hcleared, Hissuing. cbn [outcome final].
  split; [reflexivity|].
  unfold onProgressNotification. rewrite !bind_getHub.
  cbn [activeProgressTokens set_activeProgressTokens p_progressToken p_progress p_total
       p_message p].
  subst hi. cbn [activeProgressTokens set_activeProgressTokens].
  rewrite lookup_insert_eq, lookup_delete_eq.
  cbn [lastProgress tok_callback tok_serverName].
  rewrite bind_when_emit, bind_modifyHub, bind_emit.
  split.
  { unfold prepend. cbn [effects]. unfold observed. rewrite omap_app.
    destruct (bool_decide (progress < 0)); destruct provider as [[[]|e]|];
      cbn; rewrite bool_decide_eq_true_2 by reflexivity; reflexivity. }
  split.
  { unfold prepend. cbn [final].
    assert (Hpost : forall m hh, final (postMessageToWebview provider m hh) = hh).
    { intros m hh. destruct provider as [[[]|e]|]; reflexivity. }
    rewrite Hpost. cbn [activeProgressTokens set_activeProgressTokens].
    rewrite lookup_insert_eq. reflexivity. }
  split; reflexivity.
Qed.

(** ** Task calls and polling *)

(** X17. [callToolAsTask] with a progress observer, against a peer that
    supports tasks, sends one request carrying the token it issued.  If the
    peer creates a task, the token stays active for the observer, the task
    record refers to it, and a later successful [getTaskResult] removes the
    record and the token together.  If the peer answers with a plain result
    or the call fails, the token is released at once, no task is recorded,
    and the result is returned (the error rethrown). *)
Theorem progress_token_lives_as_long_as_its_task
    (env : CallEnv) (serverName toolName args : string) (options : CallOptions)
    (h : McpHub) (cl : Client) (cb : nat) :
  clientOf serverName (opt_source options) h = Some cl ->
  supportsTasks cl = true ->
  opt_progressCallback options = Some cb ->
  call_token env <> ""%string ->
  let tok := KStr (call_token env) in
  let r := callToolAsTask env serverName toolName args options h in
  effects r = [SendRequest (client_id cl)
                 (ReqCallToolAsTask toolName args (Some tok) (opt_ttl options))] /\
  match call_augmented env with
  | Returned (ReplyTask task) =>
      outcome r = Returned (ResTask (td_taskId task) (td_pollInterval task)) /\
      activeProgressTokens (final r) !! tok =
        Some {| tok_serverName := serverName; tok_callback := Some cb; lastProgress := 0 |} /\
      task_progressToken <$> activeTasks (final r) !! td_taskId task = Some (Some tok) /\
      forall payload,
        let g := getTaskResult (Returned payload) serverName (td_taskId task)
                   (opt_source options) (final r) in
        outcome g = Returned payload /\
        activeProgressTokens (final g) !! tok = None /\
        activeTasks (final g) !! td_taskId task = None
  | Returned (ReplyResult result) =>
      outcome r = Returned (ResResult result) /\
      activeProgressTokens (final r) = delete tok (activeProgressTokens h) /\
      activeTasks (final r) = activeTasks h
  | Thrown e =>
      outcome r = Thrown e /\
      activeProgressTokens (final r) = delete tok (activeProgressTokens h) /\
      activeTasks (final r) = activeTasks h
  end.
Proof.
  intros Hcl Hcaps Hcb Htoken tok r.
  assert (Htruthy : truthy tok = true).
  { subst tok. cbn [truthy]. rewrite bool_decide_eq_false_2 by exact Htoken. reflexivity. }
  subst r. unfold callToolAsTask. rewrite bind_getHub, Hcl, Hcaps. cbn [negb].
  rewrite Hcb.
  set (hi := set_activeProgressTokens
               (<[tok := {| tok_serverName := serverName; tok_callback := Some cb;
                            lastProgress := 0 |}]> (activeProgressTokens h)) h).
  assert (Hissue : (t <- generateProgressToken (call_token env) serverName (Some cb) ;;
                    ret (Some (KStr t))) h = mkRun (Returned (Some tok)) hi []) by reflexivity.
  rewrite (bind_returned _ _ _ (Some tok)) by (rewrite Hissue; reflexivity).
  rewrite Hissue. cbn [final effects]. rewrite prepend_nil. cbv zeta. rewrite Htruthy.
  cbn [when].
  destruct (call_augmented env) as [[task|result]|e].
  - unfold tryCatch, bind, emit, await, modifyHub, ret.
    cbn [outcome final effects app activeTasks set_activeTasks activeProgressTokens].
    split; [reflexivity|]. split; [reflexivity|].
    split; [subst hi; apply lookup_insert_eq|].
    split; [rewrite lookup_insert_eq; reflexivity|].
    intros payload.
    set (h' := set_activeTasks _ hi) in *.
    assert (Hcl' : clientOf serverName (opt_source options) h' = Some cl).
    { rewrite <- Hcl. reflexivity. }
    destruct (getTaskResult_run (Returned payload) serverName (td_taskId task)
                (opt_source options) h' cl payload Hcl' eq_refl) as (Ho & _ & Hgone & Hrel).
    split; [exact Ho|]. split; [|exact Hgone].
    eapply Hrel; [subst h'; apply lookup_insert_eq | reflexivity | exact Htruthy].
  - unfold tryCatch, bind, emit, await, clearProgressToken, modifyHub, ret.
    cbn [outcome final effects app activeTasks set_activeTasks activeProgressTokens
         set_activeProgressTokens].
    subst hi. cbn [activeProgressTokens set_activeProgressTokens activeTasks].
    rewrite delete_insert_eq. repeat split; reflexivity.
  - unfold tryCatch, bind, emit, await, clearProgressToken, modifyHub, ret, throw.
    cbn [outcome final effects app activeTasks set_activeTasks activeProgressTokens
         set_activeProgressTokens].
    subst hi. cbn [activeProgressTokens set_activeProgressTokens activeTasks].
    rewrite delete_insert_eq. repeat split; reflexivity.
Qed.

(** X18. When no connection is found for the server, or the one found is
    a disconnected placeholder, every task operation ([callToolAsTask],
    [getTask], [getTaskResult], [cancelTask], [listTasks] and the first turn
    of [pollTaskUntilComplete]) throws "Server ... not connected" without
    sending anything and without touching the hub. *)
Theorem task_operations_need_a_client
    (serverName : string) (src : option Source) (h : McpHub) :
  clientOf serverName src h = None ->
  let refused {A} : Run A :=
    mkRun (Thrown (McpError InternalError ("Server " +:+ serverName +:+ " not connected")))
          h [] in
  (forall env toolName args ttl cb,
     callToolAsTask env serverName toolName args
       {| opt_source := src; opt_ttl := ttl; opt_progressCallback := cb |} h = refused) /\
  (forall env taskId, getTask env serverName taskId src h = refused) /\
  (forall reply taskId, getTaskResult reply serverName taskId src h = refused) /\
  (forall env taskId, cancelTask env serverName taskId src h = refused) /\
  (forall reply cursor, listTasks reply serverName src cursor h = refused) /\
  (forall startTime resultReply step rest taskId timeoutMs onStatusChange,
     ps_clock step - startTime <= default 300000 timeoutMs ->
     pollTaskUntilComplete startTime resultReply (step :: rest) serverName taskId
       {| po_source := src; po_timeoutMs := timeoutMs; po_onStatusChange := onStatusChange |} h
     = refused).
Proof.
  intros Hcl refused. subst refused.
  repeat split; intros.
  - unfold callToolAsTask. rewrite bind_getHub. cbn [opt_source]. rewrite Hcl. reflexivity.
  - apply getTask_not_connected, Hcl.
  - unfold getTaskResult. rewrite bind_getHub, Hcl. reflexivity.
  - unfold cancelTask. rewrite bind_getHub, Hcl. reflexivity.
  - unfold listTasks. rewrite bind_getHub, Hcl. reflexivity.
  - unfold pollTaskUntilComplete. cbn [pollLoop po_timeoutMs po_source].
    rewrite bool_decide_eq_false_2 by lia.
    rewrite (bind_thrown _ _ _ (McpError InternalError
                                  ("Server " +:+ serverName +:+ " not connected")))
      by (rewrite getTask_not_connected by exact Hcl; reflexivity).
    rewrite getTask_not_connected by exact Hcl. reflexivity.
Qed.

(** X19. After any number of quiet turns, [pollTaskUntilComplete] ends
    with an error when the clock has passed the timeout (checked before the
    peer is asked), when the peer's answer carries no task ("not found"),
    or when [tasks/get] itself fails (the error is rethrown).  In each of
    these cases no result is requested, and the task record and the progress
    tokens are left in place. *)
Theorem polling_that_gives_up_cleans_nothing
    (serverName taskId : string) (options : PollOptions) (startTime : Z)
    (resultReply : Outcome string) (pre post : list PollStep) (step : PollStep)
    (h : McpHub) (cl : Client) :
  clientOf serverName (po_source options) h = Some cl ->
  Forall (quietStep startTime options) pre ->
  let timeoutMs := default 300000 (po_timeoutMs options) in
  let r := pollTaskUntilComplete startTime resultReply (pre ++ step :: post)
             serverName taskId options h in
  (if bool_decide (ps_clock step - startTime > timeoutMs)
   then outcome r = Thrown (McpError InternalError
                              ("Task " +:+ taskId +:+ " timed out after "
                                 +:+ pretty timeoutMs +:+ "ms"))
   else match te_reply (ps_get step) with
        | Returned None =>
            outcome r = Thrown (McpError InternalError ("Task " +:+ taskId +:+ " not found"))
        | Thrown e => outcome r = Thrown e
        | Returned (Some _) => True
        end) /\
  (ps_clock step - startTime > timeoutMs \/
   te_reply (ps_get step) = Returned None \/
   (exists e, te_reply (ps_get step) = Thrown e) ->
   resultRequests taskId (effects r) = 0%nat /\
   activeProgressTokens (final r) = activeProgressTokens h /\
   (is_Some (activeTasks h !! taskId) -> is_Some (activeTasks (final r) !! taskId))).
Proof.
  intros Hcl Hquiet timeoutMs r. subst r. unfold pollTaskUntilComplete.
  destruct (pollLoop_quiet_prefix serverName taskId options startTime resultReply
              pre (step :: post) h cl Hcl Hquiet)
    as (h1 & evs & Hconn1 & Htok1 & Hptok1 & Hcount & ->).
  assert (Hcl1 : clientOf serverName (po_source options) h1 = Some cl).
  { rewrite (clientOf_connections _ _ _ _ Hconn1). exact Hcl. }
  assert (Hkeep1 : is_Some (activeTasks h !! taskId) -> is_Some (activeTasks h1 !! taskId)).
  { intros [td Htd]. rewrite Htd in Hptok1.
    destruct (activeTasks h1 !! taskId); [eauto | discriminate]. }
  cbn [pollLoop]. fold timeoutMs.
  destruct (getTask_run (ps_get step) serverName taskId (po_source options) h1 cl Hcl1)
    as (Hout & Heff & _ & Htok2 & _ & Hptok2 & _).
  assert (Hkeep2 : is_Some (activeTasks h1 !! taskId) ->
            is_Some (activeTasks
                       (final (getTask (ps_get step) serverName taskId (po_source options) h1))
                     !! taskId)).
  { intros [td Htd]. rewrite Htd in Hptok2.
    destruct (activeTasks (final (getTask (ps_get step) serverName taskId
                                    (po_source options) h1)) !! taskId);
      [eauto | discriminate]. }
  case_bool_decide as Hclock.
  - cbn [prepend throw outcome final effects]. split; [reflexivity|].
    intros _. rewrite app_nil_r. split; [exact Hcount|]. split; [exact Htok1 | exact Hkeep1].
  - destruct (te_reply (ps_get step)) as [[t|]|e] eqn:Hreply.
    + split; [exact I|]. intros [Hc|[Hn|[e He]]]; [lia | discriminate | discriminate].
    + rewrite (bind_returned _ _ _ _ Hout), Heff.
      cbn [prepend throw outcome final effects]. split; [reflexivity|].
      intros _. rewrite resultRequests_app, Hcount.
      split; [reflexivity|]. split; [congruence | auto].
    + rewrite (bind_thrown _ _ _ _ Hout), Heff.
      cbn [prepend throw outcome final effects]. split; [reflexivity|].
      intros _. rewrite resultRequests_app, Hcount.
      split; [reflexivity|]. split; [congruence | auto].
Qed.

(** ** Requests to a connected server *)

Lemma prependW_nil {A} (r : RunW A) : prependW [] r = r.
Proof. destruct r. reflexivity. Qed.

Lemma prependW_prependW {A} (xs ys : list Action) (r : RunW A) :
  prependW xs (prependW ys r) = prependW (xs ++ ys) r.
Proof. unfold prependW. cbn [outcomeW finalW actions]. rewrite app_assoc. reflexivity. Qed.

Lemma bindW_run {A B} (m : HubW A) (k : A -> HubW B) (h h' : McpHub) (a : A)
    (acts : list Action) :
  m h = mkRunW (Returned a) h' acts -> bindW m k h = prependW acts (k a h').
Proof. intros Hm. unfold bindW, prependW. rewrite Hm. reflexivity. Qed.

Lemma bindW_act {B} (a : Action) (k : unit -> HubW B) (h : McpHub) :
  bindW (act a) k h = prependW [a] (k tt h).
Proof. reflexivity. Qed.

Lemma bindW_retW {A B} (a : A) (k : A -> HubW B) (h : McpHub) :
  bindW (retW a) k h = k a h.
Proof. unfold bindW, retW. cbn [outcomeW finalW actions app]. destruct (k a h). reflexivity. Qed.

Lemma bindW_getHubW {B} (k : McpHub -> HubW B) (h : McpHub) :
  bindW getHubW k h = k h h.
Proof. unfold bindW, getHubW. cbn [outcomeW finalW actions app]. destruct (k h h). reflexivity. Qed.

Lemma bindW_modifyHubW {B} (f : McpHub -> McpHub) (k : unit -> HubW B) (h : McpHub) :
  bindW (modifyHubW f) k h = k tt (f h).
Proof.
  unfold bindW, modifyHubW. cbn [outcomeW finalW actions app]. destruct (k tt (f h)).
  reflexivity.
Qed.

Lemma bindW_awaitW_returned {A B} (a : A) (k : A -> HubW B) (h : McpHub) :
  bindW (awaitW (Returned a)) k h = k a h.
Proof. unfold bindW, awaitW. cbn [outcomeW finalW actions app]. destruct (k a h). reflexivity. Qed.

Lemma bindW_awaitW_thrown {A B} (e : Exn) (k : A -> HubW B) (h : McpHub) :
  bindW (awaitW (Thrown e)) k h = mkRunW (Thrown e) h [].
Proof. reflexivity. Qed.

Lemma bindW_throwW {A B} (e : Exn) (k : A -> HubW B) (h : McpHub) :
  bindW (throwW e) k h = mkRunW (Thrown e) h [].
Proof. reflexivity. Qed.

Lemma tryCatchW_returned {A} (m : HubW A) (handler : Exn -> HubW A) (h h' : McpHub) (a : A)
    (acts : list Action) :
  m h = mkRunW (Returned a) h' acts -> tryCatchW m handler h = mkRunW (Returned a) h' acts.
Proof. intros Hm. unfold tryCatchW. rewrite Hm. reflexivity. Qed.

Lemma tryCatchW_thrown {A} (m : HubW A) (handler : Exn -> HubW A) (h h' : McpHub) (e : Exn)
    (acts : list Action) :
  m h = mkRunW (Thrown e) h' acts -> tryCatchW m handler h = prependW acts (handler e h').
Proof. intros Hm. unfold tryCatchW, prependW. rewrite Hm. reflexivity. Qed.

Lemma liftW_run {A} (m : Hub A) (h : McpHub) :
  liftW m h = mkRunW (outcome (m h)) (final (m h)) (map Did (effects (m h))).
Proof. reflexivity. Qed.

Lemma connectedClient_run (serverName : string) (src : option Source)
    (hint disabledText : string) (h : McpHub) :
  connectedClient serverName src hint disabledText h =
    match findConnection serverName src (connections h) with
    | Some (Connected s cl _) =>
        if disabled s
        then mkRunW (Thrown (OtherError ("Server " +:+ quoted serverName +:+ disabledText))) h []
        else mkRunW (Returned cl) h []
    | Some (Disconnected _) | None =>
        mkRunW (Thrown (OtherError (noConnectionFound serverName src +:+ hint))) h []
    end.
Proof.
  unfold connectedClient, bindW, getHubW. cbn [outcomeW finalW actions app].
  destruct (findConnection serverName src (connections h)) as [[s cl t|s]|]; try reflexivity.
  destruct (disabled s); reflexivity.
Qed.

Lemma connectedClient_usable (serverName : string) (src : option Source)
    (hint disabledText : string) (h : McpHub) :
  match usableClient serverName src h with
  | Some cl => connectedClient serverName src hint disabledText h = mkRunW (Returned cl) h []
  | None => exists e, connectedClient serverName src hint disabledText h = mkRunW (Thrown e) h []
  end.
Proof.
  rewrite connectedClient_run. unfold usableClient.
  destruct (findConnection serverName src (connections h)) as [[s cl t|s]|]; eauto.
  destruct (disabled s); eauto.
Qed.

Lemma bindW_returned {A B} (m : HubW A) (k : A -> HubW B) (h h' : McpHub) (a : A)
    (acts : list Action) :
  m h = mkRunW (Returned a) h' acts ->
  bindW m k h = mkRunW (outcomeW (k a h')) (finalW (k a h')) (acts ++ actions (k a h')).
Proof. intros Hm. unfold bindW. rewrite Hm. reflexivity. Qed.

Lemma bindW_thrown {A B} (m : HubW A) (k : A -> HubW B) (h h' : McpHub) (e : Exn)
    (acts : list Action) :
  m h = mkRunW (Thrown e) h' acts -> bindW m k h = mkRunW (Thrown e) h' acts.
Proof. intros Hm. unfold bindW. rewrite Hm. reflexivity. Qed.

Lemma request_run {A} (reply : Outcome A) (serverName : string) (src : option Source)
    (m : Method) (h : McpHub) :
  match usableClient serverName src h with
  | Some cl => request reply serverName src m h = mkRunW reply h [Request (client_id cl) m]
  | None => exists e, request reply serverName src m h = mkRunW (Thrown e) h []
  end.
Proof.
  pose proof (connectedClient_usable serverName src EmptyString " is disabled" h) as Hc.
  unfold request. destruct (usableClient serverName src h) as [cl|].
  - rewrite (bindW_returned _ _ _ _ _ _ Hc). unfold bindW, act, awaitW.
    cbn [outcomeW finalW actions app]. destruct reply; reflexivity.
  - destruct Hc as [e He]. exists e. apply (bindW_thrown _ _ _ _ _ _ He).
Qed.

Lemma callTool_run (parsed : Outcome (option Z)) (reply : Outcome string)
    (serverName toolName : string) (toolArguments : option string) (src : option Source)
    (h : McpHub) :
  match usableClient serverName src h with
  | Some cl =>
      callTool parsed reply serverName toolName toolArguments src h =
        mkRunW reply h
          (match parsed with
           | Returned _ => []
           | Thrown e => [Print ConsoleError "Failed to parse server config for timeout:" (Some e)]
           end ++
           [Request (client_id cl)
              (ToolsCall toolName toolArguments
                 (match parsed with
                  | Returned (Some seconds) => seconds * 1000
                  | Returned None | Thrown _ => 60000
                  end))])
  | None =>
      exists e, callTool parsed reply serverName toolName toolArguments src h
                = mkRunW (Thrown e) h []
  end.
Proof.
  pose proof (connectedClient_usable serverName src
                ". Please make sure to use MCP servers available under 'Connected MCP Servers'."
                " is disabled and cannot be used" h) as Hc.
  unfold callTool. destruct (usableClient serverName src h) as [cl|].
  - rewrite (bindW_returned _ _ _ _ _ _ Hc).
    unfold bindW, tryCatchW, act, awaitW, retW. cbn [outcomeW finalW actions app].
    destruct parsed as [[seconds|]|e]; cbn [outcomeW finalW actions app default];
      destruct reply; reflexivity.
  - destruct Hc as [e He]. exists e. apply (bindW_thrown _ _ _ _ _ _ He).
Qed.

(** X20. The request methods ([readResource], [getPrompt],
    [setLoggingLevel], [complete], [ping], [callTool]) write to at most one
    client, that of the connection [findConnection] answers with, and only
    when that connection is connected and its server is not disabled;
    otherwise they throw without contacting anyone.  None of them changes
    the hub.  [callTool] sends the call with the timeout of the stored
    configuration in milliseconds, 60 seconds when the configuration names
    none or does not parse. *)
Theorem requests_reach_only_enabled_connected_servers
    (serverName : string) (src : option Source) (h : McpHub) :
  let reached (acts : list Action) :=
    contacted acts = match usableClient serverName src h with
                     | Some cl => [client_id cl]
                     | None => []
                     end in
  (forall A (reply : Outcome A) m,
     let r := request reply serverName src m h in
     reached (actions r) /\ finalW r = h /\
     (usableClient serverName src h = None -> exists e, outcomeW r = Thrown e)) /\
  (forall reply uri, reached (actions (readResource reply serverName uri src h))) /\
  (forall reply promptName promptArguments,
     reached (actions (getPrompt reply serverName promptName promptArguments src h))) /\
  (forall reply level, reached (actions (setLoggingLevel reply serverName level src h))) /\
  (forall reply ref argument context,
     reached (actions (complete reply serverName ref argument context src h))) /\
  (forall reply, reached (actions (ping reply serverName src h))) /\
  (forall parsed reply toolName toolArguments,
     let r := callTool parsed reply serverName toolName toolArguments src h in
     reached (actions r) /\ finalW r = h /\
     (usableClient serverName src h = None -> exists e, outcomeW r = Thrown e) /\
     (forall cl, usableClient serverName src h = Some cl ->
        outcomeW r = reply /\
        Request (client_id cl)
          (ToolsCall toolName toolArguments
             (match parsed with
              | Returned (Some seconds) => seconds * 1000
              | Returned None | Thrown _ => 60000
              end)) ∈ actions r)).
Proof.
  intros reached.
  assert (Hreq : forall A (reply : Outcome A) m,
            let r := request reply serverName src m h in
            reached (actions r) /\ finalW r = h /\
            (usableClient serverName src h = None -> exists e, outcomeW r = Thrown e)).
  { intros A reply m r. subst r reached. cbv beta.
    pose proof (request_run reply serverName src m h) as Hrun.
    destruct (usableClient serverName src h) as [cl|].
    - rewrite Hrun. repeat split; try reflexivity. discriminate.
    - destruct Hrun as [e ->]. repeat split; try reflexivity. eauto. }
  split; [exact Hreq|].
  unfold readResource, getPrompt, setLoggingLevel, complete, ping.
  do 5 (split; [intros; eapply proj1; apply Hreq|]).
  intros parsed reply toolName toolArguments. subst reached. cbv beta.
  pose proof (callTool_run parsed reply serverName toolName toolArguments src h) as Hrun.
  destruct (usableClient serverName src h) as [cl|].
  - rewrite Hrun. cbn [actions finalW outcomeW].
    split; [destruct parsed as [[seconds|]|e]; reflexivity|].
    split; [reflexivity|]. split; [discriminate|].
    intros cl' [= <-]. split; [reflexivity|].
    apply elem_of_app. right. apply list_elem_of_here.
  - destruct Hrun as [e ->]. repeat split; try reflexivity; [eauto|discriminate|discriminate].
Qed.

(** ** Resource subscriptions *)

Lemma subscribeToResource_run (reply : Outcome unit) (serverName uri : string)
    (src : option Source) (h : McpHub) :
  let k := serverKey serverName src in
  let added := set_resourceSubscriptions
                 (<[k := setAdd uri (default [] (resourceSubscriptions h !! k))]>
                    (resourceSubscriptions h)) h in
  match usableClient serverName src h with
  | Some cl =>
      if supportsSubscribe cl then
        subscribeToResource reply serverName uri src h =
          match reply with
          | Returned _ =>
              mkRunW (Returned tt) added
                [Request (client_id cl) (ResourcesSubscribe uri);
                 Print ConsoleLog
                   ("[McpHub] Subscribed to resource " +:+ uri +:+ " on server " +:+ serverName)
                   None]
          | Thrown e => mkRunW (Thrown e) h [Request (client_id cl) (ResourcesSubscribe uri)]
          end
      else exists e, subscribeToResource reply serverName uri src h = mkRunW (Thrown e) h []
  | None => exists e, subscribeToResource reply serverName uri src h = mkRunW (Thrown e) h []
  end.
Proof.
  intros k added.
  pose proof (connectedClient_usable serverName src EmptyString " is disabled" h) as Hc.
  unfold subscribeToResource. destruct (usableClient serverName src h) as [cl|].
  - rewrite (bindW_returned _ _ _ _ _ _ Hc).
    destruct (supportsSubscribe cl); cbn [negb].
    + unfold bindW, act, awaitW, modifyHubW. cbn [outcomeW finalW actions app].
      destruct reply as [[]|e]; reflexivity.
    + eexists. reflexivity.
  - destruct Hc as [e He]. exists e. apply (bindW_thrown _ _ _ _ _ _ He).
Qed.

Lemma unsubscribeFromResource_run (reply : Outcome unit) (serverName uri : string)
    (src : option Source) (h : McpHub) :
  let k := serverKey serverName src in
  let removed :=
    match resourceSubscriptions h !! k with
    | Some subscriptions =>
        match setDelete uri subscriptions with
        | [] => set_resourceSubscriptions (delete k (resourceSubscriptions h)) h
        | remaining =>
            set_resourceSubscriptions (<[k := remaining]> (resourceSubscriptions h)) h
        end
    | None => h
    end in
  match usableClient serverName src h with
  | Some cl =>
      unsubscribeFromResource reply serverName uri src h =
        match reply with
        | Returned _ =>
            mkRunW (Returned tt) removed
              [Request (client_id cl) (ResourcesUnsubscribe uri);
               Print ConsoleLog
                 ("[McpHub] Unsubscribed from resource " +:+ uri +:+ " on server "
                    +:+ serverName) None]
        | Thrown e => mkRunW (Thrown e) h [Request (client_id cl) (ResourcesUnsubscribe uri)]
        end
  | None => exists e, unsubscribeFromResource reply serverName uri src h = mkRunW (Thrown e) h []
  end.
Proof.
  intros k removed.
  pose proof (connectedClient_usable serverName src EmptyString " is disabled" h) as Hc.
  unfold unsubscribeFromResource. destruct (usableClient serverName src h) as [cl|].
  - rewrite (bindW_returned _ _ _ _ _ _ Hc).
    unfold bindW, act, awaitW, modifyHubW. cbn [outcomeW finalW actions app].
    destruct reply as [[]|e]; reflexivity.
  - destruct Hc as [e He]. exists e. apply (bindW_thrown _ _ _ _ _ _ He).
Qed.

Lemma elem_of_setAdd (x y : string) (xs : list string) :
  y ∈ setAdd x xs <-> y = x \/ y ∈ xs.
Proof.
  unfold setAdd. case_bool_decide as Hin.
  - split; [auto|]. intros [->|Hy]; assumption.
  - rewrite elem_of_app, list_elem_of_singleton. tauto.
Qed.

Lemma NoDup_setAdd (x : string) (xs : list string) : NoDup xs -> NoDup (setAdd x xs).
Proof.
  intros Hnd. unfold setAdd. case_bool_decide as Hin; [exact Hnd|].
  apply NoDup_app. split; [exact Hnd|]. split; [|apply NoDup_singleton].
  intros y Hy Hy'. apply list_elem_of_singleton in Hy' as ->. exact (Hin Hy).
Qed.

Lemma setAdd_nonempty (x : string) (xs : list string) : setAdd x xs <> [].
Proof.
  unfold setAdd. case_bool_decide as Hin.
  - intros ->. inversion Hin.
  - destruct xs; discriminate.
Qed.

Lemma elem_of_setDelete (x y : string) (xs : list string) :
  y ∈ setDelete x xs <-> y <> x /\ y ∈ xs.
Proof.
  unfold setDelete. rewrite !list_elem_of_In, filter_In, negb_true_iff.
  rewrite bool_decide_eq_false. tauto.
Qed.

Lemma NoDup_setDelete (x : string) (xs : list string) : NoDup xs -> NoDup (setDelete x xs).
Proof.
  unfold setDelete. induction xs as [|y xs IH]; simpl; intros Hnd; [exact Hnd|].
  apply NoDup_cons in Hnd as [Hy Hnd].
  destruct (negb (bool_decide (y = x))); [|auto].
  apply NoDup_cons. split; [|auto].
  intros Hin. apply Hy. apply list_elem_of_In, filter_In in Hin as [Hin _].
  apply list_elem_of_In, Hin.
Qed.

Lemma tidy_subscribe (reply : Outcome unit) (serverName uri : string) (src : option Source)
    (h : McpHub) :
  subscriptionsTidy h ->
  subscriptionsTidy (finalW (subscribeToResource reply serverName uri src h)).
Proof.
  intros Htidy.
  pose proof (subscribeToResource_run reply serverName uri src h) as Hrun. cbv zeta in Hrun.
  destruct (usableClient serverName src h) as [cl|].
  - destruct (supportsSubscribe cl).
    + rewrite Hrun. destruct reply as [[]|e]; [|exact Htidy].
      cbn [finalW]. intros k uris. cbn [resourceSubscriptions set_resourceSubscriptions].
      destruct (decide (k = serverKey serverName src)) as [->|Hk].
      * rewrite lookup_insert_eq. intros [= <-]. split; [apply setAdd_nonempty|].
        apply NoDup_setAdd.
        destruct (resourceSubscriptions h !! serverKey serverName src) as [uris|] eqn:Hu;
          [apply (Htidy _ _ Hu) | apply NoDup_nil_2].
      * rewrite lookup_insert_ne by congruence. apply Htidy.
    + destruct Hrun as [e ->]. exact Htidy.
  - destruct Hrun as [e ->]. exact Htidy.
Qed.

Lemma tidy_unsubscribe (reply : Outcome unit) (serverName uri : string) (src : option Source)
    (h : McpHub) :
  subscriptionsTidy h ->
  subscriptionsTidy (finalW (unsubscribeFromResource reply serverName uri src h)).
Proof.
  intros Htidy.
  pose proof (unsubscribeFromResource_run reply serverName uri src h) as Hrun.
  cbv zeta in Hrun.
  destruct (usableClient serverName src h) as [cl|]; [|destruct Hrun as [e ->]; exact Htidy].
  rewrite Hrun. destruct reply as [[]|e]; [|exact Htidy]. cbn [finalW].
  destruct (resourceSubscriptions h !! serverKey serverName src) as [uris|] eqn:Hu;
    [|exact Htidy].
  destruct (setDelete uri uris) as [|u us] eqn:Hdel.
  - intros k uris'. cbn [resourceSubscriptions set_resourceSubscriptions].
    destruct (decide (k = serverKey serverName src)) as [->|Hk].
    + rewrite lookup_delete_eq. discriminate.
    + rewrite lookup_delete_ne by congruence. apply Htidy.
  - intros k uris'. cbn [resourceSubscriptions set_resourceSubscriptions].
    destruct (decide (k = serverKey serverName src)) as [->|Hk].
    + rewrite lookup_insert_eq. intros [= <-]. split; [discriminate|].
      rewrite <- Hdel. apply NoDup_setDelete, (Htidy _ _ Hu).
    + rewrite lookup_insert_ne by congruence. apply Htidy.
Qed.

(** X21. From a fresh hub, after every sequence of [subscribeToResource]
    and [unsubscribeFromResource] calls, whatever the peers answer, each
    stored set of subscribed resources is free of duplicates and no empty
    set is kept. *)
Theorem subscriptions_stay_tidy (ops : list SubscriptionOp) :
  subscriptionsTidy (finalW (forEachW ops runSubscriptionOp newHub)).
Proof.
  assert (Hstep : forall op h, subscriptionsTidy h ->
                    subscriptionsTidy (finalW (runSubscriptionOp op h)) /\
                    outcomeW (runSubscriptionOp op h) = Returned tt).
  { intros op h Htidy. destruct op as [reply n uri src|reply n uri src];
      cbn [runSubscriptionOp]; unfold tryCatchW.
    - pose proof (tidy_subscribe reply n uri src h Htidy) as Hs.
      destruct (outcomeW (subscribeToResource reply n uri src h)) as [[]|e] eqn:Ho;
        cbn [finalW outcomeW retW]; auto.
    - pose proof (tidy_unsubscribe reply n uri src h Htidy) as Hs.
      destruct (outcomeW (unsubscribeFromResource reply n uri src h)) as [[]|e] eqn:Ho;
        cbn [finalW outcomeW retW]; auto. }
  assert (Hall : forall h, subscriptionsTidy h ->
                   subscriptionsTidy (finalW (forEachW ops runSubscriptionOp h))).
  { induction ops as [|op ops IH]; intros h Htidy; cbn [forEachW].
    - exact Htidy.
    - destruct (Hstep op h Htidy) as [Ht Ho]. unfold bindW. rewrite Ho. cbn [finalW].
      apply IH, Ht. }
  apply Hall. intros k uris Hk. cbn in Hk. rewrite lookup_empty in Hk. discriminate.
Qed.

Lemma serverKey_source (serverName : string) (src src' : option Source) :
  default Global src <> default Global src' ->
  serverKey serverName src <> serverKey serverName src'.
Proof.
  intros Hne Heq. apply Hne. unfold serverKey in Heq.
  induction serverName as [|a n IH]; simpl in Heq.
  - destruct (default Global src), (default Global src'); simpl in Heq;
      try reflexivity; discriminate.
  - injection Heq as Heq. exact (IH Heq).
Qed.

(** X22. Against a usable server that supports subscriptions, a
    successful [subscribeToResource] adds the URI to the resources
    [getSubscribedResources] lists for the same name and source, and nothing
    else; subscribing again changes nothing; a subscription the peer refuses
    leaves the hub as it was; a successful [unsubscribeFromResource] removes
    the URI and nothing else.  Subscriptions made without a source are
    listed under the global source, never under the project source. *)
Theorem subscribing_and_unsubscribing_round_trip
    (serverName uri : string) (src : option Source) (h : McpHub) (cl : Client) :
  usableClient serverName src h = Some cl ->
  supportsSubscribe cl = true ->
  let subscribed := finalW (subscribeToResource (Returned tt) serverName uri src h) in
  let again := finalW (subscribeToResource (Returned tt) serverName uri src subscribed) in
  let refused := subscribeToResource (Thrown (OtherError "refused")) serverName uri src h in
  let unsubscribed := finalW (unsubscribeFromResource (Returned tt) serverName uri src subscribed) in
  uri ∈ getSubscribedResources serverName src subscribed /\
  (forall u, u ∈ getSubscribedResources serverName src subscribed <->
             u = uri \/ u ∈ getSubscribedResources serverName src h) /\
  again = subscribed /\
  finalW refused = h /\
  (uri ∉ getSubscribedResources serverName src unsubscribed) /\
  (forall u, u ∈ getSubscribedResources serverName src unsubscribed <->
             u <> uri /\ u ∈ getSubscribedResources serverName src h) /\
  getSubscribedResources serverName None subscribed =
    getSubscribedResources serverName (Some Global) subscribed /\
  (src = None ->
   getSubscribedResources serverName (Some Project) subscribed =
     getSubscribedResources serverName (Some Project) h).
Proof.
  intros Hcl Hsub subscribed again refused unsubscribed.
  pose proof (subscribeToResource_run (Returned tt) serverName uri src h) as Hrun.
  cbv zeta in Hrun. rewrite Hcl, Hsub in Hrun.
  set (k := serverKey serverName src) in *.
  set (old := default [] (resourceSubscriptions h !! k)) in *.
  assert (Hsubscribed : subscribed =
            set_resourceSubscriptions (<[k := setAdd uri old]> (resourceSubscriptions h)) h).
  { subst subscribed. rewrite Hrun. reflexivity. }
  assert (Hcl' : usableClient serverName src subscribed = Some cl).
  { rewrite Hsubscribed. exact Hcl. }
  assert (Hget : getSubscribedResources serverName src subscribed = setAdd uri old).
  { rewrite Hsubscribed. unfold getSubscribedResources. fold k.
    cbn [resourceSubscriptions set_resourceSubscriptions]. rewrite lookup_insert_eq.
    reflexivity. }
  assert (Hold : getSubscribedResources serverName src h = old) by reflexivity.
  split; [rewrite Hget; apply elem_of_setAdd; auto|].
  split; [intros u; rewrite Hget, Hold; apply elem_of_setAdd|].
  split.
  { subst again.
    pose proof (subscribeToResource_run (Returned tt) serverName uri src subscribed) as Hrun2.
    cbv zeta in Hrun2. rewrite Hcl', Hsub in Hrun2. rewrite Hrun2. cbn [finalW]. fold k.
    change (default [] (resourceSubscriptions subscribed !! k))
      with (getSubscribedResources serverName src subscribed).
    rewrite Hget.
    assert (Hsame : setAdd uri (setAdd uri old) = setAdd uri old).
    { unfold setAdd at 1.
      rewrite bool_decide_eq_true_2 by (apply elem_of_setAdd; auto). reflexivity. }
    rewrite Hsame, Hsubscribed. cbn [resourceSubscriptions set_resourceSubscriptions].
    rewrite insert_insert_eq. reflexivity. }
  split.
  { subst refused.
    pose proof (subscribeToResource_run (Thrown (OtherError "refused")) serverName uri src h)
      as Hrun3.
    cbv zeta in Hrun3. rewrite Hcl, Hsub in Hrun3. rewrite Hrun3. reflexivity. }
  assert (Hunsub : getSubscribedResources serverName src unsubscribed
                   = setDelete uri (setAdd uri old)).
  { subst unsubscribed.
    pose proof (unsubscribeFromResource_run (Returned tt) serverName uri src subscribed)
      as Hrun4.
    cbv zeta in Hrun4. rewrite Hcl' in Hrun4. rewrite Hrun4. cbn [finalW]. fold k.
    rewrite Hsubscribed. cbn [resourceSubscriptions set_resourceSubscriptions].
    rewrite lookup_insert_eq. unfold getSubscribedResources. fold k.
    destruct (setDelete uri (setAdd uri old)) as [|u us];
      cbn [resourceSubscriptions set_resourceSubscriptions].
    - rewrite lookup_delete_eq. reflexivity.
    - rewrite lookup_insert_eq. reflexivity. }
  split.
  { rewrite Hunsub. intros Hin. apply elem_of_setDelete in Hin as [Hne _]. congruence. }
  split.
  { intros u. rewrite Hunsub, Hold, elem_of_setDelete, elem_of_setAdd. tauto. }
  split; [reflexivity|].
  intros ->. rewrite Hsubscribed. unfold getSubscribedResources.
  cbn [resourceSubscriptions set_resourceSubscriptions].
  rewrite lookup_insert_ne; [reflexivity|].
  subst k. apply serverKey_source. discriminate.
Qed.

(** ** Notifications to the servers *)

(** X23. [sendCancellation] never throws and never changes the hub: when
    the server has a client it sends that client one cancellation
    notification (a failure to send is only logged), otherwise it only warns.
    It aborts no local controller and drops no pending request. *)
Theorem sendCancellation_is_fire_and_forget
    (answer : Outcome unit) (serverName : string) (requestId : Key)
    (reason : option string) (src : option Source) (h : McpHub) :
  let r := sendCancellation answer serverName requestId reason src h in
  outcomeW r = Returned tt /\
  finalW r = h /\
  contacted (actions r) = match clientOf serverName src h with
                          | Some cl => [client_id cl]
                          | None => []
                          end /\
  (forall ev, Did ev ∉ actions r).
Proof.
  intros r. subst r. unfold sendCancellation, bindW, getHubW.
  cbn [outcomeW finalW actions app].
  destruct (clientOf serverName src h) as [cl|].
  - unfold tryCatchW, bindW, act, awaitW. cbn [outcomeW finalW actions app].
    destruct answer as [[]|e]; cbn [outcomeW finalW actions app];
      (repeat split; try reflexivity); intros ev Hin;
      repeat (apply elem_of_cons in Hin as [Hin|Hin]; [discriminate|]); inversion Hin.
  - cbn [act outcomeW finalW actions]. repeat split; try reflexivity.
    intros ev Hin. apply list_elem_of_singleton in Hin. discriminate.
Qed.

Lemma contacted_app (xs ys : list Action) :
  contacted (xs ++ ys) = contacted xs ++ contacted ys.
Proof. unfold contacted. apply omap_app. Qed.

Lemma roots_send_loop (targets : list McpConnection) (h : McpHub) :
  exists acts,
    forEachW targets (fun c =>
      match client c with
      | Some cl => act (Notify (client_id cl) NotifRootsListChanged)
      | None => retW tt
      end) h = mkRunW (Returned tt) h acts /\
    contacted acts = clientIds targets /\
    (forall a, a ∈ acts -> exists c, a = Notify c NotifRootsListChanged).
Proof.
  induction targets as [|c cs (acts & Hrun & Hc & Hall)]; cbn [forEachW].
  - exists []. repeat split. intros a Hin. inversion Hin.
  - unfold bindW. destruct (client c) as [cl|] eqn:Hcl;
      cbn [act retW outcomeW finalW actions]; rewrite Hrun; cbn [outcomeW finalW actions].
    + exists (Notify (client_id cl) NotifRootsListChanged :: acts).
      split; [reflexivity|]. split.
      * unfold clientIds. cbn. rewrite Hcl. cbn. f_equal. exact Hc.
      * intros a Hin. apply elem_of_cons in Hin as [->|Hin]; eauto.
    + exists acts. split; [reflexivity|]. split; [|exact Hall].
      unfold clientIds. cbn. rewrite Hcl. cbn. exact Hc.
Qed.

Lemma roots_log_loop (answers : nat -> Outcome unit) (targets : list McpConnection)
    (h : McpHub) :
  exists acts,
    forEachW targets (fun c =>
      match client c with
      | Some cl =>
          match answers (client_id cl) with
          | Thrown e =>
              act (Print ConsoleDebug
                     ("[McpHub] Failed to send roots/list_changed to "
                        +:+ name (server c) +:+ ":") (Some e))
          | Returned _ => retW tt
          end
      | None => retW tt
      end) h = mkRunW (Returned tt) h acts /\
    forallb isPrint acts = true.
Proof.
  induction targets as [|c cs (acts & Hrun & Hall)]; cbn [forEachW].
  - exists []. split; reflexivity.
  - unfold bindW. destruct (client c) as [cl|]; [destruct (answers (client_id cl)) as [[]|e]|];
      cbn [act retW outcomeW finalW actions]; rewrite Hrun; cbn [outcomeW finalW actions];
      eexists; (split; [reflexivity|]); cbn; exact Hall.
Qed.

(** X24. [notifyRootsListChanged] never throws and never changes the hub:
    it sends one notification to the client of each connected, enabled
    connection, in list order, and does nothing else but log the sends that
    failed. *)
Theorem roots_change_is_told_to_every_reachable_server
    (answers : nat -> Outcome unit) (h : McpHub) :
  let r := notifyRootsListChanged answers h in
  outcomeW r = Returned tt /\
  finalW r = h /\
  contacted (actions r) = clientIds (List.filter reachable (connections h)) /\
  (forall a, a ∈ actions r ->
     (exists c, a = Notify c NotifRootsListChanged) \/ isPrint a = true).
Proof.
  intros r. subst r. unfold notifyRootsListChanged, bindW, getHubW.
  cbn [outcomeW finalW actions app].
  destruct (roots_send_loop (List.filter reachable (connections h)) h) as (sent & Hs & Hc & Hall).
  destruct (roots_log_loop answers (List.filter reachable (connections h)) h)
    as (logged & Hl & Hprint).
  rewrite Hs. cbn [outcomeW finalW actions]. rewrite Hl. cbn [outcomeW finalW actions].
  assert (Hquiet : contacted logged = []).
  { clear Hl. induction logged as [|a l IH]; [reflexivity|].
    cbn in Hprint. apply andb_prop in Hprint as [Ha Hl].
    destruct a; try discriminate. cbn. apply IH, Hl. }
  split; [reflexivity|]. split; [reflexivity|].
  split; [rewrite contacted_app, Hquiet, app_nil_r; exact Hc|].
  intros a Hin. apply elem_of_app in Hin as [Hin|Hin]; [left; apply Hall, Hin|].
  right. apply list_elem_of_In in Hin. revert a Hin. apply forallb_forall. exact Hprint.
Qed.

(** ** Log messages and changed lists *)

Lemma findConnection_some_source (serverName : string) (src : Source)
    (conns : list McpConnection) :
  findConnection serverName (Some src) conns = find (matches serverName src) conns.
Proof. reflexivity. Qed.

(** X25. A log message of a server is printed once on the console, at the
    console level of its logging level.  When forwarding it to the webview
    fails, the handler throws and the hub is unchanged.  Otherwise the
    handler returns; a message of level warning or above becomes the newest
    entry of the error history of the server's connection (as a warning for
    level warning, as an error above) and its current error text, the
    status staying as it was; a message below warning, or one for a server
    without connection, leaves the hub unchanged. *)
Theorem log_messages_from_warning_up_reach_the_error_history
    (provider : option (Outcome unit)) (posted appended : Z) (serverName : string)
    (src : Source) (n : LogParams) (h : McpHub) :
  let r := onLoggingMessage provider posted appended serverName src n h in
  let entry := {| err_message := truncateError (log_data n); err_timestamp := appended;
                  err_level := match log_level n with LWarning => LvlWarn | _ => LvlError end |} in
  List.filter isPrint (actions r) =
    [Print (consoleOf (log_level n))
       ("[MCP " +:+ serverName +:+ loggerText (log_logger n) +:+ "] " +:+ log_data n) None] /\
  match provider with
  | Some (Thrown e) => outcomeW r = Thrown e /\ finalW r = h
  | Some (Returned _) | None =>
      outcomeW r = Returned tt /\
      map key (connections (finalW r)) = map key (connections h) /\
      match findConnection serverName (Some src) (connections h) with
      | Some c =>
          if isProblem (log_level n) then
            exists c',
              findConnection serverName (Some src) (connections (finalW r)) = Some c' /\
              last (errorHistory (server c')) = Some entry /\
              error (server c') = Some (truncateError (log_data n)) /\
              status (server c') = status (server c)
          else finalW r = h
      | None => finalW r = h
      end
  end.
Proof.
  intros r entry. subst r. unfold onLoggingMessage.
  set (line := Print (consoleOf (log_level n))
                 ("[MCP " +:+ serverName +:+ loggerText (log_logger n) +:+ "] " +:+ log_data n)
                 None).
  set (f := appendErrorMessage appended (log_data n)
              (match log_level n with LWarning => LvlWarn | _ => LvlError end)).
  assert (Hrest : forall h0,
            (h1 <- getHubW ;;
             match findConnection serverName (Some src) (connections h1) with
             | Some _ =>
                 if isProblem (log_level n)
                 then liftW (mutateFound (matches serverName src) (with_server f))
                 else retW tt
             | None => retW tt
             end)%wide h0 =
            mkRunW (Returned tt)
              (match findConnection serverName (Some src) (connections h0) with
               | Some _ =>
                   if isProblem (log_level n)
                   then set_connections
                          (updateFirst (matches serverName src) (with_server f) (connections h0))
                          h0
                   else h0
               | None => h0
               end) []).
  { intros h0. rewrite bindW_getHubW.
    destruct (findConnection serverName (Some src) (connections h0)); [|reflexivity].
    destruct (isProblem (log_level n)); reflexivity. }
  assert (Hstate : forall h0,
            let h' := match findConnection serverName (Some src) (connections h0) with
                      | Some _ =>
                          if isProblem (log_level n)
                          then set_connections
                                 (updateFirst (matches serverName src) (with_server f)
                                    (connections h0)) h0
                          else h0
                      | None => h0
                      end in
            map key (connections h') = map key (connections h0) /\
            match findConnection serverName (Some src) (connections h0) with
            | Some c =>
                if isProblem (log_level n) then
                  exists c',
                    findConnection serverName (Some src) (connections h') = Some c' /\
                    last (errorHistory (server c')) = Some entry /\
                    error (server c') = Some (truncateError (log_data n)) /\
                    status (server c') = status (server c)
                else h' = h0
            | None => h' = h0
            end).
  { intros h0 h'. subst h'.
    destruct (findConnection serverName (Some src) (connections h0)) as [c|] eqn:Hfind;
      [|split; reflexivity].
    destruct (isProblem (log_level n)); [|split; reflexivity].
    cbn [connections set_connections]. split.
    - apply map_updateFirst. intros c0. apply key_with_server. intros s. split; reflexivity.
    - exists (with_server f c). split.
      + rewrite findConnection_some_source in *. apply find_updateFirst; [exact Hfind|].
        pose proof (find_spec (matches serverName src) (connections h0)) as Hspec.
        rewrite Hfind in Hspec. destruct Hspec as [_ Hm].
        destruct c; exact Hm.
      + pose proof (appendErrorMessage_last appended (log_data n)
                      (match log_level n with LWarning => LvlWarn | _ => LvlError end)
                      (server c)) as Hlast.
        destruct c as [s cl t|s]; repeat split; try reflexivity; exact Hlast. }
  rewrite bindW_act.
  destruct provider as [[[]|e]|].
  - rewrite (bindW_run _ _ h h tt
               [PostLogMessage serverName (log_level n) (log_logger n) (log_data n) posted])
      by reflexivity.
    rewrite Hrest. unfold prependW. cbn [outcomeW finalW actions app filter isPrint].
    split; [reflexivity|]. split; [reflexivity|]. apply Hstate.
  - rewrite (bindW_thrown _ _ h h e
               [PostLogMessage serverName (log_level n) (log_logger n) (log_data n) posted])
      by reflexivity.
    unfold prependW. cbn [outcomeW finalW actions app filter isPrint].
    repeat split; reflexivity.
  - rewrite bindW_retW, Hrest. unfold prependW. cbn [outcomeW finalW actions app filter isPrint].
    split; [reflexivity|]. split; [reflexivity|]. apply Hstate.
Qed.

Lemma fetchList_connected (method : string) (answer : Outcome (list string))
    (serverName : string) (src : option Source) (h : McpHub)
    (s : McpServer) (cl : Client) (t : nat) :
  findConnection serverName src (connections h) = Some (Connected s cl t) ->
  fetchList method answer serverName src h =
    mkRun (Returned (match answer with Returned l => l | Thrown _ => [] end)) h
          [SendRequest (client_id cl) (ReqList method)].
Proof.
  intros Hfind. unfold fetchList, tryCatch. rewrite bind_getHub, Hfind, bind_emit.
  destruct answer as [l|e]; reflexivity.
Qed.

Lemma refreshList_run (k : ListKind) (answer : Outcome (list string)) (notify : Outcome unit)
    (serverName : string) (src : Source) (h : McpHub) :
  refreshList k answer notify serverName src h =
    match findConnection serverName (Some src) (connections h) with
    | Some (Connected _ cl _) =>
        mkRunW (match notify with Returned _ => Returned tt | Thrown e => Thrown e end)
          (set_connections
             (updateFirst (matches serverName src)
                (with_server (set_list k (match answer with Returned l => l | Thrown _ => [] end)))
                (connections h)) h)
          (Did (SendRequest (client_id cl) (ReqList (listMethod k))) ::
           match notify with
           | Returned _ => [Did NotifyWebviewOfServerChanges]
           | Thrown _ => []
           end)
    | Some (Disconnected _) | None => mkRunW (Returned tt) h []
    end.
Proof.
  unfold refreshList. rewrite bindW_getHubW.
  destruct (findConnection serverName (Some src) (connections h)) as [[s cl t|s]|] eqn:Hfind;
    try reflexivity.
  rewrite (bindW_run _ _ h h (match answer with Returned l => l | Thrown _ => [] end)
             [Did (SendRequest (client_id cl) (ReqList (listMethod k)))])
    by (rewrite liftW_run, (fetchList_connected _ _ _ _ _ s cl t Hfind); reflexivity).
  rewrite (bindW_run _ _ h
             (set_connections
                (updateFirst (matches serverName src)
                   (with_server (set_list k (match answer with Returned l => l | Thrown _ => [] end)))
                   (connections h)) h) tt []) by reflexivity.
  rewrite prependW_nil, liftW_run, notifyWebviewOfServerChanges_run.
  unfold prependW. cbn [outcomeW finalW actions outcome final effects map app].
  destruct notify as [[]|e]; reflexivity.
Qed.

Lemma find_updateFirst_connected (serverName : string) (src : Source)
    (f : McpServer -> McpServer) (l : list McpConnection)
    (s : McpServer) (cl : Client) (t : nat) :
  (forall s0, name (f s0) = name s0 /\ source (f s0) = source s0) ->
  find (matches serverName src) l = Some (Connected s cl t) ->
  find (matches serverName src) (updateFirst (matches serverName src) (with_server f) l) =
    Some (Connected (f s) cl t).
Proof.
  intros Hf Hfind.
  apply (find_updateFirst _ (with_server f) _ _ Hfind).
  pose proof (find_spec (matches serverName src) l) as Hspec.
  rewrite Hfind in Hspec. destruct Hspec as [_ Hm].
  unfold matches in *. cbn [with_server server] in *. destruct (Hf s) as [-> ->]. exact Hm.
Qed.

(** X26. The list-changed handlers and the resource-updated handler never
    throw.  For a connected server the changed list is requested again and
    replaced by the answer, by the empty list when the request fails; the
    (name, source) pairs of the connection list stay as they were.  For a
    server that is not
    connected nothing is requested and the hub is unchanged.  When
    forwarding a resource update to the webview fails, the list is not
    refreshed. *)
Theorem changed_lists_are_fetched_again_and_never_fail_the_handler
    (k : ListKind) (provider : option (Outcome unit)) (now : Z)
    (answer : Outcome (list string)) (notify : Outcome unit)
    (serverName : string) (src : Source) (uri : string) (h : McpHub) :
  let fetched := match answer with Returned l => l | Thrown _ => [] end in
  let changed := onListChanged k answer notify serverName src h in
  let updated := onResourceUpdated provider now answer notify serverName src uri h in
  outcomeW changed = Returned tt /\
  outcomeW updated = Returned tt /\
  map key (connections (finalW changed)) = map key (connections h) /\
  match findConnection serverName (Some src) (connections h) with
  | Some (Connected s cl t) =>
      findConnection serverName (Some src) (connections (finalW changed)) =
        Some (Connected (set_list k fetched s) cl t) /\
      Did (SendRequest (client_id cl) (ReqList (listMethod k))) ∈ actions changed /\
      match provider with
      | Some (Thrown _) => finalW updated = h
      | Some (Returned _) | None =>
          findConnection serverName (Some src) (connections (finalW updated)) =
            Some (Connected (set_resources fetched s) cl t)
      end
  | Some (Disconnected _) | None =>
      finalW changed = h /\ finalW updated = h /\
      contacted (actions changed) = [] /\
      (forall ev, Did ev ∉ actions changed)
  end.
Proof.
  intros fetched changed updated. subst changed updated.
  unfold onListChanged, onResourceUpdated. rewrite !bindW_act.
  pose proof (refreshList_run k answer notify serverName src h) as Hk.
  pose proof (refreshList_run Resources answer notify serverName src h) as Hr.
  assert (Hpost : match provider with
                  | Some posted => act (PostResourceUpdated serverName uri now) ;; awaitW posted
                  | None => retW tt
                  end%wide h =
                  mkRunW (match provider with
                          | Some (Thrown e) => Thrown e
                          | Some (Returned _) | None => Returned tt
                          end) h
                    (match provider with
                     | Some _ => [PostResourceUpdated serverName uri now]
                     | None => []
                     end)).
  { destruct provider as [[[]|e]|]; reflexivity. }
  set (errK := fun e : Exn =>
         act (Print ConsoleError
                ("[McpHub] Error refreshing " +:+ match k with
                                                  | Resources => "resources"
                                                  | Tools => "tools"
                                                  | Prompts => "prompts"
                                                  end +:+ " for " +:+ serverName +:+ ":")
                (Some e))).
  set (errU := fun e : Exn =>
         act (Print ConsoleError
                ("[McpHub] Error handling resource update for " +:+ serverName +:+ ":")
                (Some e))).
  set (body := (match provider with
                | Some posted => act (PostResourceUpdated serverName uri now) ;; awaitW posted
                | None => retW tt
                end ;; refreshList Resources answer notify serverName src)%wide).
  assert (Hcatch : forall (m : HubW unit) (f : Exn -> Action) h0,
            outcomeW (tryCatchW m (fun e => act (f e)) h0) = Returned tt /\
            finalW (tryCatchW m (fun e => act (f e)) h0) = finalW (m h0) /\
            forall a, a ∈ actions (m h0) -> a ∈ actions (tryCatchW m (fun e => act (f e)) h0)).
  { intros m f h0. unfold tryCatchW. destruct (outcomeW (m h0)) as [[]|e] eqn:Ho;
      cbn [act outcomeW finalW actions]; repeat split; auto.
    intros a Ha. apply elem_of_app. left. exact Ha. }
  destruct (Hcatch (refreshList k answer notify serverName src)
              (fun e => Print ConsoleError
                          ("[McpHub] Error refreshing " +:+ match k with
                                                            | Resources => "resources"
                                                            | Tools => "tools"
                                                            | Prompts => "prompts"
                                                            end +:+ " for " +:+ serverName +:+ ":")
                          (Some e)) h) as (HoK & HfK & HaK).
  destruct (Hcatch body
              (fun e => Print ConsoleError
                          ("[McpHub] Error handling resource update for " +:+ serverName +:+ ":")
                          (Some e)) h) as (HoU & HfU & _).
  fold errK in HoK, HfK, HaK. fold errU in HoU, HfU.
  unfold prependW. cbn [outcomeW finalW actions].
  split; [exact HoK|]. split; [exact HoU|].
  rewrite HfK, HfU.
  assert (Hbody : finalW (body h) =
                  match provider with
                  | Some (Thrown _) => h
                  | Some (Returned _) | None =>
                      finalW (refreshList Resources answer notify serverName src h)
                  end).
  { subst body. destruct provider as [[[]|e]|].
    - rewrite (bindW_run _ _ h h tt [PostResourceUpdated serverName uri now]) by exact Hpost.
      reflexivity.
    - rewrite (bindW_thrown _ _ h h e [PostResourceUpdated serverName uri now]) by exact Hpost.
      reflexivity.
    - rewrite bindW_retW. reflexivity. }
  rewrite Hbody.
  destruct (findConnection serverName (Some src) (connections h)) as [[s cl t|s]|] eqn:Hfind.
  - rewrite Hk, Hr. cbn [finalW connections set_connections].
    split; [apply map_updateFirst; intros c; apply key_with_server; intros s0;
            destruct k; split; reflexivity|].
    rewrite findConnection_some_source in *.
    split; [apply find_updateFirst_connected;
            [intros s0; destruct k; split; reflexivity | exact Hfind]|].
    split.
    { apply elem_of_cons. right. apply HaK. rewrite Hk. apply list_elem_of_here. }
    destruct provider as [[[]|e]|]; try reflexivity;
      cbn [connections set_connections];
      (apply find_updateFirst_connected; [intros s0; split; reflexivity | exact Hfind]).
  - rewrite Hk, Hr. cbn [finalW].
    split; [reflexivity|]. split; [reflexivity|].
    split; [destruct provider as [[[]|e]|]; reflexivity|].
    assert (Hacts : actions (tryCatchW (refreshList k answer notify serverName src) errK h) = []).
    { unfold tryCatchW. rewrite Hk. reflexivity. }
    rewrite Hacts. split; [reflexivity|].
    intros ev Hin. apply list_elem_of_singleton in Hin. discriminate.
  - rewrite Hk, Hr. cbn [finalW].
    split; [reflexivity|]. split; [reflexivity|].
    split; [destruct provider as [[[]|e]|]; reflexivity|].
    assert (Hacts : actions (tryCatchW (refreshList k answer notify serverName src) errK h) = []).
    { unfold tryCatchW. rewrite Hk. reflexivity. }
    rewrite Hacts. split; [reflexivity|].
    intros ev Hin. apply list_elem_of_singleton in Hin. discriminate.
Qed.

(** ** Checks before the schema *)

(** X27. The checks [validateServerConfig] makes before the schema pass
    in exactly two cases: a [command] without [url] with no type or type
    [stdio] (the type handed on is [stdio]), and a [url] without [command]
    with type [sse] or [streamable-http].  With both fields present the
    error is always the mixed-fields one; with neither and no type, the
    missing-fields one. *)
Theorem field_checks_pass_for_one_consistent_transport
    (hasStdioFields hasUrlFields : bool) (ty : option string) :
  match checkFields hasStdioFields hasUrlFields ty with
  | Returned checked =>
      (hasStdioFields = true /\ hasUrlFields = false /\ checked = Some "stdio"%string /\
       (noType ty = true \/ ty = Some "stdio"%string)) \/
      (hasStdioFields = false /\ hasUrlFields = true /\ checked = ty /\
       (ty = Some "sse"%string \/ ty = Some "streamable-http"%string))
  | Thrown e =>
      (hasStdioFields = true -> hasUrlFields = true ->
       e = OtherError mixedFieldsErrorMessage) /\
      (hasStdioFields = false -> hasUrlFields = false -> noType ty = true ->
       e = OtherError missingFieldsErrorMessage) /\
      ~ (hasStdioFields = true /\ hasUrlFields = false /\
         (noType ty = true \/ ty = Some "stdio"%string)) /\
      ~ (hasStdioFields = false /\ hasUrlFields = true /\
         (ty = Some "sse"%string \/ ty = Some "streamable-http"%string))
  end.
Proof.
  destruct ty as [t|];
    [destruct (decide (t = EmptyString)) as [->|Hempty];
     [|destruct (decide (t = "stdio"%string)) as [->|Hstdio];
       [|destruct (decide (t = "sse"%string)) as [->|Hsse];
         [|destruct (decide (t = "streamable-http"%string)) as [->|Hhttp]]]]|].
  1-4, 6: destruct hasStdioFields, hasUrlFields; vm_compute;
    intuition (try discriminate; try congruence).
  unfold checkFields, noType.
  assert (Hin : bool_decide (Some t ∈ [Some "stdio"; Some "sse"; Some "streamable-http"]%string)
                = false).
  { apply bool_decide_eq_false_2. intros Hin.
    repeat (apply elem_of_cons in Hin as [Hin|Hin]; [congruence|]). inversion Hin. }
  rewrite (bool_decide_eq_false_2 (t = EmptyString)) by exact Hempty.
  destruct hasStdioFields, hasUrlFields; cbn [andb negb];
    rewrite ?(bool_decide_eq_false_2 (t = EmptyString)) by exact Hempty;
    rewrite ?Hin; cbn [andb negb];
    rewrite ?bool_decide_eq_false_2 by discriminate; cbn [andb negb];
    intuition (try discriminate; try congruence).
Qed.

(** ** Settings files *)

(** Steps of a proof that a method of the registry leaves alone what an
    invariant looks at. *)
Ltac frame_step :=
  first [ apply hoare_modifyHub; intros ? ?; assumption
        | apply inv_fetchList
        | inv_step ].

Section FlagFrame.
Context `{Host}.
Variable Q : bool -> option nat -> Prop.

Lemma flag_deleteConnection (serverName : string) (src : option Source) :
  hoare (fun h => Q (isProgrammaticUpdate h) (flagResetTimer h))
    (deleteConnection serverName src)
    (fun h => Q (isProgrammaticUpdate h) (flagResetTimer h)).
Proof.
  unfold deleteConnection, removeFileWatchersForServer, closeConnection.
  repeat frame_step.
Qed.

Lemma flag_connectToServer (env : ConnectEnv) (serverName : string) (cfg : ServerConfig)
    (src : Source) :
  hoare (fun h => Q (isProgrammaticUpdate h) (flagResetTimer h))
    (connectToServer env serverName cfg src)
    (fun h => Q (isProgrammaticUpdate h) (flagResetTimer h)).
Proof.
  unfold connectToServer, pushConnection, mutateLast, mutateFound, setupFileWatcher,
    fetchToolsList, fetchResourcesList, fetchResourceTemplatesList, fetchPromptsList.
  repeat first [ apply flag_deleteConnection | frame_step ].
Qed.

Lemma flag_updateServerConnections (envs : string -> ConnectEnv) (notify : Outcome unit)
    (newServers : list (string * RawConfig)) (src : Source) (manage : bool) :
  hoare (fun h => Q (isProgrammaticUpdate h) (flagResetTimer h))
    (updateServerConnections envs notify newServers src manage)
    (fun h => Q (isProgrammaticUpdate h) (flagResetTimer h)).
Proof.
  unfold updateServerConnections, removeAllFileWatchers.
  repeat first
    [ apply flag_deleteConnection
    | match goal with
      | |- hoare _ (reconcileOne _ _ ?entry) _ =>
          destruct entry; unfold reconcileOne, setupFileWatcher
      end
    | apply flag_connectToServer
    | frame_step ].
Qed.

Lemma flag_cleanupProjectMcpServers (envs : string -> ConnectEnv) (notify : Outcome unit) :
  hoare (fun h => Q (isProgrammaticUpdate h) (flagResetTimer h))
    (cleanupProjectMcpServers envs notify)
    (fun h => Q (isProgrammaticUpdate h) (flagResetTimer h)).
Proof.
  unfold cleanupProjectMcpServers.
  repeat first [ apply flag_deleteConnection | apply flag_updateServerConnections | frame_step ].
Qed.
End FlagFrame.

Lemma hoareW_bind {A B} (I : McpHub -> Prop) (m : HubW A) (k : A -> HubW B) :
  hoareW I m I -> (forall a, hoareW I (k a) I) -> hoareW I (bindW m k) I.
Proof.
  intros Hm Hk h Hh. unfold bindW. specialize (Hm h Hh).
  destruct (outcomeW (m h)) as [a|e]; cbn [finalW]; [apply Hk, Hm | exact Hm].
Qed.

Lemma hoareW_tryCatch {A} (I : McpHub -> Prop) (m : HubW A) (handler : Exn -> HubW A) :
  hoareW I m I -> (forall e, hoareW I (handler e) I) -> hoareW I (tryCatchW m handler) I.
Proof.
  intros Hm Hk h Hh. unfold tryCatchW. specialize (Hm h Hh).
  destruct (outcomeW (m h)) as [a|e]; cbn [finalW]; [exact Hm | apply Hk, Hm].
Qed.

Lemma hoareW_finally {A} (I : McpHub -> Prop) (m : HubW A) (fin : HubW unit) :
  hoareW I m I -> hoareW I fin I -> hoareW I (finallyW m fin) I.
Proof. intros Hm Hf h Hh. unfold finallyW. cbn [finalW]. apply Hf, Hm, Hh. Qed.

Lemma hoareW_lift {A} (I : McpHub -> Prop) (m : Hub A) : hoare I m I -> hoareW I (liftW m) I.
Proof. intros Hm h Hh. apply Hm, Hh. Qed.

Lemma hoareW_still {A} (I : McpHub -> Prop) (m : HubW A) :
  (forall h, finalW (m h) = h) -> hoareW I m I.
Proof. intros Hm h Hh. rewrite Hm. exact Hh. Qed.

Lemma hoareW_modify (I : McpHub -> Prop) (f : McpHub -> McpHub) :
  (forall h, I h -> I (f h)) -> hoareW I (modifyHubW f) I.
Proof. intros Hf h Hh. apply Hf, Hh. Qed.

Lemma hoareW_forEach {A} (I : McpHub -> Prop) (xs : list A) (body : A -> HubW unit) :
  (forall x, hoareW I (body x) I) -> hoareW I (forEachW xs body) I.
Proof.
  intros Hbody. induction xs as [|x xs IH]; cbn [forEachW].
  - intros h Hh. exact Hh.
  - apply hoareW_bind; [apply Hbody | intros _; exact IH].
Qed.

(** One step of a proof that a settings method keeps an invariant. *)
Ltac wide_step :=
  match goal with
  | |- hoareW _ (bindW _ _) _ => apply hoareW_bind; [|intros ?]
  | |- hoareW _ (tryCatchW _ _) _ => apply hoareW_tryCatch; [|intros ?]
  | |- hoareW _ (finallyW _ _) _ => apply hoareW_finally
  | |- hoareW _ (act _) _ => apply hoareW_still; reflexivity
  | |- hoareW _ (retW _) _ => apply hoareW_still; reflexivity
  | |- hoareW _ (throwW _) _ => apply hoareW_still; reflexivity
  | |- hoareW _ (awaitW _) _ => apply hoareW_still; reflexivity
  | |- hoareW _ getHubW _ => apply hoareW_still; reflexivity
  | |- hoareW _ (liftW _) _ => apply hoareW_lift
  | |- hoareW _ (match ?x with _ => _ end) _ => destruct x
  end.

Section Settings.
Context `{Host}.

Lemma flagGuarded_writeSettings (write : Outcome unit) (timer : nat) (configPath : string) :
  hoareW (fun _ => True) (writeSettings write timer configPath) flagGuarded.
Proof.
  intros h _. unfold writeSettings. rewrite bindW_getHubW.
  assert (Hclear : forall h0,
            (match flagResetTimer h with
             | Some t => act (Did (ClearTimeout t))
             | None => retW tt
             end) h0 =
            mkRunW (Returned tt) h0
              (match flagResetTimer h with Some t => [Did (ClearTimeout t)] | None => [] end)).
  { intros h0. destruct (flagResetTimer h); reflexivity. }
  rewrite (bindW_run _ _ _ _ _ _ (Hclear h)). rewrite bindW_modifyHubW.
  unfold prependW, finallyW, bindW, act, awaitW, modifyHubW. cbn [outcomeW finalW actions].
  destruct write as [[]|e]; cbn [outcomeW finalW actions]; intros _; eexists; reflexivity.
Qed.

Lemma flagGuarded_updateServerConfig (env : SettingsEnv) (serverName : string) (src : Source) :
  hoareW flagGuarded (updateServerConfig env serverName src) flagGuarded.
Proof.
  unfold updateServerConfig.
  repeat first
    [ match goal with
      | |- hoareW _ (writeSettings _ _ _) _ =>
          intros h _; apply flagGuarded_writeSettings; exact I
      end
    | wide_step ].
Qed.

Lemma flagGuarded_debounceConfigChange (timer : nat) (filePath : string) (src : Source) :
  hoareW flagGuarded (debounceConfigChange timer filePath src) flagGuarded.
Proof.
  unfold debounceConfigChange.
  repeat first [ apply hoareW_modify; intros h Hh; exact Hh | wide_step ].
Qed.

Lemma flagGuarded_handleConfigFileChange (env : ChangeEnv) (filePath : string) (src : Source) :
  hoareW flagGuarded (handleConfigFileChange env filePath src) flagGuarded.
Proof.
  unfold handleConfigFileChange, flagGuarded.
  repeat first
    [ apply (flag_updateServerConnections (fun b t => b = true -> is_Some t))
    | apply (flag_cleanupProjectMcpServers (fun b t => b = true -> is_Some t))
    | match goal with
      | |- hoare _ (notifyWebviewOfServerChanges _) _ =>
          unfold notifyWebviewOfServerChanges; repeat frame_step
      end
    | wide_step ].
Qed.

Lemma flagGuarded_dispose : hoare flagGuarded dispose flagGuarded.
Proof.
  unfold dispose, removeAllFileWatchers, disposeOption, flagGuarded.
  repeat first
    [ apply (flag_deleteConnection (fun b t => b = true -> is_Some t))
    | apply hoare_modifyHub; intros ? ? ?; discriminate
    | frame_step ].
Qed.

(** X28. From a fresh hub, after every sequence of settings updates, file
    change events, timer callbacks and disposals, each run to its end, the
    flag that makes the watcher ignore file changes is raised only while a
    reset timer is recorded: a failed write cannot leave the flag stuck
    without a timer to lower it. *)
Theorem watcher_silencing_flag_always_has_its_reset_timer (ops : list SettingsOp) :
  flagGuarded (finalW (forEachW ops runSettingsOp newHub)).
Proof.
  apply (hoareW_forEach flagGuarded ops runSettingsOp).
  - intros op. destruct op; cbn [runSettingsOp].
    + apply hoareW_tryCatch; [apply flagGuarded_updateServerConfig|].
      intros e. apply hoareW_still. reflexivity.
    + apply flagGuarded_debounceConfigChange.
    + intros h _. cbn. discriminate.
    + apply hoareW_tryCatch; [|intros e; apply hoareW_still; reflexivity].
      unfold onDebounceTimer. apply hoareW_bind.
      * apply hoareW_modify. intros h Hh. exact Hh.
      * intros _. apply flagGuarded_handleConfigFileChange.
    + apply hoareW_lift, flagGuarded_dispose.
  - intros Hflag. discriminate.
Qed.

(** X29. The write of a settings file raises the flag and records a fresh
    reset timer, whether the write succeeds or fails.  While the flag is up
    a file change schedules nothing and leaves the hub unchanged; once the
    reset timer has fired the flag is down, and a file change starts a
    500 ms debounce timer for the file, clearing the one it replaces. *)
Theorem settings_write_silences_the_watcher_until_the_timer_fires
    (write : Outcome unit) (timer next : nat) (configPath filePath : string) (src : Source)
    (h : McpHub) :
  let written := finalW (writeSettings write timer configPath h) in
  let lowered := finalW (onFlagResetTimer written) in
  let scheduled := debounceConfigChange next filePath src lowered in
  outcomeW (writeSettings write timer configPath h) = write /\
  isProgrammaticUpdate written = true /\
  flagResetTimer written = Some timer /\
  debounceConfigChange next filePath src written = mkRunW (Returned tt) written [] /\
  isProgrammaticUpdate lowered = false /\
  flagResetTimer lowered = None /\
  configChangeDebounceTimers (finalW scheduled) !! timerKey src filePath = Some next /\
  SetTimeout next 500 ∈ actions scheduled /\
  (forall previous, configChangeDebounceTimers h !! timerKey src filePath = Some previous ->
     Did (ClearTimeout previous) ∈ actions scheduled).
Proof.
  intros written lowered scheduled.
  assert (Hwritten : writeSettings write timer configPath h =
            mkRunW write (set_flagResetTimer (Some timer) (set_isProgrammaticUpdate true h))
              (match flagResetTimer h with Some t => [Did (ClearTimeout t)] | None => [] end ++
               [WriteJson configPath; SetTimeout timer 600])).
  { unfold writeSettings. rewrite bindW_getHubW.
    assert (Hclear : forall h0,
              (match flagResetTimer h with
               | Some t => act (Did (ClearTimeout t))
               | None => retW tt
               end) h0 =
              mkRunW (Returned tt) h0
                (match flagResetTimer h with Some t => [Did (ClearTimeout t)] | None => [] end)).
    { intros h0. destruct (flagResetTimer h); reflexivity. }
    rewrite (bindW_run _ _ _ _ _ _ (Hclear h)). rewrite bindW_modifyHubW.
    unfold prependW, finallyW, bindW, act, awaitW, modifyHubW. cbn [outcomeW finalW actions].
    destruct write as [[]|e]; reflexivity. }
  subst scheduled lowered written. rewrite Hwritten. cbn [outcomeW finalW].
  split; [reflexivity|]. split; [reflexivity|]. split; [reflexivity|].
  split; [reflexivity|]. split; [reflexivity|]. split; [reflexivity|].
  unfold debounceConfigChange, onFlagResetTimer. rewrite !bindW_getHubW.
  cbn [bindW modifyHubW outcomeW finalW actions isProgrammaticUpdate set_isProgrammaticUpdate
       set_flagResetTimer configChangeDebounceTimers app].
  destruct (configChangeDebounceTimers h !! timerKey src filePath) as [previous|] eqn:Hprev.
  - cbn [act bindW modifyHubW outcomeW finalW actions app configChangeDebounceTimers
         set_configChangeDebounceTimers].
    rewrite lookup_insert_eq. split; [reflexivity|].
    split; [apply list_elem_of_further, list_elem_of_here|].
    intros p [= <-]. apply list_elem_of_here.
  - cbn [act retW bindW modifyHubW outcomeW finalW actions app configChangeDebounceTimers
         set_configChangeDebounceTimers].
    rewrite lookup_insert_eq. split; [reflexivity|].
    split; [apply list_elem_of_here|]. discriminate.
Qed.
End Settings.

Section FileChange.
Context `{Host}.

(** X30. When a settings file changes: content that does not parse, or
    that the settings schema rejects, is reported and leaves the hub
    unchanged; accepted content is handed to [updateServerConnections] for
    the source, and when that returns the handler has done exactly what it
    did.  When the project's file is gone, every project connection
    is removed, all file watchers are closed and the user is told; any other
    failure to read the file is reported and leaves the hub unchanged. *)
Theorem settings_file_change_is_handled
    (env : ChangeEnv) (filePath : string) (src : Source) (h : McpHub) :
  let r := handleConfigFileChange env filePath src h in
  match ch_content env with
  | Returned content =>
      match jsonParse content with
      | Thrown parseError =>
          r = mkRunW (Returned tt) h
                [Print ConsoleError "mcp:errors.invalid_settings_syntax" (Some parseError);
                 WindowShowErrorMessage "mcp:errors.invalid_settings_syntax"]
      | Returned config =>
          match ch_settings env config with
          | inr errorMessages =>
              r = mkRunW (Returned tt) h
                    [WindowShowErrorMessage
                       ("mcp:errors.invalid_settings_validation " +:+ errorMessages)]
          | inl mcpServers =>
              let update := updateServerConnections (ch_connect env) (ch_notify env)
                              mcpServers src true h in
              outcome update = Returned tt ->
              r = mkRunW (Returned tt) (final update) (map Did (effects update))
          end
      end
  | Thrown e =>
      if ch_enoent env e && bool_decide (src = Project) then
        connections (finalW r) =
          List.filter (fun c => negb (isProject c)) (connections h) /\
        fileWatchers (finalW r) = ∅ /\
        (ch_notify env = Returned tt -> ch_notifyDeleted env = Returned tt ->
         outcomeW r = Returned tt /\
         last (actions r) =
           Some (Did (ShowInformationMessage "mcp:info.project_config_deleted" EmptyString)))
      else
        r = mkRunW (Returned tt) h
              [Did (ShowErrorMessage "mcp:errors.failed_update_project" (exn_message e))]
  end.
Proof.
  intros r. subst r. unfold handleConfigFileChange.
  destruct (ch_content env) as [content|e] eqn:Hcontent.
  - destruct (jsonParse content) as [config|parseError] eqn:Hparse.
    + destruct (ch_settings env config) as [mcpServers|errorMessages] eqn:Hsettings.
      * intros Hout.
        apply (tryCatchW_returned _ _ h). rewrite bindW_awaitW_returned, Hparse, Hsettings.
        rewrite liftW_run, Hout. reflexivity.
      * apply (tryCatchW_returned _ _ h). rewrite bindW_awaitW_returned, Hparse, Hsettings.
        reflexivity.
    + apply (tryCatchW_returned _ _ h). rewrite bindW_awaitW_returned, Hparse. reflexivity.
  - rewrite (tryCatchW_thrown _ _ h h e []) by reflexivity. rewrite prependW_nil.
    destruct (ch_enoent env e && bool_decide (src = Project)); [|reflexivity].
    destruct (cleanupProjectMcpServers_run (ch_connect env) (ch_notify env) h)
      as (h' & released & Hrun & _ & Hconn & Hfw & _).
    destruct (ch_notify env) as [[]|e1] eqn:Hnotify.
    + rewrite (bindW_run _ _ h h' tt (map Did (released ++ [NotifyWebviewOfServerChanges])))
        by (rewrite liftW_run, Hrun; reflexivity).
      destruct (ch_notifyDeleted env) as [[]|e2] eqn:Hdeleted.
      * rewrite (bindW_run _ _ h' h' tt [Did NotifyWebviewOfServerChanges])
          by (rewrite liftW_run, notifyWebviewOfServerChanges_run; reflexivity).
        unfold prependW. cbn [act outcomeW finalW actions].
        split; [exact Hconn|]. split; [exact Hfw|]. intros _ _. split; [reflexivity|].
        rewrite !app_assoc. apply last_snoc.
      * rewrite (bindW_thrown _ _ h' h' e2 [])
          by (rewrite liftW_run, notifyWebviewOfServerChanges_run; reflexivity).
        unfold prependW. cbn [outcomeW finalW actions].
        split; [exact Hconn|]. split; [exact Hfw|]. intros _ Hd. discriminate Hd.
    + rewrite (bindW_thrown _ _ h h' e1 (map Did (released ++ [])))
        by (rewrite liftW_run, Hrun; reflexivity).
      cbn [outcomeW finalW actions].
      split; [exact Hconn|]. split; [exact Hfw|]. intros Hn. discriminate Hn.
Qed.
End FileChange.

(** * The further properties at concrete inputs *)

(** Witness of X8: the settings of the global source list the sample server
    with the configuration it is already running under. *)
Lemma unchanged_settings_witness :
  let r := updateServerConnections (H := sampleHost)
             (fun _ => connectAttempt (Returned 7%nat) (Thrown (OtherError "unused")))
             (Returned tt) [("srv"%string, "{}"%string)] Global true watchedHub in
  connections (final r) = connections watchedHub /\
  fileWatchers (final r) = ∅ /\
  effects r = [WatcherClose (WatchFile "build/index.js"); NotifyWebviewOfServerChanges].
Proof.
  intros r.
  destruct (update_with_unchanged_settings_drops_file_watchers (H := sampleHost)
              (fun _ => connectAttempt (Returned 7%nat) (Thrown (OtherError "unused")))
              (Returned tt) [("srv"%string, "{}"%string)] Global true watchedHub)
    as (Hconn & Hfw & _ & Heff).
  - intros c Hc _. apply list_elem_of_singleton in Hc as ->. apply list_elem_of_here.
  - intros n raw Hin. apply list_elem_of_singleton in Hin as [= -> ->].
    exists {| cfg_type := Stdio; cfg_disabled := false; cfg_watchPaths := [];
              cfg_args := []; cfg_json := "{}" |}, (sampleConnection false), "{}"%string.
    repeat split; reflexivity.
  - subst r. split; [exact Hconn|]. split; [exact Hfw|]. rewrite Heff. reflexivity.
Defined.

(** Witness of X9: disposing of the watched busy hub, for the first time. *)
Lemma dispose_releases_witness :
  let r := dispose (H := sampleHost) watchedHub in
  outcome r = Returned tt /\
  TransportClose 7%nat ∈ effects r /\
  connections (final r) = [] /\
  pendingRequests (final r) = ∅ /\
  fileWatchers (final r) = ∅.
Proof.
  intros r.
  destruct (dispose_releases_everything (H := sampleHost) watchedHub eq_refl)
    as (Ho & _ & Hclose & _ & _ & Hconn & _ & Hpend & _ & _ & _ & Hfw & _).
  split; [exact Ho|]. split; [|auto].
  apply (Hclose (sampleConnection false) 7%nat); [apply list_elem_of_here | reflexivity].
Defined.

(** Witness of X10: the sample server connected while MCP is switched off. *)
Lemma disabled_connect_witness :
  let r := connectToServer (H := sampleHost)
             {| ce_mcpEnabled := false; ce_injected := Returned sampleConfig;
                ce_transport := Returned 7%nat; ce_client := 1;
                ce_handshake := Thrown (OtherError "unused");
                ce_tools := Returned []; ce_resources := Returned [];
                ce_resourceTemplates := Returned []; ce_prompts := Returned [];
                ce_now := 0 |}
             "srv" sampleConfig Global newHub in
  outcome r = Returned tt /\
  effects r = [] /\
  clientOf "srv" (Some Global) (final r) = None /\
  status <$> (server <$> findConnection "srv" (Some Global) (connections (final r)))
    = Some StDisconnected.
Proof.
  intros r.
  destruct (connect_of_disabled_server_lists_placeholder (H := sampleHost)
              {| ce_mcpEnabled := false; ce_injected := Returned sampleConfig;
                 ce_transport := Returned 7%nat; ce_client := 1;
                 ce_handshake := Thrown (OtherError "unused");
                 ce_tools := Returned []; ce_resources := Returned [];
                 ce_resourceTemplates := Returned []; ce_prompts := Returned [];
                 ce_now := 0 |}
              "srv" sampleConfig Global newHub (or_introl eq_refl))
    as (Ho & He & _ & Hfind & Hcl & _).
  subst r. split; [exact Ho|]. split; [exact He|]. split; [exact Hcl|].
  rewrite Hfind. reflexivity.
Defined.

(** Witness of X12: restarting the sample server while its peer refuses the
    handshake. *)
Lemma restart_survives_witness :
  let r := restartConnection (H := sampleHost)
             {| re_mcpEnabled := true; re_notifyBefore := Returned tt;
                re_notifyAfter := Returned tt;
                re_connect := connectAttempt (Returned 7%nat)
                                (Thrown (OtherError "Connection closed")) |}
             "srv" (Some Global) (busyHub false Working) in
  outcome r = Returned tt /\ isConnecting (final r) = false.
Proof.
  intros r.
  destruct (restart_survives_a_failed_reconnect (H := sampleHost)
              {| re_mcpEnabled := true; re_notifyBefore := Returned tt;
                 re_notifyAfter := Returned tt;
                 re_connect := connectAttempt (Returned 7%nat)
                                 (Thrown (OtherError "Connection closed")) |}
              "srv" (Some Global) (busyHub false Working) eq_refl eq_refl)
    as (Ho & Hc & _).
  split; [exact Ho | exact Hc].
Defined.

(** Witness of X13: the peer cancels the request the busy hub has pending. *)
Lemma cancellation_witness :
  let r := onCancelledNotification
             {| c_requestId := Some (KNum 1); c_reason := Some "user"%string |}
             (busyHub false Working) in
  effects r = [LogCancellationReceived (KNum 1) (Some "user"%string);
               ControllerAbort 3 (Some "user"%string)] /\
  pendingRequests (final r) !! KNum 1 = None.
Proof.
  intros r.
  destruct (cancellation_aborts_a_registered_request_once
              {| c_requestId := Some (KNum 1); c_reason := Some "user"%string |}
              (busyHub false Working) (KNum 1)
              {| req_serverName := "srv"; controller := 3 |} eq_refl eq_refl)
    as (_ & Heff & _ & _ & Hgone & _).
  split; [exact Heff | exact Hgone].
Defined.

(** Witness of X17: a task-augmented call with an observer that the peer
    answers with a plain result. *)
Lemma token_released_witness :
  let r := callToolAsTask
             {| call_token := "tok-9"; call_plain := Returned "plain"%string;
                call_augmented := Returned (ReplyResult "done");
                call_createdAt := 0; call_updatedAt := 0 |}
             "srv" "tool" "{}"
             {| opt_source := Some Global; opt_ttl := None; opt_progressCallback := Some 4%nat |}
             (busyHub true Working) in
  outcome r = Returned (ResResult "done") /\
  activeProgressTokens (final r) !! KStr "tok-9" = None.
Proof.
  intros r.
  destruct (progress_token_lives_as_long_as_its_task
              {| call_token := "tok-9"; call_plain := Returned "plain"%string;
                 call_augmented := Returned (ReplyResult "done");
                 call_createdAt := 0; call_updatedAt := 0 |}
              "srv" "tool" "{}"
              {| opt_source := Some Global; opt_ttl := None;
                 opt_progressCallback := Some 4%nat |}
              (busyHub true Working)
              {| client_id := 1;
                 serverCapabilities :=
                   Some {| cap_tasks := true; cap_resources_subscribe := false |} |}
              4%nat eq_refl eq_refl eq_refl ltac:(discriminate))
    as (_ & Ho & Htok & _).
  split; [exact Ho|]. subst r. rewrite Htok. apply lookup_delete_eq.
Defined.

(** Witness of X18: a hub that lists no connection. *)
Lemma no_client_witness :
  getTask {| te_reply := Returned None; te_now := 0 |} "srv" "t1" None newHub =
    mkRun (Thrown (McpError InternalError "Server srv not connected")) newHub [].
Proof.
  destruct (task_operations_need_a_client "srv" None newHub eq_refl) as (_ & Hget & _).
  exact (Hget {| te_reply := Returned None; te_now := 0 |} "t1"%string).
Defined.

(** Witness of X19: the first look at the clock is already past the
    timeout. *)
Lemma polling_timeout_witness :
  let r := pollTaskUntilComplete 0 (Returned "payload"%string)
             [{| ps_clock := 1000; ps_get := {| te_reply := Returned None; te_now := 0 |} |}]
             "srv" "t1"
             {| po_source := Some Global; po_timeoutMs := Some 500;
                po_onStatusChange := false |}
             (busyHub true Working) in
  outcome r = Thrown (McpError InternalError "Task t1 timed out after 500ms") /\
  effects r = [] /\
  is_Some (activeTasks (final r) !! "t1"%string).
Proof.
  intros r.
  destruct (polling_that_gives_up_cleans_nothing "srv" "t1"
              {| po_source := Some Global; po_timeoutMs := Some 500;
                 po_onStatusChange := false |}
              0 (Returned "payload"%string) []
              []
              {| ps_clock := 1000; ps_get := {| te_reply := Returned None; te_now := 0 |} |}
              (busyHub true Working)
              {| client_id := 1;
                 serverCapabilities :=
                   Some {| cap_tasks := true; cap_resources_subscribe := false |} |}
              eq_refl ltac:(constructor)) as (Ho & Hrest).
  split; [exact Ho|]. split; [reflexivity|].
  apply Hrest; [left; reflexivity|]. eexists. reflexivity.
Defined.

(** Witness of X22: a resource of the sample server, whose peer lets
    resources be subscribed to. *)
Lemma subscription_round_trip_witness :
  let subscribed :=
    finalW (subscribeToResource (Returned tt) "srv" "file:///notes" (Some Global)
              subscribableHub) in
  let unsubscribed :=
    finalW (unsubscribeFromResource (Returned tt) "srv" "file:///notes" (Some Global)
              subscribed) in
  "file:///notes"%string ∈ getSubscribedResources "srv" (Some Global) subscribed /\
  ~ ("file:///notes"%string ∈ getSubscribedResources "srv" (Some Global) unsubscribed).
Proof.
  intros subscribed unsubscribed.
  destruct (subscribing_and_unsubscribing_round_trip "srv" "file:///notes" (Some Global)
              subscribableHub
              {| client_id := 1;
                 serverCapabilities :=
                   Some {| cap_tasks := false; cap_resources_subscribe := true |} |}
              eq_refl eq_refl) as (Hin & _ & _ & _ & Hout & _).
  split; [exact Hin | exact Hout].
Defined.
